(** * SFTGAN_ACD_Model: the optimisation orchestration of
      [codes/models/SFTGAN_ACD_model.py]

    The class is glue around an ML framework: it reads a configuration,
    builds criteria, optimizers and schedulers, and on every training step
    issues a sequence of framework calls (forward, criterion, backward,
    optimizer step).  The development below embeds that control logic:

    - configuration values are Python values ([pyval]), looked up in
      dictionaries by string keys, with Python's truthiness, comparison and
      arithmetic on them, and exceptions as results ([res]);
    - a call into the framework is recorded as an [event] of a trace, and the
      tensors it produces are kept as symbolic expressions ([expr]); such a
      call is taken to return;
    - a method is a function from the object ([model]) to a trace and either
      the updated object or the exception raised ([M]).

    Python is Python 3 (an ordering comparison with [None] raises
    [TypeError]) and paths are POSIX paths.  What the class takes from the
    rest of the repository ([BaseModel], [networks], the data loader) is the
    record [environment] and the batch given to [feed_data]. *)

From Stdlib Require Import ZArith Floats Lia.
From stdpp Require Import base gmap strings list.

#[local] Set Warnings "-register-all,-inexact-float".
#[local] Open Scope Z_scope.

(** * The embedding *)

(** ** Python values *)

(** [VDict items missing]: a [dict] with its entries; [missing] is what the
    class's [__missing__] returns for an absent key when it defines one
    ([None] for a plain [dict], whose subscript raises [KeyError]). *)
Inductive pyval :=
| VNone
| VBool (b : bool)
| VInt (z : Z)
| VFloat (f : float)
| VStr (s : string)
| VList (l : list pyval)
| VDict (items : gmap string pyval) (missing : option pyval).

Inductive exn :=
| NotImplementedError (fmt : string) (args : list pyval)
| TypeError (msg : string)
| KeyError (key : string)
| AttributeError (attr : string)
| UnboundLocalError (name : string)
| ZeroDivisionError (msg : string)
| OverflowError (msg : string).

Inductive res (A : Type) :=
| Ok (a : A)
| Raise (e : exn).
Arguments Ok {A} a.
Arguments Raise {A} e.

Definition Z_of_bool (b : bool) : Z := if b then 1 else 0.

(** *** Strings *)

Fixpoint startswith (s p : string) {struct p} : bool :=
  match p, s with
  | EmptyString, _ => true
  | String a p', String b s' => Ascii.eqb a b && startswith s' p'
  | String _ _, EmptyString => false
  end.

Definition endswith (s p : string) : bool :=
  (String.length p <=? String.length s)%nat &&
  String.eqb (String.substring (String.length s - String.length p) (String.length p) s) p.

(** [contains p s] is Python's [p in s] on strings. *)
Fixpoint contains (p s : string) : bool :=
  startswith s p ||
  match s with
  | EmptyString => false
  | String _ s' => contains p s'
  end.

Fixpoint str_repeat (n : nat) (s : string) : string :=
  match n with
  | O => EmptyString
  | S n' => s +:+ str_repeat n' s
  end.

Definition nl : string := String (Ascii.ascii_of_nat 10) EmptyString.

(** [os.path.join] of [posixpath]. *)
Definition join_step (path b : string) : string :=
  if startswith b "/" then b
  else if String.eqb path "" || endswith path "/" then path +:+ b
  else path +:+ "/" +:+ b.

Definition os_path_join (a : string) (p : list string) : string :=
  fold_left join_step p a.

(** *** Floats: the exact value of a float against an integer *)

Definition SF_compare_Z (f : spec_float) (z : Z) : option comparison :=
  match f with
  | S754_nan => None
  | S754_infinity s => Some (if s then Lt else Gt)
  | S754_zero _ => Some (0 ?= z)
  | S754_finite s m e =>
      let n := if s then Z.neg m else Z.pos m in
      Some (if 0 <=? e then n * 2 ^ e ?= z else n ?= z * 2 ^ (- e))
  end.

Definition float_compare_Z (f : float) (z : Z) : option comparison :=
  SF_compare_Z (Prim2SF f) z.

(** [float(z)]: round to nearest even, [OverflowError] beyond the range. *)
Definition float_of_Z (z : Z) : res float :=
  let f := SF2Prim (binary_normalize prec emax z 0 false) in
  if is_infinity f then Raise (OverflowError "int too large to convert to float")
  else Ok f.

(** C's [fmod] on the specification of floats: exact, with the sign of [x]. *)
Definition SF_fmod (x y : spec_float) : spec_float :=
  match x with
  | S754_nan | S754_infinity _ => S754_nan
  | S754_zero _ =>
      match y with
      | S754_nan | S754_zero _ => S754_nan
      | _ => x
      end
  | S754_finite sx mx ex =>
      match y with
      | S754_nan | S754_zero _ => S754_nan
      | S754_infinity _ => x
      | S754_finite _ my ey =>
          let e := Z.min ex ey in
          let r := (Z.pos mx * 2 ^ (ex - e)) mod (Z.pos my * 2 ^ (ey - e)) in
          if r =? 0 then S754_zero sx
          else binary_normalize prec emax (cond_Zopp sx r) e false
      end
  end.

(** [float.__mod__]: the remainder takes the sign of the divisor. *)
Definition float_rem (vx wx : float) : res float :=
  if (wx =? 0)%float then Raise (ZeroDivisionError "float modulo")
  else
    let m := SF2Prim (SF_fmod (Prim2SF vx) (Prim2SF wx)) in
    Ok (if (m =? 0)%float then (if get_sign wx then neg_zero else zero)
        else if xorb (wx <? 0)%float (m <? 0)%float then (m + wx)%float
        else m).

(** *** Operators, as the class uses them *)

(** [bool(v)] *)
Definition truthy (v : pyval) : bool :=
  match v with
  | VNone => false
  | VBool b => b
  | VInt z => negb (z =? 0)
  | VFloat f => negb (f =? 0)%float
  | VStr s => negb (String.eqb s "")
  | VList l => match l with [] => false | _ => true end
  | VDict items _ => negb (bool_decide (items = ∅))
  end.

Definition is_None (v : pyval) : bool :=
  match v with VNone => true | _ => false end.

(** [bool(o)] for an attribute holding [None] or a module. *)
Definition not_None {A} (o : option A) : bool :=
  match o with Some _ => true | None => false end.

(** [v == s] for a string literal [s] *)
Definition py_eq_str (v : pyval) (s : string) : bool :=
  match v with VStr t => String.eqb t s | _ => false end.

(** [v == z] for an integer [z] *)
Definition py_eq_int (v : pyval) (z : Z) : bool :=
  match v with
  | VBool b => Z_of_bool b =? z
  | VInt a => a =? z
  | VFloat f => match float_compare_Z f z with Some Eq => true | _ => false end
  | _ => false
  end.

(** [v > z] for an integer [z] *)
Definition py_gt_int (v : pyval) (z : Z) : res bool :=
  match v with
  | VBool b => Ok (z <? Z_of_bool b)
  | VInt a => Ok (z <? a)
  | VFloat f => Ok (match float_compare_Z f z with Some Gt => true | _ => false end)
  | _ => Raise (TypeError "'>' not supported between these operands")
  end.

(** [z > v] for an integer [z] *)
Definition py_int_gt (z : Z) (v : pyval) : res bool :=
  match v with
  | VBool b => Ok (Z_of_bool b <? z)
  | VInt a => Ok (a <? z)
  | VFloat f => Ok (match float_compare_Z f z with Some Lt => true | _ => false end)
  | _ => Raise (TypeError "'>' not supported between these operands")
  end.

(** [z % v] for an integer [z] *)
Definition py_int_mod (z : Z) (v : pyval) : res pyval :=
  match v with
  | VBool b =>
      if b then Ok (VInt (z mod 1))
      else Raise (ZeroDivisionError "integer division or modulo by zero")
  | VInt a =>
      if a =? 0 then Raise (ZeroDivisionError "integer division or modulo by zero")
      else Ok (VInt (z mod a))
  | VFloat f =>
      match float_of_Z z with
      | Ok x => match float_rem x f with Ok r => Ok (VFloat r) | Raise e => Raise e end
      | Raise e => Raise e
      end
  | _ => Raise (TypeError "unsupported operand type(s) for %")
  end.

(** [v * z] for an integer [z] *)
Definition py_mul_int (v : pyval) (z : Z) : res pyval :=
  match v with
  | VBool b => Ok (VInt (Z_of_bool b * z))
  | VInt a => Ok (VInt (a * z))
  | VFloat f =>
      match float_of_Z z with
      | Ok x => Ok (VFloat (f * x)%float)
      | Raise e => Raise e
      end
  | VStr s => Ok (VStr (str_repeat (Z.to_nat z) s))
  | VList l => Ok (VList (concat (replicate (Z.to_nat z) l)))
  | _ => Raise (TypeError "unsupported operand type(s) for *")
  end.

(** [v[k]] for a string key [k] *)
Definition subscript (v : pyval) (k : string) : res pyval :=
  match v with
  | VDict items missing =>
      match items !! k with
      | Some x => Ok x
      | None =>
          match missing with
          | Some x => Ok x
          | None => Raise (KeyError k)
          end
      end
  | _ => Raise (TypeError "object is not subscriptable by a string key")
  end.

(** ** The framework boundary: identifiers, symbolic tensors, events *)

Inductive net := NetG | NetD | NetF.
Inductive criterion := CriPix | CriFea | CriGan | CriCe | CriGp.
Inductive optimizer := Optimizer_G_SFT | Optimizer_G_other | Optimizer_D.
Inductive loss_kind := L1Loss | MSELoss.
Inductive file_mode := FileW | FileA.

(** A network parameter, by its identity. *)
Definition parameter := nat.

(** A tensor handed in by the data loader, with its [size(0)]. *)
Record tensor := { tensor_id : string; size0 : N }.

(** [Variable(t, volatile=...)] *)
Record variable := MkVariable { var_data : tensor; var_volatile : bool }.

(** Values computed by the framework, kept symbolic. *)
Inductive expr :=
| Lit (v : pyval)
| Var (v : variable)
| RandomPt
| Tuple (es : list expr)
| Net (n : net) (arg : expr)
| Item (i : nat) (e : expr)
| Cri (c : criterion) (args : list expr)
| Detach (e : expr)
| Add (a b : expr)
| Sub (a b : expr)
| Mul (a b : expr)
| Data0 (e : expr)
| MeanData (e : expr)
| FloatCpu (e : expr).

Record adam := {
  adam_params : list parameter;
  adam_lr : pyval;
  adam_weight_decay : pyval;
  adam_betas : pyval * pyval
}.

Record scheduler := {
  sched_optimizer : optimizer;
  sched_milestones : pyval;
  sched_gamma : pyval
}.

Inductive event :=
| EPrint (fmt : string) (args : list pyval)
| EDefine (n : net)
| ETrain (n : net)
| EEval (n : net)
| ELoadNetwork (path : pyval) (n : net)
| ESaveNetwork (dir : string) (n : net) (label : string) (iter_label : pyval)
| ECuda (c : criterion)
| EFileWrite (path : string) (mode : file_mode) (content : string)
| EZeroGrad (o : optimizer)
| EStep (o : optimizer)
| EForward (n : net) (arg : expr)
| ECriterion (c : criterion) (args : list expr)
| EBackward (loss : expr)
| EResizeRandomPt (batch : N)
| EUniformRandomPt
| ERequiresGrad (e : expr).

(** ** Traces and exceptions *)

Definition M (A : Type) : Type := list event * res A.

#[global] Instance M_ret : MRet M := λ A a, ([], Ok a).
#[global] Instance M_bind : MBind M := λ A B k c,
  match c with
  | (t, Ok a) => let '(t', r) := k a in (t ++ t', r)
  | (t, Raise e) => (t, Raise e)
  end.

Definition emit (e : event) : M unit := ([e], Ok tt).
Definition raise {A} (e : exn) : M A := ([], Raise e).
Definition lift {A} (r : res A) : M A := ([], r).

(** Reading an attribute that may never have been assigned. *)
Definition attr {A} (name : string) (o : option A) : M A :=
  match o with
  | Some a => mret a
  | None => raise (AttributeError name)
  end.

Definition when (b : bool) (c : M unit) : M unit :=
  if b then c else mret tt.

Fixpoint for_each {A B} (f : A → M B) (l : list A) : M (list B) :=
  match l with
  | [] => mret []
  | a :: l' => b ← f a; bs ← for_each f l'; mret (b :: bs)
  end.

(** [d[k] = v] on an [OrderedDict]: a present key keeps its place. *)
Fixpoint od_set {V} (k : string) (v : V) (d : list (string * V)) : list (string * V) :=
  match d with
  | [] => [(k, v)]
  | (k', v') :: d' => if String.eqb k' k then (k, v) :: d' else (k', v') :: od_set k v d'
  end.

(** ** The object *)

(** The attributes [__init__] assigns in training mode.  An attribute that
    is assigned on some paths only is an [option] ([None]: never assigned);
    [cri_pix] and [cri_fea] hold Python's [None] or a criterion module. *)
Record trainer := {
  cri_pix : option loss_kind;
  l_pix_w : option pyval;
  cri_fea : option loss_kind;
  l_fea_w : option pyval;
  netF : bool;
  cri_gan : pyval;
  l_gan_w : pyval;
  D_update_ratio : pyval;
  D_init_iters : pyval;
  random_pt : option N;
  cri_gp : bool;
  l_gp_w : option pyval;
  optimizer_G_SFT : adam;
  optimizer_G_other : adam;
  optimizer_D : adam;
  optimizers : list optimizer;
  schedulers : list scheduler;
  log_dict : list (string * expr)
}.

Record model := {
  opt : pyval;
  is_train : bool;
  use_gpu : bool;
  save_dir : string;
  netG_training : bool;
  netD : option bool;
  train : option trainer;
  var_L : option variable;
  var_seg : option variable;
  var_cat : option variable;
  var_H : option variable;
  fake_H : option expr
}.

Definition set_train (self : model) (t : trainer) : model :=
  {| opt := opt self; is_train := is_train self; use_gpu := use_gpu self;
     save_dir := save_dir self; netG_training := netG_training self;
     netD := netD self; train := Some t;
     var_L := var_L self; var_seg := var_seg self; var_cat := var_cat self;
     var_H := var_H self; fake_H := fake_H self |}.

Definition set_fake_H (self : model) (e : expr) : model :=
  {| opt := opt self; is_train := is_train self; use_gpu := use_gpu self;
     save_dir := save_dir self; netG_training := netG_training self;
     netD := netD self; train := train self;
     var_L := var_L self; var_seg := var_seg self; var_cat := var_cat self;
     var_H := var_H self; fake_H := Some e |}.

Definition set_netG_training (self : model) (b : bool) : model :=
  {| opt := opt self; is_train := is_train self; use_gpu := use_gpu self;
     save_dir := save_dir self; netG_training := b;
     netD := netD self; train := train self;
     var_L := var_L self; var_seg := var_seg self; var_cat := var_cat self;
     var_H := var_H self; fake_H := fake_H self |}.

Definition set_vars (self : model) (vL vseg vcat : variable) (vH : option variable) : model :=
  {| opt := opt self; is_train := is_train self; use_gpu := use_gpu self;
     save_dir := save_dir self; netG_training := netG_training self;
     netD := netD self; train := train self;
     var_L := Some vL; var_seg := Some vseg; var_cat := Some vcat;
     var_H := vH; fake_H := fake_H self |}.

Definition set_log (t : trainer) (rp : option N) (log : list (string * expr)) : trainer :=
  {| cri_pix := cri_pix t; l_pix_w := l_pix_w t; cri_fea := cri_fea t;
     l_fea_w := l_fea_w t; netF := netF t; cri_gan := cri_gan t;
     l_gan_w := l_gan_w t; D_update_ratio := D_update_ratio t;
     D_init_iters := D_init_iters t; random_pt := rp; cri_gp := cri_gp t;
     l_gp_w := l_gp_w t; optimizer_G_SFT := optimizer_G_SFT t;
     optimizer_G_other := optimizer_G_other t; optimizer_D := optimizer_D t;
     optimizers := optimizers t; schedulers := schedulers t; log_dict := log |}.

(** What the rest of the repository hands to this class: the attributes
    [BaseModel.__init__] sets, the parameters of the networks that
    [networks.define_G] and [networks.define_D] build, and the result of
    [BaseModel.get_network_description]. *)
Record environment := {
  env_is_train : bool;
  env_use_gpu : bool;
  env_save_dir : string;
  G_named_parameters : list (string * parameter);
  D_parameters : list parameter;
  get_network_description : net → string * Z
}.

(** ** The methods of [SFTGAN_ACD_Model] *)

Section SFTGAN_ACD_Model.
Variable env : environment.

(** [name], lines 15-16. *)
Definition name : string := "SFTGAN_ACD_Model".

(** [__init__], lines 38-49 and 52-63: a criterion and its weight, or
    neither.  The pixel and the feature blocks differ in their keys and
    messages only. *)
Definition init_loss (train_opt : pyval) (weight_key criterion_key removed : string)
  : M (option loss_kind * option pyval) :=
  w ← lift (subscript train_opt weight_key);
  positive ← lift (py_gt_int w 0);
  if positive : bool then
    l_type ← lift (subscript train_opt criterion_key);
    cri ← (if py_eq_str l_type "l1" then mret L1Loss
           else if py_eq_str l_type "l2" then mret MSELoss
           else raise (NotImplementedError "Loss type [%s] is not recognized." [l_type]));
    w' ← lift (subscript train_opt weight_key);
    mret (Some cri, Some w')
  else
    emit (EPrint removed []);;
    mret (None, None).

(** [train_opt[key] if train_opt[key] else default] *)
Definition get_or (train_opt : pyval) (key : string) (default : pyval) : M pyval :=
  c ← lift (subscript train_opt key);
  if truthy c then lift (subscript train_opt key) else mret default.

(** Lines 99-103: the loop over [netG.named_parameters()]. *)
Definition partition_params (ps : list (string * parameter))
  : list parameter * list parameter :=
  fold_left
    (λ (acc : list parameter * list parameter) (kv : string * parameter),
       if contains "SFT" kv.1 || contains "Cond" kv.1
       then (acc.1 ++ [kv.2], acc.2)
       else (acc.1, acc.2 ++ [kv.2]))
    ps ([], []).

(** Lines 104-107. *)
Definition init_optimizers_G (train_opt wd_G : pyval) : M (adam * adam) :=
  let '(optim_params_SFT, optim_params_other) :=
    partition_params (G_named_parameters env) in
  lr ← lift (subscript train_opt "lr_G");
  lr5 ← lift (py_mul_int lr 5);
  beta1 ← lift (subscript train_opt "beta1_G");
  let optimizer_G_SFT :=
    {| adam_params := optim_params_SFT; adam_lr := lr5;
       adam_weight_decay := wd_G; adam_betas := (beta1, VFloat 0.999) |} in
  lr' ← lift (subscript train_opt "lr_G");
  beta1' ← lift (subscript train_opt "beta1_G");
  let optimizer_G_other :=
    {| adam_params := optim_params_other; adam_lr := lr';
       adam_weight_decay := wd_G; adam_betas := (beta1', VFloat 0.999) |} in
  mret (optimizer_G_SFT, optimizer_G_other).

(** Lines 111-113. *)
Definition init_optimizer_D (train_opt : pyval) : M adam :=
  wd_D ← get_or train_opt "weight_decay_D" (VInt 0);
  lr ← lift (subscript train_opt "lr_D");
  beta1 ← lift (subscript train_opt "beta1_D");
  mret {| adam_params := D_parameters env; adam_lr := lr;
          adam_weight_decay := wd_D; adam_betas := (beta1, VFloat 0.999) |}.

(** Lines 117-123. *)
Definition init_schedulers (train_opt : pyval) (optimizers : list optimizer)
  : M (list scheduler) :=
  scheme ← lift (subscript train_opt "lr_scheme");
  if py_eq_str scheme "MultiStepLR" then
    for_each
      (λ o, steps ← lift (subscript train_opt "lr_steps");
            gamma ← lift (subscript train_opt "lr_gamma");
            mret {| sched_optimizer := o; sched_milestones := steps;
                    sched_gamma := gamma |})
      optimizers
  else raise (NotImplementedError "MultiStepLR learning rate scheme is enough." []).

(** Lines 36-125: the body of [if self.is_train:]. *)
Definition init_train (train_opt : pyval) : M trainer :=
  (* G pixel loss *)
  pix ← init_loss train_opt "pixel_weight" "pixel_criterion" "Remove pixel loss.";
  (* G feature loss *)
  fea ← init_loss train_opt "feature_weight" "feature_criterion" "Remove feature loss.";
  when (not_None fea.1) (emit (EDefine NetF));;
  (* GD gan loss *)
  gan_type ← lift (subscript train_opt "gan_type");
  gan_weight ← lift (subscript train_opt "gan_weight");
  ratio ← get_or train_opt "D_update_ratio" (VInt 1);
  iters ← get_or train_opt "D_init_iters" (VInt 0);
  gan_type' ← lift (subscript train_opt "gan_type");
  gp ← (if py_eq_str gan_type' "wgan-gp" then
          w ← lift (subscript train_opt "gp_weigth");
          mret (Some 1%N, true, Some w)
        else mret (None, false, None));
  when (env_use_gpu env)
    (when (not_None pix.1) (emit (ECuda CriPix));;
     when (not_None fea.1) (emit (ECuda CriFea));;
     emit (ECuda CriGan);;
     emit (ECuda CriCe);;
     gan_type'' ← lift (subscript train_opt "gan_type");
     when (py_eq_str gan_type'' "wgan-gp") (emit (ECuda CriGp)));;
  (* optimizers *)
  wd_G ← get_or train_opt "weight_decay_G" (VInt 0);
  og ← init_optimizers_G train_opt wd_G;
  od ← init_optimizer_D train_opt;
  let optimizers := [Optimizer_G_SFT; Optimizer_G_other; Optimizer_D] in
  (* schedulers *)
  schedulers ← init_schedulers train_opt optimizers;
  mret {| cri_pix := pix.1; l_pix_w := pix.2;
          cri_fea := fea.1; l_fea_w := fea.2;
          netF := not_None fea.1;
          cri_gan := gan_type; l_gan_w := gan_weight;
          D_update_ratio := ratio; D_init_iters := iters;
          random_pt := gp.1.1; cri_gp := gp.1.2; l_gp_w := gp.2;
          optimizer_G_SFT := og.1; optimizer_G_other := og.2;
          optimizer_D := od; optimizers := optimizers;
          schedulers := schedulers; log_dict := [] |}.

(** [load], lines 265-273. *)
Definition load (self : model) : M unit :=
  path ← lift (subscript (opt self) "path");
  load_path_G ← lift (subscript path "pretrain_model_G");
  when (negb (is_None load_path_G))
    (emit (EPrint "loading model for G [%s] ..." [load_path_G]);;
     emit (ELoadNetwork load_path_G NetG));;
  path' ← lift (subscript (opt self) "path");
  load_path_D ← lift (subscript path' "pretrain_model_D");
  is_train_opt ← lift (subscript (opt self) "is_train");
  when (truthy is_train_opt && negb (is_None load_path_D))
    (emit (EPrint "loading model for D [%s] ..." [load_path_D]);;
     _ ← attr "netD" (netD self);
     emit (ELoadNetwork load_path_D NetD)).

(** [print_network], lines 241-263. *)
Definition print_network (self : model) : M unit :=
  (* G *)
  let '(s, n) := get_network_description env NetG in
  emit (EPrint "Number of parameters in G: {:,d}" [VInt n]);;
  when (is_train self)
    (let message := "-------------- Generator --------------" +:+ nl +:+ s +:+ nl in
     let network_path := os_path_join (save_dir self) ["../"; "network.txt"] in
     emit (EFileWrite network_path FileW message);;
     (* D *)
     _ ← attr "netD" (netD self);
     let '(s, n) := get_network_description env NetD in
     emit (EPrint "Number of parameters in D: {:,d}" [VInt n]);;
     let message :=
       nl +:+ nl +:+ nl +:+ "-------------- Discriminator --------------"
          +:+ nl +:+ s +:+ nl in
     emit (EFileWrite network_path FileA message);;
     t ← attr "cri_fea" (train self);
     when (not_None (cri_fea t))
       (* F, Perceptual Network *)
       (_ ← attr "netF" (if netF t then Some tt else None);
        let '(s, n) := get_network_description env NetF in
        emit (EPrint "Number of parameters in F: {:,d}" [VInt n]);;
        let message :=
          nl +:+ nl +:+ nl +:+ "-------------- Perceptual Network --------------"
             +:+ nl +:+ s +:+ nl in
        emit (EFileWrite network_path FileA message))).

(** [__init__], lines 18-129.  [super().__init__(opt)] stores [opt] and
    sets [is_train], [use_gpu] and [save_dir]; a network that
    [networks.define_G] returns is in training mode. *)
Definition __init__ (opt : pyval) : M model :=
  train_opt ← lift (subscript opt "train");
  (* define networks and load pretrained models *)
  emit (EDefine NetG);;
  when (env_is_train env)
    (emit (EDefine NetD);;
     emit (ETrain NetG);;
     emit (ETrain NetD));;
  let self :=
    {| opt := opt; is_train := env_is_train env; use_gpu := env_use_gpu env;
       save_dir := env_save_dir env; netG_training := true;
       netD := if env_is_train env then Some true else None;
       train := None; var_L := None; var_seg := None; var_cat := None;
       var_H := None; fake_H := None |} in
  load self;;
  (* define losses, optimizer and scheduler *)
  self ← (if is_train self
          then t ← init_train train_opt; mret (set_train self t)
          else mret self);
  emit (EPrint "---------- Model initialized ------------------" []);;
  print_network self;;
  emit (EPrint "-----------------------------------------------" []);;
  mret self.

(** [data[key]] on the batch the data loader yields (a plain [dict]). *)
Definition batch_item (data : gmap string tensor) (key : string) : M tensor :=
  match data !! key with
  | Some t => mret t
  | None => raise (KeyError key)
  end.

(** [feed_data], lines 131-148. *)
Definition feed_data (self : model) (data : gmap string tensor)
    (volatile need_HR : bool) : M model :=
  (* LR *)
  input_L ← batch_item data "LR";
  (* seg *)
  input_seg ← batch_item data "seg";
  (* category *)
  input_cat ← batch_item data "category";
  if need_HR then
    input_H ← batch_item data "HR";
    mret (set_vars self (MkVariable input_L volatile) (MkVariable input_seg volatile)
            (MkVariable input_cat volatile) (Some (MkVariable input_H volatile)))
  else
    mret (set_vars self (MkVariable input_L volatile) (MkVariable input_seg volatile)
            (MkVariable input_cat volatile) (var_H self)).

(** [step % self.D_update_ratio == 0 and step > self.D_init_iters] *)
Definition update_G (t : trainer) (step : Z) : res bool :=
  match py_int_mod step (D_update_ratio t) with
  | Ok r => if py_eq_int r 0 then py_int_gt step (D_init_iters t) else Ok false
  | Raise e => Raise e
  end.

(** The local variables the generator block of [optimize_parameters]
    assigns, read again when the log is set. *)
Record g_losses := {
  l_g_pix : option expr;
  l_g_fea : option expr;
  l_g_gan : option expr
}.

Definition add_opt (total : expr) (l : option expr) : expr :=
  match l with
  | Some e => Add total e
  | None => total
  end.

(** [optimize_parameters], lines 158-174: the body of the generator's [if]. *)
Definition optimize_G (self : model) (t : trainer) (fake_H l_g_total : expr)
  : M g_losses :=
  (* pixel loss *)
  l_g_pix ← (if not_None (cri_pix t) then
               w ← attr "l_pix_w" (l_pix_w t);
               vH ← attr "var_H" (var_H self);
               emit (ECriterion CriPix [fake_H; Var vH]);;
               mret (Some (Mul (Lit w) (Cri CriPix [fake_H; Var vH])))
             else mret None);
  let l_g_total := add_opt l_g_total l_g_pix in
  (* feature loss *)
  l_g_fea ← (if not_None (cri_fea t) then
               _ ← attr "netF" (if netF t then Some tt else None);
               vH ← attr "var_H" (var_H self);
               emit (EForward NetF (Var vH));;
               let real_fea := Detach (Net NetF (Var vH)) in
               emit (EForward NetF fake_H);;
               let fake_fea := Net NetF fake_H in
               w ← attr "l_fea_w" (l_fea_w t);
               emit (ECriterion CriFea [fake_fea; real_fea]);;
               mret (Some (Mul (Lit w) (Cri CriFea [fake_fea; real_fea])))
             else mret None);
  let l_g_total := add_opt l_g_total l_g_fea in
  (* G gan + cls loss *)
  _ ← attr "netD" (netD self);
  emit (EForward NetD fake_H);;
  let pred_g_fake := Item 0 (Net NetD fake_H) in
  let cls_g_fake := Item 1 (Net NetD fake_H) in
  emit (ECriterion CriGan [pred_g_fake; Lit (VBool true)]);;
  let l_g_gan := Mul (Lit (l_gan_w t)) (Cri CriGan [pred_g_fake; Lit (VBool true)]) in
  vcat ← attr "var_cat" (var_cat self);
  emit (ECriterion CriCe [cls_g_fake; Var vcat]);;
  let l_g_cls := Mul (Lit (l_gan_w t)) (Cri CriCe [cls_g_fake; Var vcat]) in
  let l_g_total := Add l_g_total l_g_gan in
  let l_g_total := Add l_g_total l_g_cls in
  emit (EBackward l_g_total);;
  emit (EStep Optimizer_G_SFT);;
  mret {| l_g_pix := l_g_pix; l_g_fea := l_g_fea; l_g_gan := Some l_g_gan |}.

(** [self.opt['train']['gan_type'] == 'wgan-gp'] *)
Definition is_wgan_gp (self : model) : M bool :=
  train_opt ← lift (subscript (opt self) "train");
  gan_type ← lift (subscript train_opt "gan_type");
  mret (py_eq_str gan_type "wgan-gp").

(** Lines 193-201: the gradient penalty; returns [l_d_gp] and the size of
    [self.random_pt]. *)
Definition gradient_penalty (self : model) (t : trainer) (fake_H : expr)
  : M (expr * N) :=
  vH ← attr "var_H" (var_H self);
  let batch_size := size0 (var_data vH) in
  size ← attr "random_pt" (random_pt t);
  when (negb (size =? batch_size)%N) (emit (EResizeRandomPt batch_size));;
  emit EUniformRandomPt;;
  let interp :=
    Detach (Add (Mul RandomPt fake_H) (Mul (Sub (Lit (VInt 1)) RandomPt) (Var vH))) in
  emit (ERequiresGrad interp);;
  _ ← attr "netD" (netD self);
  emit (EForward NetD interp);;
  let interp_crit := Item 0 (Net NetD interp) in
  w ← attr "l_gp_w" (l_gp_w t);
  _ ← attr "cri_gp" (if cri_gp t then Some tt else None);
  emit (ECriterion CriGp [interp; interp_crit]);;
  mret (Mul (Lit w) (Cri CriGp [interp; interp_crit]), batch_size).

(** A local variable that is read: [UnboundLocalError] when never assigned. *)
Definition local {A} (name : string) (o : option A) : M A :=
  match o with
  | Some a => mret a
  | None => raise (UnboundLocalError name)
  end.

(** Lines 207-213: the generator's entries of the log. *)
Definition log_G (t : trainer) (g : g_losses) (log : list (string * expr))
  : M (list (string * expr)) :=
  log ← (if not_None (cri_pix t) then
           l ← local "l_g_pix" (l_g_pix g); mret (od_set "l_g_pix" (Data0 l) log)
         else mret log);
  log ← (if not_None (cri_fea t) then
           l ← local "l_g_fea" (l_g_fea g); mret (od_set "l_g_fea" (Data0 l) log)
         else mret log);
  l ← local "l_g_gan" (l_g_gan g);
  mret (od_set "l_g_gan" (Data0 l) log).

(** [optimize_parameters], lines 150-223. *)
Definition optimize_parameters (self : model) (step : Z) : M model :=
  (* G *)
  t ← attr "optimizer_G_SFT" (train self);
  emit (EZeroGrad Optimizer_G_SFT);;
  emit (EZeroGrad Optimizer_G_other);;
  vL ← attr "var_L" (var_L self);
  vseg ← attr "var_seg" (var_seg self);
  emit (EForward NetG (Tuple [Var vL; Var vseg]));;
  let fake_H := Net NetG (Tuple [Var vL; Var vseg]) in
  let l_g_total := Lit (VInt 0) in
  update ← lift (update_G t step);
  g ← (if update : bool then optimize_G self t fake_H l_g_total
       else mret {| l_g_pix := None; l_g_fea := None; l_g_gan := None |});
  when (20000 <? step) (emit (EStep Optimizer_G_other));;
  (* D *)
  emit (EZeroGrad Optimizer_D);;
  (* real data *)
  _ ← attr "netD" (netD self);
  vH ← attr "var_H" (var_H self);
  emit (EForward NetD (Var vH));;
  let pred_d_real := Item 0 (Net NetD (Var vH)) in
  let cls_d_real := Item 1 (Net NetD (Var vH)) in
  emit (ECriterion CriGan [pred_d_real; Lit (VBool true)]);;
  let l_d_real := Cri CriGan [pred_d_real; Lit (VBool true)] in
  vcat ← attr "var_cat" (var_cat self);
  emit (ECriterion CriCe [cls_d_real; Var vcat]);;
  let l_d_cls_real := Cri CriCe [cls_d_real; Var vcat] in
  (* fake data *)
  emit (EForward NetD (Detach fake_H));;
  let pred_d_fake := Item 0 (Net NetD (Detach fake_H)) in
  let cls_d_fake := Item 1 (Net NetD (Detach fake_H)) in
  emit (ECriterion CriGan [pred_d_fake; Lit (VBool false)]);;
  let l_d_fake := Cri CriGan [pred_d_fake; Lit (VBool false)] in
  emit (ECriterion CriCe [cls_d_fake; Var vcat]);;
  let l_d_cls_fake := Cri CriCe [cls_d_fake; Var vcat] in
  let l_d_total := Add (Add (Add l_d_real l_d_cls_real) l_d_fake) l_d_cls_fake in
  wgan_gp ← is_wgan_gp self;
  gp ← (if wgan_gp : bool then
          r ← gradient_penalty self t fake_H; mret (Some r.1, Some r.2)
        else mret (None, random_pt t));
  let l_d_gp := gp.1 in
  let l_d_total := add_opt l_d_total l_d_gp in
  emit (EBackward l_d_total);;
  emit (EStep Optimizer_D);;
  (* set log *)
  update' ← lift (update_G t step);
  log ← (if update' : bool then log_G t g (log_dict t) else mret (log_dict t));
  (* D *)
  let log := od_set "l_d_real" (Data0 l_d_real) log in
  let log := od_set "l_d_fake" (Data0 l_d_fake) log in
  let log := od_set "l_d_cls_real" (Data0 l_d_cls_real) log in
  let log := od_set "l_d_cls_fake" (Data0 l_d_cls_fake) log in
  wgan_gp' ← is_wgan_gp self;
  log ← (if wgan_gp' : bool then
           l ← local "l_d_gp" l_d_gp; mret (od_set "l_d_gp" (Data0 l) log)
         else mret log);
  (* D outputs *)
  let log := od_set "D_real" (MeanData pred_d_real) log in
  let log := od_set "D_fake" (MeanData pred_d_fake) log in
  mret (set_fake_H (set_train self (set_log t gp.2 log)) fake_H).

(** [test], lines 225-228. *)
Definition test (self : model) : M model :=
  emit (EEval NetG);;
  let self := set_netG_training self false in
  vL ← attr "var_L" (var_L self);
  vseg ← attr "var_seg" (var_seg self);
  emit (EForward NetG (Tuple [Var vL; Var vseg]));;
  let self := set_fake_H self (Net NetG (Tuple [Var vL; Var vseg])) in
  emit (ETrain NetG);;
  mret (set_netG_training self true).

(** [get_current_log], lines 230-231. *)
Definition get_current_log (self : model) : M (list (string * expr)) :=
  t ← attr "log_dict" (train self);
  mret (log_dict t).

(** [get_current_visuals], lines 233-239. *)
Definition get_current_visuals (self : model) (need_HR : bool)
  : M (list (string * expr)) :=
  vL ← attr "var_L" (var_L self);
  let out_dict := od_set "LR" (FloatCpu (Data0 (Var vL))) [] in
  fake ← attr "fake_H" (fake_H self);
  let out_dict := od_set "SR" (FloatCpu (Data0 fake)) out_dict in
  if need_HR then
    vH ← attr "var_H" (var_H self);
    mret (od_set "HR" (FloatCpu (Data0 (Var vH))) out_dict)
  else mret out_dict.

(** [save], lines 275-277. *)
Definition save (self : model) (iter_label : pyval) : M unit :=
  emit (ESaveNetwork (save_dir self) NetG "G" iter_label);;
  _ ← attr "netD" (netD self);
  emit (ESaveNetwork (save_dir self) NetD "D" iter_label).

End SFTGAN_ACD_Model.

(** ** Observations of a trace *)

(** The events of a trace that write a file: text written through [open],
    and a checkpoint saved through [save_network]. *)
Inductive file_effect :=
| WriteText (path : string) (mode : file_mode) (content : string)
| SaveCheckpoint (dir : string) (n : net) (label : string) (iter_label : pyval).

Definition file_write (e : event) : option file_effect :=
  match e with
  | EFileWrite path mode content => Some (WriteText path mode content)
  | ESaveNetwork dir n label iter_label => Some (SaveCheckpoint dir n label iter_label)
  | _ => None
  end.

Definition file_writes (tr : list event) : list file_effect :=
  omap file_write tr.

#[global] Instance optimizer_eq_dec : EqDecision optimizer.
Proof. solve_decision. Defined.
#[global] Instance net_eq_dec : EqDecision net.
Proof. solve_decision. Defined.
#[global] Instance tensor_eq_dec : EqDecision tensor.
Proof. solve_decision. Defined.
#[global] Instance variable_eq_dec : EqDecision variable.
Proof. solve_decision. Defined.

Definition is_step (o : optimizer) (e : event) : bool :=
  match e with EStep o' => bool_decide (o' = o) | _ => false end.

Definition is_zero_grad (o : optimizer) (e : event) : bool :=
  match e with EZeroGrad o' => bool_decide (o' = o) | _ => false end.

Definition backward (e : event) : option expr :=
  match e with EBackward l => Some l | _ => None end.

Definition criterion_call (e : event) : option criterion :=
  match e with ECriterion c _ => Some c | _ => None end.

Definition forward (n : net) (e : event) : option expr :=
  match e with
  | EForward n' arg => if bool_decide (n' = n) then Some arg else None
  | _ => None
  end.

(** The arguments of the calls of the classification criterion. *)
Definition ce_call (e : event) : option (list expr) :=
  match e with
  | ECriterion CriCe args => Some args
  | _ => None
  end.

Definition count (p : event → bool) (tr : list event) : nat :=
  length (filter (λ e, p e = true) tr).

(** [mentions v e]: the variable [v] occurs in the expression [e]. *)
Fixpoint mentions (v : variable) (e : expr) : bool :=
  match e with
  | Lit _ | RandomPt => false
  | Var v' => bool_decide (v' = v)
  | Tuple es => existsb (mentions v) es
  | Cri _ args => existsb (mentions v) args
  | Net _ a | Item _ a | Detach a | Data0 a | MeanData a | FloatCpu a =>
      mentions v a
  | Add a b | Sub a b | Mul a b => mentions v a || mentions v b
  end.

(** A computation whose trace writes no file; one that raises; one whose
    trace writes no file when it raises. *)
Definition quiet {A} (c : M A) : Prop := file_writes c.1 = [].

Definition raises {A} (c : M A) : Prop := ∃ tr e, c = (tr, Raise e).

Definition fails_quietly {A} (c : M A) : Prop :=
  ∀ tr e, c = (tr, Raise e) → file_writes tr = [].

(** ** A training step on an initialised and fed object *)

(** [fed self t vL vseg vcat vH wgan_gp]: the object has the attributes a
    training step reads.  They are the ones [__init__] assigns in training
    mode ([init_feed_fed] below) together with the variables of a batch that
    [feed_data] stores; [wgan_gp] is the value of
    [self.opt['train']['gan_type'] == 'wgan-gp']. *)
Record fed (self : model) (t : trainer) (vL vseg vcat vH : variable)
    (wgan_gp : bool) : Prop := {
  fed_train : train self = Some t;
  fed_netD : is_Some (netD self);
  fed_var_L : var_L self = Some vL;
  fed_var_seg : var_seg self = Some vseg;
  fed_var_cat : var_cat self = Some vcat;
  fed_var_H : var_H self = Some vH;
  fed_pix : is_Some (cri_pix t) → is_Some (l_pix_w t);
  fed_fea : is_Some (cri_fea t) → is_Some (l_fea_w t) ∧ netF t = true;
  fed_ratio : truthy (D_update_ratio t) = true;
  fed_gan_type : is_wgan_gp self = ([], Ok wgan_gp);
  fed_gp : wgan_gp = true →
           is_Some (random_pt t) ∧ cri_gp t = true ∧ is_Some (l_gp_w t)
}.

(** The terms of the two losses, as the code builds them. *)
Definition fake_of (vL vseg : variable) : expr :=
  Net NetG (Tuple [Var vL; Var vseg]).

Definition pix_term (t : trainer) (fake : expr) (vH : variable) : option expr :=
  match cri_pix t with
  | Some _ => (λ w, Mul (Lit w) (Cri CriPix [fake; Var vH])) <$> l_pix_w t
  | None => None
  end.

Definition fea_term (t : trainer) (fake : expr) (vH : variable) : option expr :=
  match cri_fea t with
  | Some _ =>
      (λ w, Mul (Lit w) (Cri CriFea [Net NetF fake; Detach (Net NetF (Var vH))]))
        <$> l_fea_w t
  | None => None
  end.

Definition gan_term (t : trainer) (fake : expr) : expr :=
  Mul (Lit (l_gan_w t)) (Cri CriGan [Item 0 (Net NetD fake); Lit (VBool true)]).

Definition cls_term (t : trainer) (fake : expr) (vcat : variable) : expr :=
  Mul (Lit (l_gan_w t)) (Cri CriCe [Item 1 (Net NetD fake); Var vcat]).

Definition l_g_total_of (t : trainer) (fake : expr) (vcat vH : variable) : expr :=
  Add (Add (add_opt (add_opt (Lit (VInt 0)) (pix_term t fake vH)) (fea_term t fake vH))
           (gan_term t fake))
      (cls_term t fake vcat).

Definition interp_of (fake : expr) (vH : variable) : expr :=
  Detach (Add (Mul RandomPt fake) (Mul (Sub (Lit (VInt 1)) RandomPt) (Var vH))).

Definition gp_term (t : trainer) (wgan_gp : bool) (fake : expr) (vH : variable)
  : option expr :=
  if wgan_gp then
    (λ w, Mul (Lit w) (Cri CriGp [interp_of fake vH; Item 0 (Net NetD (interp_of fake vH))]))
      <$> l_gp_w t
  else None.

Definition l_d_total_of (t : trainer) (wgan_gp : bool) (fake : expr)
    (vcat vH : variable) : expr :=
  add_opt
    (Add (Add (Add (Cri CriGan [Item 0 (Net NetD (Var vH)); Lit (VBool true)])
                   (Cri CriCe [Item 1 (Net NetD (Var vH)); Var vcat]))
              (Cri CriGan [Item 0 (Net NetD (Detach fake)); Lit (VBool false)]))
         (Cri CriCe [Item 1 (Net NetD (Detach fake)); Var vcat]))
    (gp_term t wgan_gp fake vH).

(** The events of the generator's [if] and of the discriminator's update. *)
Definition G_update_trace (t : trainer) (fake : expr) (vcat vH : variable)
  : list event :=
  (if not_None (cri_pix t) then [ECriterion CriPix [fake; Var vH]] else [])
  ++ (if not_None (cri_fea t)
      then [EForward NetF (Var vH); EForward NetF fake;
            ECriterion CriFea [Net NetF fake; Detach (Net NetF (Var vH))]]
      else [])
  ++ [EForward NetD fake;
      ECriterion CriGan [Item 0 (Net NetD fake); Lit (VBool true)];
      ECriterion CriCe [Item 1 (Net NetD fake); Var vcat];
      EBackward (l_g_total_of t fake vcat vH);
      EStep Optimizer_G_SFT].

Definition gp_trace (t : trainer) (wgan_gp : bool) (fake : expr) (vH : variable)
  : list event :=
  if wgan_gp then
    (if (default 0%N (random_pt t) =? size0 (var_data vH))%N then []
     else [EResizeRandomPt (size0 (var_data vH))])
    ++ [EUniformRandomPt;
        ERequiresGrad (interp_of fake vH);
        EForward NetD (interp_of fake vH);
        ECriterion CriGp [interp_of fake vH; Item 0 (Net NetD (interp_of fake vH))]]
  else [].

Definition D_update_trace (t : trainer) (wgan_gp : bool) (fake : expr)
    (vcat vH : variable) : list event :=
  [EZeroGrad Optimizer_D;
   EForward NetD (Var vH);
   ECriterion CriGan [Item 0 (Net NetD (Var vH)); Lit (VBool true)];
   ECriterion CriCe [Item 1 (Net NetD (Var vH)); Var vcat];
   EForward NetD (Detach fake);
   ECriterion CriGan [Item 0 (Net NetD (Detach fake)); Lit (VBool false)];
   ECriterion CriCe [Item 1 (Net NetD (Detach fake)); Var vcat]]
  ++ gp_trace t wgan_gp fake vH
  ++ [EBackward (l_d_total_of t wgan_gp fake vcat vH); EStep Optimizer_D].

Definition G_head_trace (vL vseg : variable) : list event :=
  [EZeroGrad Optimizer_G_SFT; EZeroGrad Optimizer_G_other;
   EForward NetG (Tuple [Var vL; Var vseg])].

(** ** What [__init__] leaves *)

(** What [__init__] leaves in a trainer, in terms of the configuration. *)
Record init_train_spec (env : environment) (train_opt : pyval) (t : trainer)
  : Prop := {
  its_pix :
    ∃ w b, subscript train_opt "pixel_weight" = Ok w ∧ py_gt_int w 0 = Ok b ∧
           not_None (cri_pix t) = b ∧ l_pix_w t = (if b then Some w else None);
  its_fea :
    ∃ w b, subscript train_opt "feature_weight" = Ok w ∧ py_gt_int w 0 = Ok b ∧
           not_None (cri_fea t) = b ∧ l_fea_w t = (if b then Some w else None) ∧
           netF t = b;
  its_gan :
    ∃ g, subscript train_opt "gan_type" = Ok g ∧ cri_gan t = g ∧
         if py_eq_str g "wgan-gp"
         then ∃ w, subscript train_opt "gp_weigth" = Ok w ∧ l_gp_w t = Some w ∧
                   random_pt t = Some 1%N ∧ cri_gp t = true
         else l_gp_w t = None ∧ random_pt t = None ∧ cri_gp t = false;
  its_gan_w : subscript train_opt "gan_weight" = Ok (l_gan_w t);
  its_ratio :
    ∃ c, subscript train_opt "D_update_ratio" = Ok c ∧
         D_update_ratio t = (if truthy c then c else VInt 1);
  its_iters :
    ∃ c, subscript train_opt "D_init_iters" = Ok c ∧
         D_init_iters t = (if truthy c then c else VInt 0);
  its_optimizers_G :
    ∃ c lr lr5 beta1,
      subscript train_opt "weight_decay_G" = Ok c ∧
      subscript train_opt "lr_G" = Ok lr ∧ py_mul_int lr 5 = Ok lr5 ∧
      subscript train_opt "beta1_G" = Ok beta1 ∧
      optimizer_G_SFT t =
        {| adam_params := (partition_params (G_named_parameters env)).1;
           adam_lr := lr5;
           adam_weight_decay := (if truthy c then c else VInt 0);
           adam_betas := (beta1, VFloat 0.999) |} ∧
      optimizer_G_other t =
        {| adam_params := (partition_params (G_named_parameters env)).2;
           adam_lr := lr;
           adam_weight_decay := (if truthy c then c else VInt 0);
           adam_betas := (beta1, VFloat 0.999) |};
  its_optimizer_D :
    ∃ c lr beta1,
      subscript train_opt "weight_decay_D" = Ok c ∧
      subscript train_opt "lr_D" = Ok lr ∧
      subscript train_opt "beta1_D" = Ok beta1 ∧
      optimizer_D t =
        {| adam_params := D_parameters env; adam_lr := lr;
           adam_weight_decay := (if truthy c then c else VInt 0);
           adam_betas := (beta1, VFloat 0.999) |};
  its_optimizers :
    optimizers t = [Optimizer_G_SFT; Optimizer_G_other; Optimizer_D];
  its_schedulers :
    ∃ s steps gamma,
      subscript train_opt "lr_scheme" = Ok s ∧ py_eq_str s "MultiStepLR" = true ∧
      subscript train_opt "lr_steps" = Ok steps ∧
      subscript train_opt "lr_gamma" = Ok gamma ∧
      schedulers t =
        (λ o, {| sched_optimizer := o; sched_milestones := steps;
                 sched_gamma := gamma |})
          <$> [Optimizer_G_SFT; Optimizer_G_other; Optimizer_D];
  its_log : log_dict t = []
}.

(** The file that [print_network] writes, and what it writes to it. *)
Definition network_path (dir : string) : string :=
  os_path_join dir ["../"; "network.txt"].

Definition description_message (title : string) (env : environment) (n : net)
  : string :=
  title +:+ nl +:+ (get_network_description env n).1 +:+ nl.

Definition network_txt (env : environment) (dir : string) (perceptual : bool)
  : list file_effect :=
  [WriteText (network_path dir) FileW
     (description_message "-------------- Generator --------------" env NetG);
   WriteText (network_path dir) FileA
     (nl +:+ nl +:+ nl +:+
      description_message "-------------- Discriminator --------------" env NetD)]
  ++ (if perceptual
      then [WriteText (network_path dir) FileA
              (nl +:+ nl +:+ nl +:+
               description_message "-------------- Perceptual Network --------------"
                 env NetF)]
      else []).

(** What [__init__] returns, in terms of the configuration. *)
Record init_spec (env : environment) (o : pyval) (self : model) : Prop := {
  is_opt : opt self = o;
  is_is_train : is_train self = env_is_train env;
  is_use_gpu : use_gpu self = env_use_gpu env;
  is_save_dir : save_dir self = env_save_dir env;
  is_netG : netG_training self = true;
  is_netD : netD self = (if env_is_train env then Some true else None);
  is_vars : var_L self = None ∧ var_seg self = None ∧ var_cat self = None
            ∧ var_H self = None ∧ fake_H self = None;
  is_trainer :
    if env_is_train env
    then ∃ train_opt t,
           subscript o "train" = Ok train_opt ∧ train self = Some t ∧
           init_train_spec env train_opt t
    else train self = None
}.

(** ** Concrete configurations *)

Module Example.

(** A dictionary that reads [None] at a missing key. *)
Definition NoneDict (l : list (string * pyval)) : pyval :=
  VDict (list_to_map l) (Some VNone).

Definition train_opt : pyval :=
  NoneDict
    [("pixel_weight", VInt 1); ("pixel_criterion", VStr "l1");
     ("feature_weight", VInt 0);
     ("gan_type", VStr "wgan-gp"); ("gan_weight", VFloat 0.005);
     ("gp_weigth", VInt 10);
     ("D_update_ratio", VInt 2); ("D_init_iters", VInt 3);
     ("lr_G", VFloat 0.0001); ("beta1_G", VFloat 0.9);
     ("lr_D", VFloat 0.0001); ("beta1_D", VFloat 0.9);
     ("lr_scheme", VStr "MultiStepLR");
     ("lr_steps", VList [VInt 50000; VInt 100000]); ("lr_gamma", VFloat 0.5)].

Definition o : pyval :=
  NoneDict [("train", train_opt); ("path", NoneDict []); ("is_train", VBool true)].

Definition env : environment :=
  {| env_is_train := true; env_use_gpu := false; env_save_dir := "exp/models";
     G_named_parameters :=
       [("CondNet.0.weight", 0%nat); ("conv0.weight", 1%nat);
        ("sft_branch.SFT_scale_conv0.weight", 2%nat); ("HR_branch.0.bias", 3%nat)];
     D_parameters := [10%nat; 11%nat];
     get_network_description :=
       λ n, match n with
            | NetG => ("SFT_Net()", 100)
            | NetD => ("ACD_VGG_BN_96()", 200)
            | NetF => ("VGGFeatureExtractor()", 300)
            end |}.

Definition data : gmap string tensor :=
  list_to_map
    [("LR", {| tensor_id := "LR"; size0 := 16 |});
     ("seg", {| tensor_id := "seg"; size0 := 16 |});
     ("category", {| tensor_id := "category"; size0 := 16 |});
     ("HR", {| tensor_id := "HR"; size0 := 16 |})].

Definition vL : variable := MkVariable {| tensor_id := "LR"; size0 := 16 |} false.

Definition vseg : variable := MkVariable {| tensor_id := "seg"; size0 := 16 |} false.

Definition vcat : variable := MkVariable {| tensor_id := "category"; size0 := 16 |} false.

Definition vH : variable := MkVariable {| tensor_id := "HR"; size0 := 16 |} false.

(** The trainer and the object that [__init__] builds from [o], and the
    object after [feed_data]. *)
Definition t : trainer :=
  {| cri_pix := Some L1Loss; l_pix_w := Some (VInt 1);
     cri_fea := None; l_fea_w := None; netF := false;
     cri_gan := VStr "wgan-gp"; l_gan_w := VFloat 0.005;
     D_update_ratio := VInt 2; D_init_iters := VInt 3;
     random_pt := Some 1%N; cri_gp := true; l_gp_w := Some (VInt 10);
     optimizer_G_SFT :=
       {| adam_params := [0%nat; 2%nat]; adam_lr := VFloat 0.0005;
          adam_weight_decay := VInt 0; adam_betas := (VFloat 0.9, VFloat 0.999) |};
     optimizer_G_other :=
       {| adam_params := [1%nat; 3%nat]; adam_lr := VFloat 0.0001;
          adam_weight_decay := VInt 0; adam_betas := (VFloat 0.9, VFloat 0.999) |};
     optimizer_D :=
       {| adam_params := [10%nat; 11%nat]; adam_lr := VFloat 0.0001;
          adam_weight_decay := VInt 0; adam_betas := (VFloat 0.9, VFloat 0.999) |};
     optimizers := [Optimizer_G_SFT; Optimizer_G_other; Optimizer_D];
     schedulers :=
       (λ op, {| sched_optimizer := op;
                 sched_milestones := VList [VInt 50000; VInt 100000];
                 sched_gamma := VFloat 0.5 |})
         <$> [Optimizer_G_SFT; Optimizer_G_other; Optimizer_D];
     log_dict := [] |}.

Definition self0 : model :=
  {| opt := o; is_train := true; use_gpu := false; save_dir := "exp/models";
     netG_training := true; netD := Some true; train := Some t;
     var_L := None; var_seg := None; var_cat := None; var_H := None;
     fake_H := None |}.

Definition self : model :=
  set_vars self0 vL vseg vcat (Some vH).

Definition init_trace : list event :=
  [EDefine NetG; EDefine NetD; ETrain NetG; ETrain NetD;
   EPrint "Remove feature loss." [];
   EPrint "---------- Model initialized ------------------" [];
   EPrint "Number of parameters in G: {:,d}" [VInt 100];
   EFileWrite "exp/models/../network.txt" FileW
     ("-------------- Generator --------------" +:+ nl +:+ "SFT_Net()" +:+ nl);
   EPrint "Number of parameters in D: {:,d}" [VInt 200];
   EFileWrite "exp/models/../network.txt" FileA
     (nl +:+ nl +:+ nl +:+ "-------------- Discriminator --------------" +:+ nl
        +:+ "ACD_VGG_BN_96()" +:+ nl);
   EPrint "-----------------------------------------------" []].

End Example.

Module Unrecognized.

(** Training options with an unknown pixel criterion, an unknown feature
    criterion, and an unknown learning-rate scheme. *)
Definition with_train (train_opt : pyval) : pyval :=
  Example.NoneDict
    [("train", train_opt); ("path", Example.NoneDict []); ("is_train", VBool true)].

Definition pixel : pyval :=
  Example.NoneDict
    [("pixel_weight", VInt 1); ("pixel_criterion", VStr "cb");
     ("feature_weight", VInt 0); ("gan_type", VStr "vanilla");
     ("lr_scheme", VStr "MultiStepLR")].

Definition feature : pyval :=
  Example.NoneDict
    [("pixel_weight", VInt 0);
     ("feature_weight", VFloat 1); ("feature_criterion", VStr "L1");
     ("gan_type", VStr "vanilla"); ("lr_scheme", VStr "MultiStepLR")].

Definition scheme : pyval :=
  Example.NoneDict
    [("pixel_weight", VInt 0); ("feature_weight", VInt 0);
     ("gan_type", VStr "vanilla"); ("lr_G", VFloat 0.0001);
     ("lr_scheme", VStr "CosineAnnealingLR")].

End Unrecognized.

(** ** The object after a training step *)

(** [d.get(k)] on an [OrderedDict]. *)
Fixpoint od_get {V} (k : string) (d : list (string * V)) : option V :=
  match d with
  | [] => None
  | (k', v) :: d' => if String.eqb k' k then Some v else od_get k d'
  end.

(** The size of [self.random_pt] after a step: the gradient penalty resizes
    it to the batch. *)
Definition random_pt_after (t : trainer) (wgan_gp : bool) (vH : variable)
  : option N :=
  if wgan_gp then Some (size0 (var_data vH)) else random_pt t.

(** The log after the generator's entries are set (lines 209-213) and after
    the discriminator's are (lines 215-223). *)
Definition G_log (t : trainer) (fake : expr) (vH : variable)
    (log : list (string * expr)) : list (string * expr) :=
  let log :=
    match pix_term t fake vH with
    | Some l => od_set "l_g_pix" (Data0 l) log
    | None => log
    end in
  let log :=
    match fea_term t fake vH with
    | Some l => od_set "l_g_fea" (Data0 l) log
    | None => log
    end in
  od_set "l_g_gan" (Data0 (gan_term t fake)) log.

Definition D_log (t : trainer) (wgan_gp : bool) (fake : expr) (vcat vH : variable)
    (log : list (string * expr)) : list (string * expr) :=
  let log :=
    od_set "l_d_real"
      (Data0 (Cri CriGan [Item 0 (Net NetD (Var vH)); Lit (VBool true)])) log in
  let log :=
    od_set "l_d_fake"
      (Data0 (Cri CriGan [Item 0 (Net NetD (Detach fake)); Lit (VBool false)])) log in
  let log :=
    od_set "l_d_cls_real"
      (Data0 (Cri CriCe [Item 1 (Net NetD (Var vH)); Var vcat])) log in
  let log :=
    od_set "l_d_cls_fake"
      (Data0 (Cri CriCe [Item 1 (Net NetD (Detach fake)); Var vcat])) log in
  let log :=
    match gp_term t wgan_gp fake vH with
    | Some l => od_set "l_d_gp" (Data0 l) log
    | None => log
    end in
  let log := od_set "D_real" (MeanData (Item 0 (Net NetD (Var vH)))) log in
  od_set "D_fake" (MeanData (Item 0 (Net NetD (Detach fake)))) log.

(** An entry of the log after a step: the loss when the step computed it,
    what was there before otherwise. *)
Definition log_entry (old l : option expr) : option expr :=
  match l with
  | Some e => Some (Data0 e)
  | None => old
  end.

(** Whether the generator's update reads no high-resolution image: neither
    the pixel nor the feature criterion is configured. *)
Definition G_without_HR (t : trainer) : bool :=
  negb (not_None (cri_pix t)) && negb (not_None (cri_fea t)).

Definition is_resize (e : event) : bool :=
  match e with EResizeRandomPt _ => true | _ => false end.

(** The keys that [optimize_parameters] writes in the log. *)
Definition log_keys : list string :=
  ["l_g_pix"; "l_g_fea"; "l_g_gan"; "l_d_real"; "l_d_fake"; "l_d_cls_real";
   "l_d_cls_fake"; "l_d_gp"; "D_real"; "D_fake"].

(** ** What [__init__] calls *)

(** The criteria moved to the GPU, and the events that define, load or
    switch the mode of a network. *)
Definition cuda (e : event) : option criterion :=
  match e with ECuda c => Some c | _ => None end.

Definition printed (e : event) : option (string * list pyval) :=
  match e with EPrint fmt args => Some (fmt, args) | _ => None end.

Definition network_setup (e : event) : option event :=
  match e with
  | EDefine _ | ELoadNetwork _ _ | ETrain _ | EEval _ => Some e
  | _ => None
  end.

(** The events of [load] for the two configured paths. *)
Definition load_trace (load_path_G load_path_D is_train_opt : pyval) : list event :=
  (if is_None load_path_G then []
   else [EPrint "loading model for G [%s] ..." [load_path_G];
         ELoadNetwork load_path_G NetG])
  ++ (if truthy is_train_opt && negb (is_None load_path_D)
      then [EPrint "loading model for D [%s] ..." [load_path_D];
            ELoadNetwork load_path_D NetD]
      else []).

(** The events of the training part of [__init__]. *)
Definition init_train_trace (use_gpu : bool) (t : trainer) : list event :=
  (if not_None (cri_pix t) then [] else [EPrint "Remove pixel loss." []])
  ++ (if not_None (cri_fea t) then [EDefine NetF]
      else [EPrint "Remove feature loss." []])
  ++ (if use_gpu
      then (if not_None (cri_pix t) then [ECuda CriPix] else [])
           ++ (if not_None (cri_fea t) then [ECuda CriFea] else [])
           ++ [ECuda CriGan; ECuda CriCe]
           ++ (if cri_gp t then [ECuda CriGp] else [])
      else []).

(** ** An object for inference *)

Module Inference.

Definition o : pyval :=
  Example.NoneDict
    [("train", VNone);
     ("path", Example.NoneDict [("pretrain_model_G", VStr "SFTGAN.pth")]);
     ("is_train", VBool false)].

Definition env : environment :=
  {| env_is_train := false; env_use_gpu := true; env_save_dir := "results";
     G_named_parameters := G_named_parameters Example.env;
     D_parameters := [];
     get_network_description := get_network_description Example.env |}.

Definition self0 : model :=
  {| opt := o; is_train := false; use_gpu := true; save_dir := "results";
     netG_training := true; netD := None; train := None;
     var_L := None; var_seg := None; var_cat := None; var_H := None;
     fake_H := None |}.

Definition init_trace : list event :=
  [EDefine NetG;
   EPrint "loading model for G [%s] ..." [VStr "SFTGAN.pth"];
   ELoadNetwork (VStr "SFTGAN.pth") NetG;
   EPrint "---------- Model initialized ------------------" [];
   EPrint "Number of parameters in G: {:,d}" [VInt 100];
   EPrint "-----------------------------------------------" []].

End Inference.

(** ** The example on the GPU *)

Module Gpu.

Definition env : environment :=
  {| env_is_train := true; env_use_gpu := true; env_save_dir := "exp/models";
     G_named_parameters := G_named_parameters Example.env;
     D_parameters := D_parameters Example.env;
     get_network_description := get_network_description Example.env |}.

Definition self0 : model :=
  {| opt := Example.o; is_train := true; use_gpu := true; save_dir := "exp/models";
     netG_training := true; netD := Some true; train := Some Example.t;
     var_L := None; var_seg := None; var_cat := None; var_H := None;
     fake_H := None |}.

Definition init_trace : list event :=
  take 5 Example.init_trace
    ++ [ECuda CriPix; ECuda CriGan; ECuda CriCe; ECuda CriGp]
    ++ drop 5 Example.init_trace.

End Gpu.

(** ** The entries of the training options that are always read *)

(** The keys that the training part of [__init__] reads whatever the other
    entries hold. *)
Definition required_keys : list string :=
  ["pixel_weight"; "feature_weight"; "gan_type"; "gan_weight"; "D_update_ratio";
   "D_init_iters"; "weight_decay_G"; "lr_G"; "beta1_G"; "weight_decay_D"; "lr_D";
   "beta1_D"; "lr_scheme"; "lr_steps"; "lr_gamma"].

(** Training options as a plain [dict], whose subscript raises [KeyError] at
    a missing key: the example without its entry [D_update_ratio]. *)
Module PlainDict.

Definition items : gmap string pyval :=
  delete "D_update_ratio"
    (match Example.train_opt with
     | VDict items _ => items
     | _ => ∅
     end).

Definition o : pyval := Unrecognized.with_train (VDict items None).

End PlainDict.

(** ** Training options without a schedule *)

(** The example's training options with neither [D_update_ratio] nor
    [D_init_iters] (absent keys read [None]), and with both set to 0; the
    trainer and the objects that [__init__] builds from them. *)
Module Defaults.

Definition absent_items : gmap string pyval :=
  list_to_map
    [("pixel_weight", VInt 1); ("pixel_criterion", VStr "l1");
     ("feature_weight", VInt 0);
     ("gan_type", VStr "wgan-gp"); ("gan_weight", VFloat 0.005);
     ("gp_weigth", VInt 10);
     ("lr_G", VFloat 0.0001); ("beta1_G", VFloat 0.9);
     ("lr_D", VFloat 0.0001); ("beta1_D", VFloat 0.9);
     ("lr_scheme", VStr "MultiStepLR");
     ("lr_steps", VList [VInt 50000; VInt 100000]); ("lr_gamma", VFloat 0.5)].

Definition absent : pyval := VDict absent_items (Some VNone).

Definition falsy : pyval :=
  VDict (<["D_update_ratio" := VInt 0]> (<["D_init_iters" := VInt 0]> absent_items))
    (Some VNone).

Definition t : trainer :=
  {| cri_pix := cri_pix Example.t; l_pix_w := l_pix_w Example.t;
     cri_fea := cri_fea Example.t; l_fea_w := l_fea_w Example.t;
     netF := netF Example.t;
     cri_gan := cri_gan Example.t; l_gan_w := l_gan_w Example.t;
     D_update_ratio := VInt 1; D_init_iters := VInt 0;
     random_pt := random_pt Example.t; cri_gp := cri_gp Example.t;
     l_gp_w := l_gp_w Example.t;
     optimizer_G_SFT := optimizer_G_SFT Example.t;
     optimizer_G_other := optimizer_G_other Example.t;
     optimizer_D := optimizer_D Example.t;
     optimizers := optimizers Example.t; schedulers := schedulers Example.t;
     log_dict := [] |}.

Definition self0 (train_opt : pyval) : model :=
  {| opt := Unrecognized.with_train train_opt; is_train := true; use_gpu := false;
     save_dir := "exp/models"; netG_training := true; netD := Some true;
     train := Some t;
     var_L := None; var_seg := None; var_cat := None; var_H := None;
     fake_H := None |}.

End Defaults.

(** * Properties *)

(** ** Python values and paths *)

Example float_rem_ex1 : py_int_mod 7 (VFloat 2) = Ok (VFloat 1).
Proof. vm_compute. reflexivity. Qed.
Example float_rem_ex2 : py_int_mod (-7) (VFloat 2) = Ok (VFloat 1).
Proof. vm_compute. reflexivity. Qed.
Example float_rem_ex3 : py_int_mod 5 (VFloat (-3)) = Ok (VFloat (-1)).
Proof. vm_compute. reflexivity. Qed.
Example float_rem_ex4 : py_int_mod 7 (VFloat 0.5) = Ok (VFloat 0).
Proof. vm_compute. reflexivity. Qed.
Example float_rem_ex5 : py_int_mod 7 (VFloat 2.5) = Ok (VFloat 2).
Proof. vm_compute. reflexivity. Qed.
Example float_rem_ex6 : py_int_mod (-5) (VFloat infinity) = Ok (VFloat infinity).
Proof. vm_compute. reflexivity. Qed.
Example gt_ex1 : py_int_gt 3 (VFloat 2.5) = Ok true.
Proof. vm_compute. reflexivity. Qed.
Example gt_ex2 : py_int_gt 9007199254740993 (VFloat 9007199254740992) = Ok true.
Proof. vm_compute. reflexivity. Qed.
Example gt_ex3 : py_gt_int (VFloat 0.005) 0 = Ok true.
Proof. vm_compute. reflexivity. Qed.
Example mul_ex1 : py_mul_int (VFloat 0.0001) 5 = Ok (VFloat 0.0005).
Proof. vm_compute. reflexivity. Qed.
Example contains_ex1 : contains "SFT" "sft_branch.SFT_scale_conv0.weight" = true.
Proof. reflexivity. Qed.
Example contains_ex2 : contains "Cond" "HR_branch.0.weight" = false.
Proof. reflexivity. Qed.
Example join_ex1 :
  os_path_join "../experiments/x/models" ["../"; "network.txt"]
  = "../experiments/x/models/../network.txt".
Proof. reflexivity. Qed.

Lemma str_app_cons x (a b : string) : String x a +:+ b = String x (a +:+ b).
Proof. reflexivity. Qed.

Lemma str_app_assoc (a b c : string) : (a +:+ b) +:+ c = a +:+ (b +:+ c).
Proof.
  induction a as [|x a IH]; [done|]. by rewrite !str_app_cons, IH.
Qed.

Lemma str_length_app (a b : string) :
  String.length (a +:+ b) = (String.length a + String.length b)%nat.
Proof.
  induction a as [|x a IH]; [done|]. rewrite str_app_cons. cbn. by rewrite IH.
Qed.

Lemma substring_all (p : string) : String.substring 0 (String.length p) p = p.
Proof. induction p as [|x p IH]; cbn; [done | by rewrite IH]. Qed.

Lemma substring_app_r (s p : string) :
  String.substring (String.length s) (String.length p) (s +:+ p) = p.
Proof.
  induction s as [|x s IH]; [apply substring_all|]. by rewrite str_app_cons.
Qed.

Lemma endswith_app (s p : string) : endswith (s +:+ p) p = true.
Proof.
  unfold endswith. rewrite str_length_app.
  replace (String.length s + String.length p - String.length p)%nat
    with (String.length s) by lia.
  rewrite substring_app_r, String.eqb_refl, andb_true_r.
  apply Nat.leb_le. lia.
Qed.

Lemma startswith_spec (s p : string) :
  startswith s p = true ↔ ∃ b, s = p +:+ b.
Proof.
  revert s. induction p as [|x p IH]; intros s; cbn [startswith].
  - split; [intros _; exists s; reflexivity | reflexivity].
  - destruct s as [|y s].
    + split; [done|]. intros [b Hb]. rewrite str_app_cons in Hb. discriminate.
    + rewrite andb_true_iff, IH, Ascii.eqb_eq. split.
      * intros [-> [b ->]]. exists b. by rewrite str_app_cons.
      * intros [b Hb]. rewrite str_app_cons in Hb. injection Hb as -> ->. eauto.
Qed.

(** [contains p s] holds exactly when [p] is a substring of [s]. *)
Lemma contains_spec (p s : string) :
  contains p s = true ↔ ∃ a b, s = a +:+ p +:+ b.
Proof.
  induction s as [|y s IH]; cbn [contains]; rewrite orb_true_iff, startswith_spec.
  - split.
    + intros [[b Hb]|[=]]. exists "", b. exact Hb.
    + intros (a & b & H). left. destruct a as [|x a]; [exists b; exact H|].
      rewrite str_app_cons in H. discriminate.
  - rewrite IH. split.
    + intros [[b Hb]|(a & b & ->)]; [exists "", b; exact Hb|].
      exists (String y a), b. by rewrite str_app_cons.
    + intros (a & b & H). destruct a as [|x a]; [left; exists b; exact H|].
      right. rewrite str_app_cons in H. injection H as -> ->. eauto.
Qed.

(** The file of [print_network] is [network.txt] in the parent of the save
    directory. *)
Lemma network_path_eq (dir : string) :
  os_path_join dir ["../"; "network.txt"]
  = dir +:+ (if String.eqb dir "" || endswith dir "/" then "" else "/")
        +:+ "../network.txt".
Proof.
  unfold os_path_join. cbn [fold_left]. unfold join_step at 2.
  cbn [startswith Ascii.eqb Bool.eqb andb].
  assert (∀ s, join_step (s +:+ "../") "network.txt" = s +:+ "../network.txt") as H.
  { intros s. unfold join_step. cbn [startswith Ascii.eqb Bool.eqb andb].
    change "../" with (".." +:+ "/"). rewrite <- str_app_assoc, endswith_app.
    by rewrite orb_true_r, !str_app_assoc. }
  destruct (String.eqb dir "" || endswith dir "/").
  - by rewrite H.
  - by rewrite <- str_app_assoc, H, str_app_assoc.
Qed.

(** ** Traces *)

Lemma bind_Ok_inv {A B} (c : M A) (k : A → M B) tr b :
  c ≫= k = (tr, Ok b) →
  ∃ t1 a t2, c = (t1, Ok a) ∧ k a = (t2, Ok b) ∧ tr = t1 ++ t2.
Proof.
  unfold mbind, M_bind. destruct c as [t1 [a|e]]; [|discriminate].
  destruct (k a) as [t2 r] eqn:Hk. intros [= <- ->]. eauto 6.
Qed.

Lemma lift_Ok_inv {A} (r : res A) tr a : lift r = (tr, Ok a) → r = Ok a ∧ tr = [].
Proof. unfold lift. by intros [= <- ->]. Qed.

Lemma attr_Ok_inv {A} name (o : option A) tr a :
  attr name o = (tr, Ok a) → o = Some a ∧ tr = [].
Proof. destruct o; cbn; [by intros [= <- ->] | discriminate]. Qed.

Lemma ret_Ok_inv {A} (a b : A) tr : mret a = (tr, Ok b) :> M A → a = b ∧ tr = [].
Proof. by intros [= <- ->]. Qed.

Lemma emit_Ok_inv e tr u : emit e = (tr, Ok u) → tr = [e].
Proof. by intros [= <-]. Qed.

Ltac inv_bind H :=
  let t1 := fresh "tr" in
  let a := fresh "a" in
  let t2 := fresh "tr" in
  let H1 := fresh "H" in
  apply bind_Ok_inv in H as (t1 & a & t2 & H1 & H & ->);
  cbn beta in H;
  first [ apply lift_Ok_inv in H1 as [H1 ->]
        | apply attr_Ok_inv in H1 as [H1 ->]
        | idtac ].

Tactic Notation "bind_inv" hyp(H) "as" simple_intropattern(a) ident(H1) :=
  let t1 := fresh "tr" in
  let t2 := fresh "tr" in
  apply bind_Ok_inv in H as (t1 & a & t2 & H1 & H & ->);
  cbn beta in H;
  first [ apply lift_Ok_inv in H1 as [H1 ->]
        | apply attr_Ok_inv in H1 as [H1 ->]
        | idtac ].

Lemma bind_ext {A B} (c c' : M A) (k k' : A → M B) :
  c = c' → (∀ a, k a = k' a) → c ≫= k = c' ≫= k'.
Proof.
  intros -> Hk. unfold mbind, M_bind. destruct c' as [t [a|e]]; [|done].
  by rewrite Hk.
Qed.

Lemma file_writes_app t1 t2 : file_writes (t1 ++ t2) = file_writes t1 ++ file_writes t2.
Proof. apply omap_app. Qed.

Lemma count_app p t1 t2 : count p (t1 ++ t2) = (count p t1 + count p t2)%nat.
Proof. unfold count. by rewrite filter_app, length_app. Qed.

Lemma quiet_bind {A B} (c : M A) (k : A → M B) :
  quiet c → (∀ a, quiet (k a)) → quiet (c ≫= k).
Proof.
  unfold quiet, mbind, M_bind. intros Hc Hk.
  destruct c as [t [a|e]]; [|done].
  specialize (Hk a). destruct (k a) as [t' r]. cbn [fst] in *.
  by rewrite file_writes_app, Hc, Hk.
Qed.

Lemma quiet_lift {A} (r : res A) : quiet (lift r).
Proof. done. Qed.
Lemma quiet_ret {A} (a : A) : quiet (mret a : M A).
Proof. done. Qed.
Lemma quiet_raise {A} e : quiet (raise e : M A).
Proof. done. Qed.
Lemma quiet_attr {A} n (o : option A) : quiet (attr n o).
Proof. by destruct o. Qed.
Lemma quiet_emit e : file_write e = None → quiet (emit e).
Proof. unfold quiet, file_writes. cbn. by intros ->. Qed.
Lemma quiet_when b c : quiet c → quiet (when b c).
Proof. by destruct b. Qed.

Lemma quiet_for_each {A B} (f : A → M B) l : (∀ a, quiet (f a)) → quiet (for_each f l).
Proof.
  intros Hf. induction l as [|a l IH]; [done|]. cbn [for_each].
  apply quiet_bind; [done|]. intros b. apply quiet_bind; [done|]. intros bs. done.
Qed.

Ltac quiet :=
  repeat first
    [ apply quiet_lift | apply quiet_ret | apply quiet_raise | apply quiet_attr
    | apply quiet_emit; reflexivity
    | apply quiet_when
    | apply quiet_for_each; intros
    | apply quiet_bind; [|intros]
    | match goal with
      | |- quiet (if ?b then _ else _) => destruct b
      | |- quiet (let '(_, _) := ?p in _) => destruct p
      end ].

Lemma quiet_run {A} (c : M A) t r : c = (t, r) → quiet c → file_writes t = [].
Proof. unfold quiet. by intros ->. Qed.

Lemma raises_bind_l {A B} (c : M A) (k : A → M B) : raises c → raises (c ≫= k).
Proof. intros (tr & e & ->). by exists tr, e. Qed.

Lemma raises_bind_r {A B} (c : M A) (k : A → M B) :
  (∀ tr a, c = (tr, Ok a) → raises (k a)) → raises (c ≫= k).
Proof.
  intros Hk. destruct c as [t [a|e]].
  - destruct (Hk t a eq_refl) as (tr & e & Hka).
    exists (t ++ tr), e. unfold mbind, M_bind. by rewrite Hka.
  - by exists t, e.
Qed.

Lemma fails_quietly_bind {A B} (c : M A) (k : A → M B) :
  quiet c → (∀ t a, c = (t, Ok a) → fails_quietly (k a)) →
  fails_quietly (c ≫= k).
Proof.
  intros Hc Hk tr e. unfold mbind, M_bind.
  destruct c as [t [a|e']].
  - destruct (k a) as [t' r] eqn:Hka. intros [= <- ->].
    rewrite file_writes_app. unfold quiet in Hc. cbn [fst] in Hc. rewrite Hc.
    apply (Hk t a eq_refl _ e Hka).
  - by intros [= <- _].
Qed.

(** ** Inverting [__init__] *)

#[local] Arguments update_G : simpl never.
#[local] Arguments is_wgan_gp : simpl never.
#[local] Arguments os_path_join : simpl never.

Lemma init_loss_inv train_opt wk ck msg tr r :
  init_loss train_opt wk ck msg = (tr, Ok r) →
  ∃ w b,
    subscript train_opt wk = Ok w ∧ py_gt_int w 0 = Ok b ∧
    if b : bool then
      ∃ ty k,
        subscript train_opt ck = Ok ty ∧
        (py_eq_str ty "l1" = true ∧ k = L1Loss
         ∨ py_eq_str ty "l1" = false ∧ py_eq_str ty "l2" = true ∧ k = MSELoss) ∧
        r = (Some k, Some w) ∧ tr = []
    else r = (None, None) ∧ tr = [EPrint msg []].
Proof.
  unfold init_loss. intros H.
  inv_bind H. inv_bind H. exists a, a0. do 2 (split; [done|]).
  destruct a0.
  - inv_bind H. inv_bind H. inv_bind H.
    apply ret_Ok_inv in H as [<- ->].
    assert (a2 = a) as -> by congruence.
    exists a0, a1. split; [done|].
    destruct (py_eq_str a0 "l1") eqn:E1.
    + apply ret_Ok_inv in H3 as [<- ->]. auto.
    + destruct (py_eq_str a0 "l2") eqn:E2; [|discriminate].
      apply ret_Ok_inv in H3 as [<- ->]. auto.
  - inv_bind H. apply emit_Ok_inv in H2 as ->.
    by apply ret_Ok_inv in H as [<- ->].
Qed.

Lemma get_or_inv train_opt key default tr v :
  get_or train_opt key default = (tr, Ok v) →
  ∃ c, subscript train_opt key = Ok c ∧
       v = (if truthy c then c else default) ∧ tr = [].
Proof.
  unfold get_or. intros H. inv_bind H. exists a. split; [done|].
  destruct (truthy a).
  - apply lift_Ok_inv in H as [H ->]. split; [congruence | done].
  - by apply ret_Ok_inv in H as [<- ->].
Qed.

Lemma partition_params_filter ps :
  partition_params ps =
    ((filter (λ kv, contains "SFT" kv.1 || contains "Cond" kv.1 = true) ps).*2,
     (filter (λ kv, contains "SFT" kv.1 || contains "Cond" kv.1 = false) ps).*2).
Proof.
  unfold partition_params.
  enough (∀ acc,
    fold_left
      (λ (acc : list parameter * list parameter) (kv : string * parameter),
         if contains "SFT" kv.1 || contains "Cond" kv.1
         then (acc.1 ++ [kv.2], acc.2)
         else (acc.1, acc.2 ++ [kv.2])) ps acc
    = (acc.1 ++ (filter (λ kv, contains "SFT" kv.1 || contains "Cond" kv.1 = true) ps).*2,
       acc.2 ++ (filter (λ kv, contains "SFT" kv.1 || contains "Cond" kv.1 = false) ps).*2))
    as H by apply (H ([], [])).
  induction ps as [|[k v] ps IH]; intros [sft other]; cbn [fold_left].
  - cbn. by rewrite !app_nil_r.
  - rewrite IH. cbn [fst snd].
    destruct (contains "SFT" k || contains "Cond" k) eqn:E.
    + rewrite filter_cons_True, filter_cons_False by (cbn [fst]; congruence).
      cbn. by rewrite <- app_assoc.
    + rewrite filter_cons_False, filter_cons_True by (cbn [fst]; congruence).
      cbn. by rewrite <- app_assoc.
Qed.

Lemma init_optimizers_G_inv env train_opt wd tr og :
  init_optimizers_G env train_opt wd = (tr, Ok og) →
  ∃ lr lr5 beta1,
    subscript train_opt "lr_G" = Ok lr ∧ py_mul_int lr 5 = Ok lr5 ∧
    subscript train_opt "beta1_G" = Ok beta1 ∧
    og = ({| adam_params := (partition_params (G_named_parameters env)).1;
             adam_lr := lr5; adam_weight_decay := wd;
             adam_betas := (beta1, VFloat 0.999) |},
          {| adam_params := (partition_params (G_named_parameters env)).2;
             adam_lr := lr; adam_weight_decay := wd;
             adam_betas := (beta1, VFloat 0.999) |}).
Proof.
  unfold init_optimizers_G.
  destruct (partition_params (G_named_parameters env)) as [sft other].
  intros H. do 5 inv_bind H. apply ret_Ok_inv in H as [<- _].
  exists a, a0, a1. repeat split; try done.
  assert (a2 = a) as -> by congruence.
  assert (a3 = a1) as -> by congruence. done.
Qed.

Lemma init_optimizer_D_inv env train_opt tr od :
  init_optimizer_D env train_opt = (tr, Ok od) →
  ∃ c lr beta1,
    subscript train_opt "weight_decay_D" = Ok c ∧
    subscript train_opt "lr_D" = Ok lr ∧
    subscript train_opt "beta1_D" = Ok beta1 ∧
    od = {| adam_params := D_parameters env; adam_lr := lr;
            adam_weight_decay := (if truthy c then c else VInt 0);
            adam_betas := (beta1, VFloat 0.999) |}.
Proof.
  unfold init_optimizer_D. intros H. inv_bind H.
  apply get_or_inv in H0 as (c & Hc & -> & ->).
  do 2 inv_bind H. apply ret_Ok_inv in H as [<- _]. eauto 8.
Qed.

Lemma init_schedulers_inv train_opt tr ss :
  init_schedulers train_opt [Optimizer_G_SFT; Optimizer_G_other; Optimizer_D]
    = (tr, Ok ss) →
  ∃ s steps gamma,
    subscript train_opt "lr_scheme" = Ok s ∧ py_eq_str s "MultiStepLR" = true ∧
    subscript train_opt "lr_steps" = Ok steps ∧
    subscript train_opt "lr_gamma" = Ok gamma ∧
    ss = (λ o, {| sched_optimizer := o; sched_milestones := steps;
                  sched_gamma := gamma |})
           <$> [Optimizer_G_SFT; Optimizer_G_other; Optimizer_D].
Proof.
  unfold init_schedulers. intros H. inv_bind H.
  destruct (py_eq_str a "MultiStepLR") eqn:E; [|discriminate].
  exists a. cbn [for_each] in H.
  destruct (subscript train_opt "lr_steps") as [steps|]; [|discriminate].
  destruct (subscript train_opt "lr_gamma") as [gamma|]; [|discriminate].
  cbn in H. injection H as <- <-. exists steps, gamma. done.
Qed.

Lemma init_train_inv env train_opt tr t :
  init_train env train_opt = (tr, Ok t) → init_train_spec env train_opt t.
Proof.
  unfold init_train. intros H.
  bind_inv H as pix Hpix.
  apply init_loss_inv in Hpix as (pw & bp & Hpw & Hbp & Hpix).
  bind_inv H as fea Hfea.
  apply init_loss_inv in Hfea as (fw & bf & Hfw & Hbf & Hfea).
  bind_inv H as u1 HF. clear HF.
  bind_inv H as gt Hgt. bind_inv H as gw Hgw.
  bind_inv H as ur Hur. apply get_or_inv in Hur as (cr & Hcr & -> & ->).
  bind_inv H as ii Hii. apply get_or_inv in Hii as (ci & Hci & -> & ->).
  bind_inv H as gt' Hgt'. assert (gt' = gt) as -> by congruence.
  bind_inv H as gp Hgp.
  bind_inv H as u2 Hcuda. clear Hcuda.
  bind_inv H as wd Hwd. apply get_or_inv in Hwd as (cw & Hcw & -> & ->).
  bind_inv H as og Hog.
  apply init_optimizers_G_inv in Hog as (lr & lr5 & b1 & Hlr & Hlr5 & Hb1 & ->).
  bind_inv H as od Hod.
  apply init_optimizer_D_inv in Hod as (wdD & lrD & b1D & HwdD & HlrD & Hb1D & ->).
  bind_inv H as ss Hss.
  apply init_schedulers_inv in Hss as (s & steps & gamma & Hs & Hms & Hsteps & Hgamma & ->).
  apply ret_Ok_inv in H as [<- _].
  constructor; cbn.
  - exists pw, bp. do 2 (split; [done|]).
    destruct bp; [destruct Hpix as (? & ? & _ & _ & -> & _) | destruct Hpix as [-> _]]; done.
  - exists fw, bf. do 2 (split; [done|]).
    destruct bf; [destruct Hfea as (? & ? & _ & _ & -> & _) | destruct Hfea as [-> _]]; done.
  - exists gt. do 2 (split; [done|]).
    destruct (py_eq_str gt "wgan-gp").
    + bind_inv Hgp as w Hw. apply ret_Ok_inv in Hgp as [<- _]. eauto.
    + apply ret_Ok_inv in Hgp as [<- _]. done.
  - done.
  - eauto.
  - eauto.
  - exists cw, lr, lr5, b1. done.
  - exists wdD, lrD, b1D. done.
  - done.
  - exists s, steps, gamma. done.
  - done.
Qed.

(** A criterion that [__init__] keeps was asked for by name. *)
Lemma init_train_kinds env train_opt tr t :
  init_train env train_opt = (tr, Ok t) →
  (∀ k, cri_pix t = Some k →
        ∃ ty, subscript train_opt "pixel_criterion" = Ok ty ∧
              (py_eq_str ty "l1" = true ∧ k = L1Loss
               ∨ py_eq_str ty "l1" = false ∧ py_eq_str ty "l2" = true ∧ k = MSELoss))
  ∧ (∀ k, cri_fea t = Some k →
          ∃ ty, subscript train_opt "feature_criterion" = Ok ty ∧
                (py_eq_str ty "l1" = true ∧ k = L1Loss
                 ∨ py_eq_str ty "l1" = false ∧ py_eq_str ty "l2" = true ∧ k = MSELoss)).
Proof.
  unfold init_train. intros H.
  bind_inv H as pix Hpix.
  apply init_loss_inv in Hpix as (pw & bp & Hpw & Hbp & Hpix).
  bind_inv H as fea Hfea.
  apply init_loss_inv in Hfea as (fw & bf & Hfw & Hbf & Hfea).
  do 12 inv_bind H. apply ret_Ok_inv in H as [<- _]. cbn.
  split; intros k Hk.
  - destruct bp; [|destruct Hpix as [-> _]; discriminate].
    destruct Hpix as (ty & k' & Hty & Hkind & -> & _).
    injection Hk as ->. eauto.
  - destruct bf; [|destruct Hfea as [-> _]; discriminate].
    destruct Hfea as (ty & k' & Hty & Hkind & -> & _).
    injection Hk as ->. eauto.
Qed.

Lemma init_loss_quiet train_opt wk ck msg : quiet (init_loss train_opt wk ck msg).
Proof. unfold init_loss. quiet. Qed.

Lemma get_or_quiet train_opt key d : quiet (get_or train_opt key d).
Proof. unfold get_or. quiet. Qed.

Lemma init_train_quiet env train_opt : quiet (init_train env train_opt).
Proof.
  unfold init_train, init_optimizers_G, init_optimizer_D, init_schedulers.
  repeat first [ apply init_loss_quiet | apply get_or_quiet | progress quiet ].
Qed.

Lemma load_quiet self : quiet (load self).
Proof. unfold load. quiet. Qed.

Lemma print_network_file_writes env self tr u :
  print_network env self = (tr, Ok u) →
  file_writes tr =
    if is_train self
    then match train self with
         | Some t => network_txt env (save_dir self) (not_None (cri_fea t))
         | None => []
         end
    else [].
Proof.
  unfold print_network, network_txt, description_message, network_path.
  destruct (get_network_description env NetG) as [sG nG].
  destruct (get_network_description env NetD) as [sD nD].
  destruct (get_network_description env NetF) as [sF nF].
  destruct (is_train self), (netD self), (train self) as [t|]; cbn;
    try (intros H; first [discriminate | by injection H as <-]).
  destruct (cri_fea t), (netF t); cbn;
    intros H; first [discriminate | by injection H as <-].
Qed.

Lemma init_inv env o tr self :
  __init__ env o = (tr, Ok self) →
  init_spec env o self ∧
  file_writes tr =
    (if env_is_train env
     then match train self with
          | Some t => network_txt env (env_save_dir env) (not_None (cri_fea t))
          | None => []
          end
     else []).
Proof.
  unfold __init__. intros H.
  bind_inv H as train_opt Hto.
  bind_inv H as u1 H1. apply emit_Ok_inv in H1 as ->.
  bind_inv H as u2 H2. apply quiet_run in H2; [|quiet].
  bind_inv H as u3 H3. apply quiet_run in H3; [|apply load_quiet].
  bind_inv H as self1 H4. cbn [is_train] in H4.
  bind_inv H as u5 H5. apply emit_Ok_inv in H5 as ->.
  bind_inv H as u6 H6. apply print_network_file_writes in H6.
  bind_inv H as u7 H7. apply emit_Ok_inv in H7 as ->.
  apply ret_Ok_inv in H as [<- ->].
  rewrite !file_writes_app, H2, H3, H6. cbn [app file_writes omap].
  destruct (env_is_train env) eqn:Et.
  - bind_inv H4 as t Ht.
    pose proof (quiet_run _ _ _ Ht (init_train_quiet _ _)) as Hq4.
    apply init_train_inv in Ht.
    apply ret_Ok_inv in H4 as [<- ->].
    rewrite file_writes_app, Hq4. cbn. rewrite ?app_nil_r.
    split; [|done]. constructor; cbn; rewrite ?Et; try done. eauto.
  - apply ret_Ok_inv in H4 as [<- ->]. cbn.
    split; [|done]. constructor; cbn; rewrite ?Et; done.
Qed.

Lemma print_network_returns env self :
  (is_train self = true →
   is_Some (netD self) ∧
   ∃ t, train self = Some t ∧ (is_Some (cri_fea t) → netF t = true)) →
  ∃ tr, print_network env self = (tr, Ok tt).
Proof.
  unfold print_network.
  destruct (get_network_description env NetG) as [sG nG].
  destruct (get_network_description env NetD) as [sD nD].
  destruct (get_network_description env NetF) as [sF nF].
  destruct (is_train self); [|by eexists].
  intros H. destruct (H eq_refl) as ([d ->] & t & -> & HF). cbn.
  destruct (cri_fea t); [rewrite HF by eauto|]; cbn; by eexists.
Qed.

Lemma init_fails_quietly env o : fails_quietly (__init__ env o).
Proof.
  unfold __init__.
  apply fails_quietly_bind; [quiet|]. intros _ train_opt _.
  apply fails_quietly_bind; [quiet|]. intros _ _ _.
  apply fails_quietly_bind; [quiet|]. intros _ _ _.
  apply fails_quietly_bind; [apply load_quiet|]. intros _ _ _.
  cbn [is_train].
  apply fails_quietly_bind.
  { destruct (env_is_train env); [|quiet].
    apply quiet_bind; [apply init_train_quiet | intros; quiet]. }
  intros t1 self1 H1.
  apply fails_quietly_bind; [quiet|]. intros _ _ _.
  intros tr e Hr. exfalso.
  destruct (print_network_returns env self1) as [tp Hp].
  { destruct (env_is_train env) eqn:Et.
    - bind_inv H1 as t Ht. apply ret_Ok_inv in H1 as [<- _].
      apply init_train_inv in Ht.
      destruct (its_fea _ _ _ Ht) as (w & b & _ & _ & Hb & _ & HF).
      intros _. cbn. split; [eauto|]. exists t. split; [done|].
      intros [k Hk]. rewrite Hk in Hb. cbn in Hb. by subst b.
    - apply ret_Ok_inv in H1 as [<- _]. cbn. done. }
  rewrite Hp in Hr. cbn in Hr. discriminate.
Qed.

Lemma subscript_insert_ne items missing k k' v :
  k ≠ k' →
  subscript (VDict (<[k := v]> items) missing) k' = subscript (VDict items missing) k'.
Proof. intros Hk. unfold subscript. by rewrite lookup_insert_ne. Qed.

Ltac ext_M :=
  repeat first
    [ reflexivity
    | rewrite subscript_insert_ne by done
    | apply bind_ext; [|intros]
    | match goal with
      | |- (if ?b then _ else _) = (if ?b then _ else _) => destruct b
      | |- when ?b _ = when ?b _ => destruct b; cbn [when]
      | |- (let '(_, _) := ?p in _) = _ => destruct p
      end ].

(** The entry [gp_weight] of the training options is never read. *)
Lemma init_train_gp_weight env items missing v :
  init_train env (VDict (<["gp_weight" := v]> items) missing)
  = init_train env (VDict items missing).
Proof.
  unfold init_train, init_loss, get_or, init_optimizers_G, init_optimizer_D,
    init_schedulers.
  cbn [for_each]. ext_M.
Qed.

(** ** Running a training step *)

(** The whole trace of a step, and the object it leaves. *)
Lemma optimize_parameters_run self t vL vseg vcat vH wg step b :
  fed self t vL vseg vcat vH wg →
  update_G t step = Ok b →
  ∃ rp log,
    optimize_parameters self step =
      (G_head_trace vL vseg
         ++ (if b then G_update_trace t (fake_of vL vseg) vcat vH else [])
         ++ (if 20000 <? step then [EStep Optimizer_G_other] else [])
         ++ D_update_trace t wg (fake_of vL vseg) vcat vH,
       Ok (set_fake_H (set_train self (set_log t rp log)) (fake_of vL vseg)))
    ∧ (wg = true → is_Some rp).
Proof.
  intros [Ht [d Hd] HL Hseg Hcat HH Hpix Hfea _ Hgan Hgp] Hb.
  destruct self as [o it ug sd gt nd tr L sg ct H fk]; cbn in *; subst.
  unfold optimize_parameters, G_head_trace, G_update_trace, D_update_trace,
    gp_trace, l_g_total_of, l_d_total_of, gp_term, pix_term, fea_term.
  cbn. rewrite Hb, Hgan.
  destruct t as [cp pw cf fw nf cg gw ur ii rpt cgp gpw o1 o2 o3 os ss lg];
    cbn in *.
  assert (Hp : cp = None ∨ ∃ k w, cp = Some k ∧ pw = Some w).
  { destruct cp; [right|by left]. destruct Hpix as [w ->]; eauto. }
  assert (Hf : cf = None ∨ ∃ k w, cf = Some k ∧ fw = Some w ∧ nf = true).
  { destruct cf; [right|by left]. destruct Hfea as [[w ->] ->]; eauto 6. }
  assert (Hg : wg = false ∨ ∃ n w, wg = true ∧ rpt = Some n ∧ cgp = true ∧ gpw = Some w).
  { destruct wg; [right|by left]. destruct Hgp as ([n ->] & -> & [w ->]); eauto 8. }
  clear Hpix Hfea Hgp.
  destruct Hp as [->|(kp & wp & -> & ->)];
    destruct Hf as [->|(kf & wf & -> & -> & ->)];
    destruct Hg as [->|(n & wgp & -> & -> & -> & ->)];
    destruct b; destruct (20000 <? step); cbn;
    try destruct (n =? size0 (var_data vH))%N; cbn;
    (do 2 eexists; split; [reflexivity | eauto; done]).
Qed.

(** A step leaves an object on which the next step can run, with the same
    schedule. *)
Lemma optimize_parameters_fed self t vL vseg vcat vH wg step b :
  fed self t vL vseg vcat vH wg →
  update_G t step = Ok b →
  ∃ tr self' t',
    optimize_parameters self step = (tr, Ok self') ∧
    fed self' t' vL vseg vcat vH wg ∧
    D_update_ratio t' = D_update_ratio t ∧ D_init_iters t' = D_init_iters t.
Proof.
  intros F Hu.
  destruct (optimize_parameters_run _ _ _ _ _ _ _ _ _ F Hu) as (rp & log & Hrun & Hrp).
  do 2 eexists. exists (set_log t rp log). split; [exact Hrun|].
  split; [|done]. destruct F. constructor; cbn; try done.
  intros Hwg. destruct (fed_gp0 Hwg) as (_ & ? & ?). auto.
Qed.

Lemma feed_data_inv self data volatile tr self' :
  feed_data self data volatile true = (tr, Ok self') →
  ∃ tL tseg tcat tH,
    data !! "LR" = Some tL ∧ data !! "seg" = Some tseg ∧
    data !! "category" = Some tcat ∧ data !! "HR" = Some tH ∧
    self' = set_vars self (MkVariable tL volatile) (MkVariable tseg volatile)
              (MkVariable tcat volatile) (Some (MkVariable tH volatile)) ∧
    tr = [].
Proof.
  unfold feed_data, batch_item. intros H.
  destruct (data !! "LR") as [tL|]; [|discriminate].
  destruct (data !! "seg") as [tseg|]; [|discriminate].
  destruct (data !! "category") as [tcat|]; [|discriminate].
  destruct (data !! "HR") as [tH|]; [|discriminate].
  cbn in H. injection H as <- <-. eauto 10.
Qed.

Lemma is_wgan_gp_run self train_opt g :
  subscript (opt self) "train" = Ok train_opt →
  subscript train_opt "gan_type" = Ok g →
  is_wgan_gp self = ([], Ok (py_eq_str g "wgan-gp")).
Proof. unfold is_wgan_gp. intros -> H. cbn. by rewrite H. Qed.

Lemma init_feed_fed env o tr0 self0 data volatile tr1 self :
  __init__ env o = (tr0, Ok self0) →
  env_is_train env = true →
  feed_data self0 data volatile true = (tr1, Ok self) →
  ∃ train_opt t g vL vseg vcat vH,
    subscript o "train" = Ok train_opt ∧
    subscript train_opt "gan_type" = Ok g ∧
    train self0 = Some t ∧ init_train_spec env train_opt t ∧
    fed self t vL vseg vcat vH (py_eq_str g "wgan-gp").
Proof.
  intros Hinit Et Hfeed.
  apply init_inv in Hinit as [[Ho _ _ _ _ HD _ Htr] _].
  rewrite Et in HD, Htr. destruct Htr as (train_opt & t & Hto & Ht & Hspec).
  apply feed_data_inv in Hfeed as (tL & tseg & tcat & tH & _ & _ & _ & _ & -> & _).
  destruct (its_gan _ _ _ Hspec) as (g & Hg & _ & Hgp).
  exists train_opt, t, g. do 4 eexists. do 4 (split; [done|]).
  constructor; cbn; try done.
  - destruct (its_pix _ _ _ Hspec) as (w & b & _ & _ & Hb & Hw).
    intros [k Hk]. rewrite Hk in Hb. cbn in Hb. subst b. by rewrite Hw.
  - destruct (its_fea _ _ _ Hspec) as (w & b & _ & _ & Hb & Hw & HF).
    intros [k Hk]. rewrite Hk in Hb. cbn in Hb. subst b. by rewrite Hw, HF.
  - destruct (its_ratio _ _ _ Hspec) as (c & _ & ->).
    by destruct (truthy c) eqn:E.
  - apply is_wgan_gp_run with train_opt; cbn; [by rewrite Ho | done].
  - intros E. rewrite E in Hgp. destruct Hgp as (w & _ & -> & -> & ->). done.
Qed.

Lemma update_G_int t step r i :
  D_update_ratio t = VInt r → r ≠ 0 → D_init_iters t = VInt i →
  update_G t step = Ok ((step mod r =? 0) && (i <? step)).
Proof.
  unfold update_G. intros -> Hr ->. cbn.
  destruct (Z.eqb_spec r 0) as [|_]; [done|]. cbn.
  by destruct (step mod r =? 0).
Qed.

(** The observations of the pieces of a step. *)
Lemma G_update_trace_obs t fake vcat vH :
  omap backward (G_update_trace t fake vcat vH) = [l_g_total_of t fake vcat vH]
  ∧ omap criterion_call (G_update_trace t fake vcat vH)
    = (if not_None (cri_pix t) then [CriPix] else [])
      ++ (if not_None (cri_fea t) then [CriFea] else []) ++ [CriGan; CriCe]
  ∧ omap (forward NetG) (G_update_trace t fake vcat vH) = []
  ∧ count (is_step Optimizer_G_SFT) (G_update_trace t fake vcat vH) = 1%nat
  ∧ count (is_step Optimizer_G_other) (G_update_trace t fake vcat vH) = 0%nat
  ∧ count (is_step Optimizer_D) (G_update_trace t fake vcat vH) = 0%nat
  ∧ count (is_zero_grad Optimizer_D) (G_update_trace t fake vcat vH) = 0%nat.
Proof.
  unfold G_update_trace. destruct (cri_pix t), (cri_fea t); repeat split.
Qed.

Lemma D_update_trace_obs t wg fake vcat vH :
  ∃ tr_D,
    D_update_trace t wg fake vcat vH = EZeroGrad Optimizer_D :: tr_D
    ∧ omap backward tr_D = [l_d_total_of t wg fake vcat vH]
    ∧ omap (forward NetG) tr_D = []
    ∧ count (is_step Optimizer_G_SFT) tr_D = 0%nat
    ∧ count (is_step Optimizer_G_other) tr_D = 0%nat
    ∧ count (is_step Optimizer_D) tr_D = 1%nat
    ∧ count (is_zero_grad Optimizer_D) tr_D = 0%nat.
Proof.
  unfold D_update_trace, gp_trace. eexists. split; [reflexivity|].
  destruct wg; [destruct (_ =? _)%N|]; repeat split.
Qed.

Lemma test_run self vL vseg :
  var_L self = Some vL → var_seg self = Some vseg →
  test self
  = ([EEval NetG; EForward NetG (Tuple [Var vL; Var vseg]); ETrain NetG],
     Ok (set_netG_training
           (set_fake_H (set_netG_training self false)
              (Net NetG (Tuple [Var vL; Var vseg]))) true)).
Proof. intros HL Hseg. unfold test. cbn. by rewrite HL, Hseg. Qed.

(** ** The concrete configurations *)

(** [__init__] on the example options, [feed_data] on the example batch,
    and the object they leave. *)
Lemma example_init_run :
  __init__ Example.env Example.o = (Example.init_trace, Ok Example.self0).
Proof. vm_compute. reflexivity. Qed.

Lemma example_feed_run :
  feed_data Example.self0 Example.data false true = ([], Ok Example.self).
Proof. vm_compute. reflexivity. Qed.

Lemma example_self_fed :
  fed Example.self Example.t Example.vL Example.vseg Example.vcat Example.vH true.
Proof.
  constructor; try (vm_compute; reflexivity); cbn; eauto.
  by intros [? ?].
Qed.

(** The whole trace of a step that does not update the generator (step 3,
    with [D_update_ratio = 2]) on the example object. *)
Example optimize_parameters_step3_example :
  let fake := Net NetG (Tuple [Var Example.vL; Var Example.vseg]) in
  let real := Var Example.vH in
  let category := Var Example.vcat in
  let interp :=
    Detach (Add (Mul RandomPt fake) (Mul (Sub (Lit (VInt 1)) RandomPt) real)) in
  (optimize_parameters Example.self 3).1
  = [EZeroGrad Optimizer_G_SFT; EZeroGrad Optimizer_G_other;
     EForward NetG (Tuple [Var Example.vL; Var Example.vseg]);
     EZeroGrad Optimizer_D;
     EForward NetD real;
     ECriterion CriGan [Item 0 (Net NetD real); Lit (VBool true)];
     ECriterion CriCe [Item 1 (Net NetD real); category];
     EForward NetD (Detach fake);
     ECriterion CriGan [Item 0 (Net NetD (Detach fake)); Lit (VBool false)];
     ECriterion CriCe [Item 1 (Net NetD (Detach fake)); category];
     EResizeRandomPt 16; EUniformRandomPt; ERequiresGrad interp;
     EForward NetD interp;
     ECriterion CriGp [interp; Item 0 (Net NetD interp)];
     EBackward
       (Add (Add (Add (Add (Cri CriGan [Item 0 (Net NetD real); Lit (VBool true)])
                           (Cri CriCe [Item 1 (Net NetD real); category]))
                      (Cri CriGan [Item 0 (Net NetD (Detach fake)); Lit (VBool false)]))
                 (Cri CriCe [Item 1 (Net NetD (Detach fake)); category]))
            (Mul (Lit (VInt 10)) (Cri CriGp [interp; Item 0 (Net NetD interp)])));
     EStep Optimizer_D].
Proof. vm_compute. reflexivity. Qed.

(** A configuration with neither [D_update_ratio] nor [D_init_iters], and
    with [gp_weight] in place of [gp_weigth]: the defaults are taken and the
    weight of the gradient penalty is [None]. *)
Example init_defaults_example :
  let train_opt :=
    Example.NoneDict
      [("pixel_weight", VInt 0); ("feature_weight", VInt 0);
       ("gan_type", VStr "wgan-gp"); ("gan_weight", VInt 1);
       ("gp_weight", VInt 10);
       ("lr_G", VFloat 0.0001); ("lr_D", VFloat 0.0001);
       ("lr_scheme", VStr "MultiStepLR")] in
  ∃ tr t, init_train Example.env train_opt = (tr, Ok t)
          ∧ D_update_ratio t = VInt 1 ∧ D_init_iters t = VInt 0
          ∧ l_gp_w t = Some VNone.
Proof. vm_compute. eauto 6. Qed.

(** The exception of each unrecognized value. *)
Example init_pixel_criterion_example :
  __init__ Example.env (Unrecognized.with_train Unrecognized.pixel)
  = ([EDefine NetG; EDefine NetD; ETrain NetG; ETrain NetD],
     Raise (NotImplementedError "Loss type [%s] is not recognized." [VStr "cb"])).
Proof. vm_compute. reflexivity. Qed.

Example init_feature_criterion_example :
  __init__ Example.env (Unrecognized.with_train Unrecognized.feature)
  = ([EDefine NetG; EDefine NetD; ETrain NetG; ETrain NetD;
      EPrint "Remove pixel loss." []],
     Raise (NotImplementedError "Loss type [%s] is not recognized." [VStr "L1"])).
Proof. vm_compute. reflexivity. Qed.

Example init_lr_scheme_example :
  __init__ Example.env (Unrecognized.with_train Unrecognized.scheme)
  = ([EDefine NetG; EDefine NetD; ETrain NetG; ETrain NetD;
      EPrint "Remove pixel loss." []; EPrint "Remove feature loss." []],
     Raise (NotImplementedError "MultiStepLR learning rate scheme is enough." [])).
Proof. vm_compute. reflexivity. Qed.

(** ** The generator's schedule *)

(** C1: the generator's loss is computed, back-propagated and the optimizer
    of the SFT parameters stepped exactly on the steps with
    [step % D_update_ratio == 0 and step > D_init_iters].  The trace of a
    step splits at the discriminator's [zero_grad]: before it, on such a
    step, the generator's criteria are called, its loss is back-propagated
    once and [optimizer_G_SFT] steps once; on any other step the part before
    holds the two [zero_grad]s, the generator's forward pass and (past step
    20000) the step of the other optimizer, and nothing else.  After it the
    discriminator's update runs in both cases. *)
Theorem optimize_parameters_generator_schedule
    self t vL vseg vcat vH wgan_gp step r i :
  fed self t vL vseg vcat vH wgan_gp →
  D_update_ratio t = VInt r → D_init_iters t = VInt i →
  let update := (step mod r =? 0) && (i <? step) in
  ∃ tr_G tr_D self',
    update_G t step = Ok update ∧
    optimize_parameters self step
      = (tr_G ++ EZeroGrad Optimizer_D :: tr_D, Ok self') ∧
    count (is_zero_grad Optimizer_D) tr_G = 0%nat ∧
    (* the generator's loss *)
    omap criterion_call tr_G
      = (if update
         then (if not_None (cri_pix t) then [CriPix] else [])
              ++ (if not_None (cri_fea t) then [CriFea] else [])
              ++ [CriGan; CriCe]
         else []) ∧
    omap backward tr_G
      = (if update then [l_g_total_of t (fake_of vL vseg) vcat vH] else []) ∧
    count (is_step Optimizer_G_SFT) tr_G = (if update then 1 else 0)%nat ∧
    count (is_step Optimizer_G_SFT) tr_D = 0%nat ∧
    (update = false →
     tr_G = [EZeroGrad Optimizer_G_SFT; EZeroGrad Optimizer_G_other;
             EForward NetG (Tuple [Var vL; Var vseg])]
            ++ (if 20000 <? step then [EStep Optimizer_G_other] else [])) ∧
    (* the discriminator's update *)
    omap backward tr_D = [l_d_total_of t wgan_gp (fake_of vL vseg) vcat vH] ∧
    count (is_step Optimizer_D) tr_D = 1%nat.
Proof.
  intros F Hr Hi update.
  assert (r ≠ 0) as Hr0.
  { pose proof (fed_ratio _ _ _ _ _ _ _ F) as Ht. rewrite Hr in Ht. cbn in Ht.
    intros ->. discriminate. }
  pose proof (update_G_int t step r i Hr Hr0 Hi) as Hu. fold update in Hu.
  destruct (optimize_parameters_run _ _ _ _ _ _ _ _ _ F Hu) as (rp & log & Hrun & _).
  destruct (D_update_trace_obs t wgan_gp (fake_of vL vseg) vcat vH)
    as (tr_D & HD & HDb & _ & HDs & _ & HDd & _).
  destruct (G_update_trace_obs t (fake_of vL vseg) vcat vH)
    as (HGb & HGc & _ & HGs & _ & _ & HGz).
  rewrite HD in Hrun.
  exists (G_head_trace vL vseg
          ++ (if update then G_update_trace t (fake_of vL vseg) vcat vH else [])
          ++ (if 20000 <? step then [EStep Optimizer_G_other] else [])),
    tr_D.
  eexists. split; [done|]. split.
  { rewrite Hrun. f_equal. by rewrite <- !app_assoc. }
  rewrite !count_app, !omap_app.
  destruct update.
  - rewrite HGb, HGc, HGs, HGz.
    destruct (20000 <? step); repeat split; try done;
      cbn; by rewrite app_nil_r.
  - destruct (20000 <? step); repeat split; done.
Qed.

Lemma optimize_parameters_generator_schedule_witness :
  ∃ tr_G tr_D self',
    optimize_parameters Example.self 4
    = (tr_G ++ EZeroGrad Optimizer_D :: tr_D, Ok self')
    ∧ count (is_step Optimizer_G_SFT) tr_G = 1%nat.
Proof.
  destruct (optimize_parameters_generator_schedule Example.self Example.t
              Example.vL Example.vseg Example.vcat Example.vH true 4 2 3
              example_self_fed eq_refl eq_refl)
    as (tr_G & tr_D & self' & _ & Hrun & _ & _ & _ & Hs & _).
  exists tr_G, tr_D, self'. split; [exact Hrun | exact Hs].
Defined.

(** C2: the optimizer of the other generator parameters steps exactly when
    [step > 20000], whatever the configuration and whatever the generator's
    schedule decides ([b]); it steps at most once. *)
Theorem optimizer_G_other_gate self t vL vseg vcat vH wgan_gp step b :
  fed self t vL vseg vcat vH wgan_gp →
  update_G t step = Ok b →
  ∃ tr self',
    optimize_parameters self step = (tr, Ok self') ∧
    count (is_step Optimizer_G_other) tr = (if 20000 <? step then 1%nat else 0%nat) ∧
    (EStep Optimizer_G_other ∈ tr ↔ 20000 < step).
Proof.
  intros F Hu.
  destruct (optimize_parameters_run _ _ _ _ _ _ _ _ _ F Hu) as (rp & log & Hrun & _).
  destruct (D_update_trace_obs t wgan_gp (fake_of vL vseg) vcat vH)
    as (tr_D & HD & _ & _ & _ & HDo & _ & _).
  destruct (G_update_trace_obs t (fake_of vL vseg) vcat vH)
    as (_ & _ & _ & _ & HGo & _ & _).
  do 2 eexists. split; [exact Hrun|].
  assert (Hc : count (is_step Optimizer_G_other)
                 (G_head_trace vL vseg
                  ++ (if b then G_update_trace t (fake_of vL vseg) vcat vH else [])
                  ++ (if 20000 <? step then [EStep Optimizer_G_other] else [])
                  ++ D_update_trace t wgan_gp (fake_of vL vseg) vcat vH)
               = (if 20000 <? step then 1%nat else 0%nat)).
  { rewrite HD, !count_app.
    replace (count (is_step Optimizer_G_other) (EZeroGrad Optimizer_D :: tr_D))
      with (count (is_step Optimizer_G_other) tr_D) by reflexivity.
    rewrite HDo. destruct b; [rewrite HGo|]; by destruct (20000 <? step). }
  split; [exact Hc|].
  unfold count in Hc. destruct (Z.ltb_spec 20000 step) as [Hlt|Hge].
  - split; [done|]. intros _.
    rewrite !elem_of_app. right. right. left. set_solver.
  - split; [|lia]. intros Hin.
    assert (EStep Optimizer_G_other
              ∈ filter (λ e, is_step Optimizer_G_other e = true)
                  (G_head_trace vL vseg
                   ++ (if b then G_update_trace t (fake_of vL vseg) vcat vH else [])
                   ++ [] ++ D_update_trace t wgan_gp (fake_of vL vseg) vcat vH))
      as Hf by (apply list_elem_of_filter; split; [reflexivity | exact Hin]).
    apply length_zero_iff_nil in Hc. rewrite Hc in Hf. by apply elem_of_nil in Hf.
Qed.

Lemma optimizer_G_other_gate_witness :
  ∃ tr self',
    optimize_parameters Example.self 20001 = (tr, Ok self')
    ∧ count (is_step Optimizer_G_other) tr = 1%nat.
Proof.
  destruct (optimizer_G_other_gate Example.self Example.t
              Example.vL Example.vseg Example.vcat Example.vH true 20001 false
              example_self_fed eq_refl)
    as (tr & self' & Hrun & Hc & _).
  exists tr, self'. split; [exact Hrun | exact Hc].
Defined.

(** ** What [__init__] builds, raises and writes *)

(** C3: in training mode the generator's parameters are split by name.
    Those whose name contains [SFT] or [Cond] go, in order, to an Adam
    optimizer with learning rate [lr_G * 5], the others to one with learning
    rate [lr_G]; both get the weight decay [wd_G] ([weight_decay_G], or 0
    when that is falsy) and the betas [(beta1_G, 0.999)]. *)
Theorem init_parameter_groups env o tr self :
  __init__ env o = (tr, Ok self) →
  env_is_train env = true →
  ∃ train_opt t wd lr lr5 beta1,
    subscript o "train" = Ok train_opt ∧ train self = Some t ∧
    subscript train_opt "weight_decay_G" = Ok wd ∧
    subscript train_opt "lr_G" = Ok lr ∧ py_mul_int lr 5 = Ok lr5 ∧
    subscript train_opt "beta1_G" = Ok beta1 ∧
    optimizer_G_SFT t =
      {| adam_params :=
           (filter (λ kv, contains "SFT" kv.1 || contains "Cond" kv.1 = true)
              (G_named_parameters env)).*2;
         adam_lr := lr5;
         adam_weight_decay := (if truthy wd then wd else VInt 0);
         adam_betas := (beta1, VFloat 0.999) |} ∧
    optimizer_G_other t =
      {| adam_params :=
           (filter (λ kv, contains "SFT" kv.1 || contains "Cond" kv.1 = false)
              (G_named_parameters env)).*2;
         adam_lr := lr;
         adam_weight_decay := (if truthy wd then wd else VInt 0);
         adam_betas := (beta1, VFloat 0.999) |} ∧
    optimizers t = [Optimizer_G_SFT; Optimizer_G_other; Optimizer_D].
Proof.
  intros Hinit Et.
  apply init_inv in Hinit as [[_ _ _ _ _ _ _ Htr] _]. rewrite Et in Htr.
  destruct Htr as (train_opt & t & Hto & Ht & Hspec).
  destruct (its_optimizers_G _ _ _ Hspec) as (wd & lr & lr5 & b1 & ? & ? & ? & ? & HS & HO).
  exists train_opt, t, wd, lr, lr5, b1. do 6 (split; [done|]).
  rewrite HS, HO, partition_params_filter. split; [done|]. split; [done|].
  apply (its_optimizers _ _ _ Hspec).
Qed.

Lemma init_parameter_groups_witness :
  ∃ t, train Example.self0 = Some t
       ∧ adam_params (optimizer_G_SFT t) = [0%nat; 2%nat]
       ∧ adam_lr (optimizer_G_SFT t) = VFloat 0.0005
       ∧ adam_params (optimizer_G_other t) = [1%nat; 3%nat]
       ∧ adam_lr (optimizer_G_other t) = VFloat 0.0001.
Proof.
  destruct (init_parameter_groups Example.env Example.o Example.init_trace
              Example.self0 example_init_run eq_refl)
    as (top & t & wd & lr & lr5 & b1 & _ & Ht & _ & _ & _ & _ & HS & HO & _).
  exists t. split; [exact Ht|].
  injection Ht as <-. repeat split; vm_compute; reflexivity.
Defined.

(** C4: in training mode [__init__] raises, and leaves no object, when the
    pixel loss is enabled with a criterion that is neither ['l1'] nor ['l2'],
    when the feature loss is enabled with such a criterion, and when
    [lr_scheme] is not ['MultiStepLR'].  Nothing catches the exception:
    [__init__] ends there, before [print_network] has written a file. *)
Theorem init_unrecognized_raises env o train_opt :
  env_is_train env = true →
  subscript o "train" = Ok train_opt →
  (∃ w ty, subscript train_opt "pixel_weight" = Ok w ∧ py_gt_int w 0 = Ok true ∧
           subscript train_opt "pixel_criterion" = Ok ty ∧
           py_eq_str ty "l1" = false ∧ py_eq_str ty "l2" = false)
  ∨ (∃ w ty, subscript train_opt "feature_weight" = Ok w ∧ py_gt_int w 0 = Ok true ∧
             subscript train_opt "feature_criterion" = Ok ty ∧
             py_eq_str ty "l1" = false ∧ py_eq_str ty "l2" = false)
  ∨ (∃ scheme, subscript train_opt "lr_scheme" = Ok scheme ∧
               py_eq_str scheme "MultiStepLR" = false) →
  ∃ tr e, __init__ env o = (tr, Raise e) ∧ file_writes tr = [].
Proof.
  intros Et Hto Hbad.
  enough (raises (__init__ env o)) as (tr & e & H)
    by (exists tr, e; split; [done | by apply (init_fails_quietly env o tr e)]).
  assert (∀ wk ck msg,
            (∃ w ty, subscript train_opt wk = Ok w ∧ py_gt_int w 0 = Ok true ∧
                     subscript train_opt ck = Ok ty ∧
                     py_eq_str ty "l1" = false ∧ py_eq_str ty "l2" = false) →
            raises (init_loss train_opt wk ck msg)) as Hloss.
  { intros wk ck msg (w & ty & Hw & Hpos & Hty & H1 & H2).
    unfold init_loss. rewrite Hw. cbn. rewrite Hpos. cbn. rewrite Hty. cbn.
    rewrite H1, H2. cbn. by do 2 eexists. }
  assert (raises (init_train env train_opt)) as Htrain.
  { unfold init_train. destruct Hbad as [Hpix|[Hfea|(s & Hs & Hne)]].
    - apply raises_bind_l. by apply Hloss.
    - apply raises_bind_r. intros ? ? ?. apply raises_bind_l. by apply Hloss.
    - do 13 (apply raises_bind_r; intros ? ? ?).
      apply raises_bind_l. unfold init_schedulers. rewrite Hs. cbn.
      rewrite Hne. by do 2 eexists. }
  unfold __init__. rewrite Hto.
  apply raises_bind_r. intros ? ? [[= <-] _]%lift_Ok_inv.
  do 3 (apply raises_bind_r; intros ? ? ?).
  apply raises_bind_l. cbn [is_train]. rewrite Et. by apply raises_bind_l.
Qed.

Lemma init_unrecognized_raises_witness :
  ∃ tr e,
    __init__ Example.env (Unrecognized.with_train Unrecognized.scheme)
    = (tr, Raise e) ∧ file_writes tr = [].
Proof.
  apply (init_unrecognized_raises Example.env
           (Unrecognized.with_train Unrecognized.scheme) Unrecognized.scheme).
  - reflexivity.
  - vm_compute. reflexivity.
  - right. right. exists (VStr "CosineAnnealingLR").
    split; vm_compute; reflexivity.
Defined.

(** ** The losses *)

(** C5: on a step that updates the generator, the loss it back-propagates
    is the sum, in this order, of 0, the pixel term when [pixel_weight > 0],
    the feature term when [feature_weight > 0], the adversarial term and the
    classification term, weighted by [pixel_weight], [feature_weight],
    [gan_weight] and [gan_weight] again; the loss of the discriminator is the
    sum of its four unweighted terms, plus the gradient penalty weighted by
    the entry [gp_weigth] exactly when [gan_type == 'wgan-gp'].  These are
    the two backward passes of the step. *)
Theorem loss_terms env o tr0 self0 data volatile tr1 self t step :
  __init__ env o = (tr0, Ok self0) →
  env_is_train env = true →
  train self0 = Some t →
  feed_data self0 data volatile true = (tr1, Ok self) →
  update_G t step = Ok true →
  ∃ train_opt pw pixel fw feature gw g vL vseg vcat vH tr self',
    subscript o "train" = Ok train_opt ∧
    subscript train_opt "pixel_weight" = Ok pw ∧ py_gt_int pw 0 = Ok pixel ∧
    subscript train_opt "feature_weight" = Ok fw ∧ py_gt_int fw 0 = Ok feature ∧
    subscript train_opt "gan_weight" = Ok gw ∧
    subscript train_opt "gan_type" = Ok g ∧
    var_L self = Some vL ∧ var_seg self = Some vseg ∧
    var_cat self = Some vcat ∧ var_H self = Some vH ∧
    optimize_parameters self step = (tr, Ok self') ∧
    let fake := Net NetG (Tuple [Var vL; Var vseg]) in
    let l_g_pix := Mul (Lit pw) (Cri CriPix [fake; Var vH]) in
    let l_g_fea :=
      Mul (Lit fw) (Cri CriFea [Net NetF fake; Detach (Net NetF (Var vH))]) in
    let l_g_gan :=
      Mul (Lit gw) (Cri CriGan [Item 0 (Net NetD fake); Lit (VBool true)]) in
    let l_g_cls := Mul (Lit gw) (Cri CriCe [Item 1 (Net NetD fake); Var vcat]) in
    let l_g_total :=
      Add (Add (add_opt (add_opt (Lit (VInt 0))
                           (if pixel : bool then Some l_g_pix else None))
                  (if feature : bool then Some l_g_fea else None))
             l_g_gan)
        l_g_cls in
    let l_d_real := Cri CriGan [Item 0 (Net NetD (Var vH)); Lit (VBool true)] in
    let l_d_cls_real := Cri CriCe [Item 1 (Net NetD (Var vH)); Var vcat] in
    let l_d_fake := Cri CriGan [Item 0 (Net NetD (Detach fake)); Lit (VBool false)] in
    let l_d_cls_fake := Cri CriCe [Item 1 (Net NetD (Detach fake)); Var vcat] in
    let l_d_sum := Add (Add (Add l_d_real l_d_cls_real) l_d_fake) l_d_cls_fake in
    let interp :=
      Detach (Add (Mul RandomPt fake) (Mul (Sub (Lit (VInt 1)) RandomPt) (Var vH))) in
    ∃ l_d_total,
      omap backward tr = [l_g_total; l_d_total] ∧
      if py_eq_str g "wgan-gp"
      then ∃ gpw, subscript train_opt "gp_weigth" = Ok gpw ∧
                  l_d_total
                  = Add l_d_sum
                      (Mul (Lit gpw) (Cri CriGp [interp; Item 0 (Net NetD interp)]))
      else l_d_total = l_d_sum.
Proof.
  intros Hinit Et Ht Hfeed Hu.
  destruct (init_feed_fed _ _ _ _ _ _ _ _ Hinit Et Hfeed)
    as (train_opt & t' & g & vL & vseg & vcat & vH & Hto & Hg & Ht' & Hspec & F).
  assert (t' = t) as -> by congruence.
  destruct (optimize_parameters_run _ _ _ _ _ _ _ _ _ F Hu) as (rp & log & Hrun & _).
  destruct (its_pix _ _ _ Hspec) as (pw & pixel & Hpw & Hpix & Hcp & Hlp).
  destruct (its_fea _ _ _ Hspec) as (fw & feature & Hfw & Hfea & Hcf & Hlf & _).
  destruct (its_gan _ _ _ Hspec) as (g' & Hg' & _ & Hgp).
  assert (g' = g) as -> by congruence.
  exists train_opt, pw, pixel, fw, feature, (l_gan_w t), g, vL, vseg, vcat, vH.
  do 2 eexists. do 5 (split; [done|]).
  split; [apply (its_gan_w _ _ _ Hspec)|]. split; [done|].
  destruct F as [_ _ HL Hseg Hcat HH _ _ _ _ _].
  do 4 (split; [done|]). split; [exact Hrun|].
  exists (l_d_total_of t (py_eq_str g "wgan-gp") (fake_of vL vseg) vcat vH).
  split.
  - destruct (D_update_trace_obs t (py_eq_str g "wgan-gp") (fake_of vL vseg) vcat vH)
      as (tr_D & HD & HDb & _).
    destruct (G_update_trace_obs t (fake_of vL vseg) vcat vH) as (HGb & _).
    rewrite HD, !omap_app, HGb.
    change (omap backward (EZeroGrad Optimizer_D :: tr_D)) with (omap backward tr_D).
    rewrite HDb.
    replace (omap backward (if 20000 <? step then [EStep Optimizer_G_other] else []))
      with (@nil expr) by (by destruct (20000 <? step)).
    cbn [omap backward G_head_trace app]. cbn. f_equal.
    unfold l_g_total_of, pix_term, fea_term, gan_term, cls_term.
    rewrite Hlp, Hlf.
    destruct (cri_pix t), (cri_fea t); cbn in Hcp, Hcf; subst pixel feature; done.
  - unfold l_d_total_of, gp_term.
    destruct (py_eq_str g "wgan-gp"); [|done].
    destruct Hgp as (w & Hw & -> & _). by exists w.
Qed.

Lemma loss_terms_witness :
  ∃ l_g l_d,
    omap backward (optimize_parameters Example.self 4).1 = [l_g; l_d].
Proof.
  destruct (loss_terms Example.env Example.o Example.init_trace Example.self0
              Example.data false [] Example.self Example.t 4
              example_init_run eq_refl eq_refl example_feed_run eq_refl)
    as (top & pw & pixel & fw & feature & gw & g & vL & vseg & vcat & vH & tr
        & self' & _ & _ & _ & _ & _ & _ & _ & _ & _ & _ & _ & Hrun & l_d & Hb & _).
  rewrite Hrun. eauto.
Defined.

(** ** The inputs of the generator *)

(** C6, counterexample: the category label is not an input of the
    generator.  On the example object the forward pass of the generator, in
    [test] and in [optimize_parameters], takes the pair of the low-resolution
    image and the segmentation map, in which the category label does not
    occur. *)
Lemma generator_forward_without_category :
  omap (forward NetG) (test Example.self).1
    = [Tuple [Var Example.vL; Var Example.vseg]]
  ∧ forallb (mentions Example.vcat) (omap (forward NetG) (test Example.self).1)
    = false
  ∧ omap (forward NetG) (optimize_parameters Example.self 4).1
    = [Tuple [Var Example.vL; Var Example.vseg]]
  ∧ forallb (mentions Example.vcat)
      (omap (forward NetG) (optimize_parameters Example.self 4).1)
    = false.
Proof. vm_compute. done. Qed.

(** C6, amended: every forward pass of the generator, in
    [optimize_parameters] and in [test], takes the low-resolution image and
    the segmentation map and nothing else.  The category label is the target
    of the classification criterion in [optimize_parameters] (once for the
    generator on a step that updates it, twice for the discriminator);
    [test] calls no criterion. *)
Theorem generator_forward_inputs self t vL vseg vcat vH wgan_gp step b :
  fed self t vL vseg vcat vH wgan_gp →
  update_G t step = Ok b →
  let fake := Net NetG (Tuple [Var vL; Var vseg]) in
  ∃ tr self' tr' self'',
    optimize_parameters self step = (tr, Ok self') ∧
    omap (forward NetG) tr = [Tuple [Var vL; Var vseg]] ∧
    omap ce_call tr
      = (if b then [[Item 1 (Net NetD fake); Var vcat]] else [])
        ++ [[Item 1 (Net NetD (Var vH)); Var vcat];
            [Item 1 (Net NetD (Detach fake)); Var vcat]] ∧
    test self = (tr', Ok self'') ∧
    omap (forward NetG) tr' = [Tuple [Var vL; Var vseg]] ∧
    omap criterion_call tr' = [].
Proof.
  intros F Hu fake.
  destruct (optimize_parameters_run _ _ _ _ _ _ _ _ _ F Hu) as (rp & log & Hrun & _).
  pose proof (test_run self vL vseg (fed_var_L _ _ _ _ _ _ _ F)
                (fed_var_seg _ _ _ _ _ _ _ F)) as Htest.
  do 4 eexists. split; [exact Hrun|].
  split; [|split; [|split; [exact Htest|done]]].
  - rewrite !omap_app.
    destruct (G_update_trace_obs t (fake_of vL vseg) vcat vH) as (_ & _ & HG & _).
    destruct (D_update_trace_obs t wgan_gp (fake_of vL vseg) vcat vH)
      as (tr_D & HD & _ & HDf & _).
    rewrite HD.
    change (omap (forward NetG) (EZeroGrad Optimizer_D :: tr_D))
      with (omap (forward NetG) tr_D).
    rewrite HDf.
    destruct b; [rewrite HG|]; by destruct (20000 <? step).
  - subst fake. change (Net NetG (Tuple [Var vL; Var vseg])) with (fake_of vL vseg).
    assert (omap ce_call (G_update_trace t (fake_of vL vseg) vcat vH)
            = [[Item 1 (Net NetD (fake_of vL vseg)); Var vcat]]) as HG
      by (unfold G_update_trace; destruct (cri_pix t), (cri_fea t); reflexivity).
    assert (omap ce_call (D_update_trace t wgan_gp (fake_of vL vseg) vcat vH)
            = [[Item 1 (Net NetD (Var vH)); Var vcat];
               [Item 1 (Net NetD (Detach (fake_of vL vseg))); Var vcat]]) as HD
      by (unfold D_update_trace, gp_trace;
          destruct wgan_gp; [destruct (_ =? _)%N|]; reflexivity).
    rewrite !omap_app, HD.
    destruct b; [rewrite HG|]; by destruct (20000 <? step).
Qed.

Lemma generator_forward_inputs_witness :
  ∃ tr self',
    optimize_parameters Example.self 4 = (tr, Ok self')
    ∧ omap (forward NetG) tr = [Tuple [Var Example.vL; Var Example.vseg]].
Proof.
  destruct (generator_forward_inputs Example.self Example.t
              Example.vL Example.vseg Example.vcat Example.vH true 4 true
              example_self_fed eq_refl)
    as (tr & self' & _ & _ & Hrun & Hf & _).
  exists tr, self'. split; [exact Hrun | exact Hf].
Defined.

(** ** Files *)

(** C7: the files that [__init__] writes.  In training mode [print_network]
    opens [network.txt], in the parent of the save directory, three times at
    most: it writes the generator's description, appends the discriminator's,
    and appends the perceptual network's exactly when the feature loss is
    enabled ([feature_weight > 0]).  Nothing else is written and no
    checkpoint is saved; outside training mode no file is written at all. *)
Theorem init_writes_network_txt env o tr self :
  __init__ env o = (tr, Ok self) →
  let path := os_path_join (env_save_dir env) ["../"; "network.txt"] in
  let description n := (get_network_description env n).1 in
  path = env_save_dir env
         +:+ (if String.eqb (env_save_dir env) "" || endswith (env_save_dir env) "/"
              then "" else "/")
         +:+ "../network.txt"
  ∧ if env_is_train env then
      ∃ train_opt w perceptual,
        subscript o "train" = Ok train_opt ∧
        subscript train_opt "feature_weight" = Ok w ∧
        py_gt_int w 0 = Ok perceptual ∧
        file_writes tr =
          [WriteText path FileW
             ("-------------- Generator --------------" +:+ nl
                +:+ description NetG +:+ nl);
           WriteText path FileA
             (nl +:+ nl +:+ nl +:+ "-------------- Discriminator --------------"
                +:+ nl +:+ description NetD +:+ nl)]
          ++ (if perceptual : bool
              then [WriteText path FileA
                      (nl +:+ nl +:+ nl
                         +:+ "-------------- Perceptual Network --------------"
                         +:+ nl +:+ description NetF +:+ nl)]
              else [])
    else file_writes tr = [].
Proof.
  intros Hinit path description. split; [apply network_path_eq|].
  apply init_inv in Hinit as [[_ _ _ _ _ _ _ Htr] Hw].
  destruct (env_is_train env); [|done].
  destruct Htr as (train_opt & t & Hto & Ht & Hspec).
  destruct (its_fea _ _ _ Hspec) as (w & b & Hw1 & Hb & Hcf & _).
  exists train_opt, w, b. do 3 (split; [done|]).
  rewrite Hw, Ht, Hcf. reflexivity.
Qed.

Lemma init_writes_network_txt_witness :
  file_writes Example.init_trace
  = [WriteText "exp/models/../network.txt" FileW
       ("-------------- Generator --------------" +:+ nl +:+ "SFT_Net()" +:+ nl);
     WriteText "exp/models/../network.txt" FileA
       (nl +:+ nl +:+ nl +:+ "-------------- Discriminator --------------" +:+ nl
          +:+ "ACD_VGG_BN_96()" +:+ nl)].
Proof.
  destruct (init_writes_network_txt Example.env Example.o Example.init_trace
              Example.self0 example_init_run) as [_ (top & w & p & Hto & Hw & Hp & ->)].
  vm_compute in Hto. injection Hto as <-.
  vm_compute in Hw. injection Hw as <-.
  vm_compute in Hp. injection Hp as <-.
  reflexivity.
Defined.

(** ** The discriminator, and [test] *)

(** C8: every step performs the same single update of the discriminator,
    whatever [step] is and whatever the generator's schedule decides: one
    [optimizer_D.zero_grad()], forward passes of the discriminator on the
    real images and on the detached fake ones, each followed by the
    adversarial and the classification criterion, one backward pass of their
    sum (plus the gradient penalty, when there is one), and one
    [optimizer_D.step()].  Nothing before the [zero_grad] touches
    [optimizer_D]. *)
Theorem discriminator_update_unconditional self t vL vseg vcat vH wgan_gp :
  fed self t vL vseg vcat vH wgan_gp →
  let fake := Net NetG (Tuple [Var vL; Var vseg]) in
  let l_d_real := Cri CriGan [Item 0 (Net NetD (Var vH)); Lit (VBool true)] in
  let l_d_cls_real := Cri CriCe [Item 1 (Net NetD (Var vH)); Var vcat] in
  let l_d_fake := Cri CriGan [Item 0 (Net NetD (Detach fake)); Lit (VBool false)] in
  let l_d_cls_fake := Cri CriCe [Item 1 (Net NetD (Detach fake)); Var vcat] in
  ∃ tr_gp l_d_gp,
    let tr_D :=
      [EForward NetD (Var vH);
       ECriterion CriGan [Item 0 (Net NetD (Var vH)); Lit (VBool true)];
       ECriterion CriCe [Item 1 (Net NetD (Var vH)); Var vcat];
       EForward NetD (Detach fake);
       ECriterion CriGan [Item 0 (Net NetD (Detach fake)); Lit (VBool false)];
       ECriterion CriCe [Item 1 (Net NetD (Detach fake)); Var vcat]]
      ++ tr_gp
      ++ [EBackward
            (add_opt (Add (Add (Add l_d_real l_d_cls_real) l_d_fake) l_d_cls_fake)
               l_d_gp);
          EStep Optimizer_D] in
    (wgan_gp = false → tr_gp = [] ∧ l_d_gp = None) ∧
    omap backward tr_gp = [] ∧
    count (is_step Optimizer_D) tr_gp = 0%nat ∧
    count (is_zero_grad Optimizer_D) tr_gp = 0%nat ∧
    ∀ step b,
      update_G t step = Ok b →
      ∃ tr_G self',
        optimize_parameters self step
          = (tr_G ++ EZeroGrad Optimizer_D :: tr_D, Ok self') ∧
        count (is_zero_grad Optimizer_D) tr_G = 0%nat ∧
        count (is_step Optimizer_D) tr_G = 0%nat.
Proof.
  intros F fake l_d_real l_d_cls_real l_d_fake l_d_cls_fake.
  exists (gp_trace t wgan_gp fake vH), (gp_term t wgan_gp fake vH).
  split; [by intros ->|].
  split; [unfold gp_trace; destruct wgan_gp; [destruct (_ =? _)%N|]; done|].
  split; [unfold gp_trace; destruct wgan_gp; [destruct (_ =? _)%N|]; done|].
  split; [unfold gp_trace; destruct wgan_gp; [destruct (_ =? _)%N|]; done|].
  intros step b Hu.
  destruct (optimize_parameters_run _ _ _ _ _ _ _ _ _ F Hu) as (rp & log & Hrun & _).
  destruct (G_update_trace_obs t (fake_of vL vseg) vcat vH)
    as (_ & _ & _ & _ & _ & HGd & HGz).
  exists (G_head_trace vL vseg
          ++ (if b then G_update_trace t (fake_of vL vseg) vcat vH else [])
          ++ (if 20000 <? step then [EStep Optimizer_G_other] else [])).
  eexists. split.
  { rewrite Hrun. f_equal. by rewrite <- !app_assoc. }
  rewrite !count_app.
  destruct b; [rewrite HGd, HGz|]; by destruct (20000 <? step).
Qed.

Lemma discriminator_update_unconditional_witness :
  ∃ tr_D, ∀ step,
    ∃ tr_G self',
      optimize_parameters Example.self step
      = (tr_G ++ EZeroGrad Optimizer_D :: tr_D, Ok self').
Proof.
  destruct (discriminator_update_unconditional Example.self Example.t
              Example.vL Example.vseg Example.vcat Example.vH true
              example_self_fed)
    as (tr_gp & l_d_gp & _ & _ & _ & _ & Hall).
  eexists. intros step.
  destruct (Hall step ((step mod 2 =? 0) && (3 <? step)))
    as (tr_G & self' & Hrun & _).
  { apply update_G_int; [reflexivity | discriminate | reflexivity]. }
  exists tr_G, self'. exact Hrun.
Defined.

(** C9: [test] switches the generator to evaluation mode, runs its forward
    pass on the low-resolution image and the segmentation map, keeps the
    result as [fake_H], and switches the generator back to training mode:
    whatever the mode before, the generator is in training mode after. *)
Theorem test_leaves_training_mode self vL vseg :
  var_L self = Some vL → var_seg self = Some vseg →
  ∃ self',
    test self
      = ([EEval NetG; EForward NetG (Tuple [Var vL; Var vseg]); ETrain NetG],
         Ok self') ∧
    netG_training self' = true ∧
    fake_H self' = Some (Net NetG (Tuple [Var vL; Var vseg])) ∧
    train self' = train self ∧ netD self' = netD self.
Proof.
  intros HL Hseg. eexists. split; [by apply test_run|]. done.
Qed.

Lemma test_leaves_training_mode_witness :
  ∃ tr self', test Example.self = (tr, Ok self') ∧ netG_training self' = true.
Proof.
  destruct (test_leaves_training_mode Example.self Example.vL Example.vseg
              eq_refl eq_refl) as (self' & Hrun & Ht & _).
  eexists _, self'. split; [exact Hrun | exact Ht].
Defined.

(** ** Defaults of the schedule *)

(** C10: [D_update_ratio] and [D_init_iters] are the configured values, or
    1 and 0 when those are falsy; a key that is absent from training options
    that read [None] at a missing key counts as falsy.  With the defaults the
    generator's condition holds exactly on the steps [step >= 1].  With
    [gan_type == 'wgan-gp'] the weight of the gradient penalty is the entry
    [gp_weigth]; the entry [gp_weight] is not read at all. *)
Theorem init_schedule_defaults env o tr self :
  __init__ env o = (tr, Ok self) →
  env_is_train env = true →
  ∃ train_opt t ratio iters g,
    subscript o "train" = Ok train_opt ∧ train self = Some t ∧
    subscript train_opt "D_update_ratio" = Ok ratio ∧
    subscript train_opt "D_init_iters" = Ok iters ∧
    subscript train_opt "gan_type" = Ok g ∧
    D_update_ratio t = (if truthy ratio then ratio else VInt 1) ∧
    D_init_iters t = (if truthy iters then iters else VInt 0) ∧
    (∀ items, train_opt = VDict items (Some VNone) →
              items !! "D_update_ratio" = None → D_update_ratio t = VInt 1) ∧
    (∀ items, train_opt = VDict items (Some VNone) →
              items !! "D_init_iters" = None → D_init_iters t = VInt 0) ∧
    (D_update_ratio t = VInt 1 → D_init_iters t = VInt 0 →
     ∀ step, update_G t step = Ok (1 <=? step)) ∧
    (py_eq_str g "wgan-gp" = true →
     ∃ w, subscript train_opt "gp_weigth" = Ok w ∧ l_gp_w t = Some w) ∧
    (∀ items missing v,
       train_opt = VDict items missing →
       init_train env (VDict (<["gp_weight" := v]> items) missing)
       = init_train env train_opt).
Proof.
  intros Hinit Et.
  apply init_inv in Hinit as [[_ _ _ _ _ _ _ Htr] _]. rewrite Et in Htr.
  destruct Htr as (train_opt & t & Hto & Ht & Hspec).
  destruct (its_ratio _ _ _ Hspec) as (ratio & Hr & HR).
  destruct (its_iters _ _ _ Hspec) as (iters & Hi & HI).
  destruct (its_gan _ _ _ Hspec) as (g & Hg & _ & Hgp).
  exists train_opt, t, ratio, iters, g. do 7 (split; [done|]).
  split; [|split; [|split; [|split]]].
  - intros items -> Hnone. cbn in Hr. rewrite Hnone in Hr.
    injection Hr as <-. exact HR.
  - intros items -> Hnone. cbn in Hi. rewrite Hnone in Hi.
    injection Hi as <-. exact HI.
  - intros H1 H0 step. rewrite (update_G_int t step 1 0 H1 ltac:(done) H0).
    rewrite Z.mod_1_r. cbn. f_equal.
    destruct (Z.ltb_spec 0 step), (Z.leb_spec 1 step); lia || done.
  - intros E. rewrite E in Hgp. destruct Hgp as (w & Hw & Hl & _). eauto.
  - intros items missing v ->. apply init_train_gp_weight.
Qed.

(** [__init__] on the options without a schedule. *)
Lemma defaults_absent_run :
  __init__ Example.env (Unrecognized.with_train Defaults.absent)
  = (Example.init_trace, Ok (Defaults.self0 Defaults.absent)).
Proof. vm_compute. reflexivity. Qed.

Lemma defaults_falsy_run :
  __init__ Example.env (Unrecognized.with_train Defaults.falsy)
  = (Example.init_trace, Ok (Defaults.self0 Defaults.falsy)).
Proof. vm_compute. reflexivity. Qed.

Lemma init_schedule_defaults_witness :
  (∃ tr self t,
     __init__ Example.env (Unrecognized.with_train Defaults.absent) = (tr, Ok self)
     ∧ train self = Some t
     ∧ D_update_ratio t = VInt 1 ∧ D_init_iters t = VInt 0
     ∧ (∀ step, update_G t step = Ok (1 <=? step))
     ∧ l_gp_w t = Some (VInt 10)
     ∧ init_train Example.env
         (VDict (<["gp_weight" := VInt 99]> Defaults.absent_items) (Some VNone))
       = init_train Example.env Defaults.absent)
  ∧ (∃ tr self t,
       __init__ Example.env (Unrecognized.with_train Defaults.falsy) = (tr, Ok self)
       ∧ train self = Some t
       ∧ D_update_ratio t = VInt 1 ∧ D_init_iters t = VInt 0
       ∧ (∀ step, update_G t step = Ok (1 <=? step))).
Proof.
  split.
  - pose proof defaults_absent_run as Hrun.
    assert (Eto : subscript (Unrecognized.with_train Defaults.absent) "train"
                  = Ok Defaults.absent) by (vm_compute; reflexivity).
    assert (Eg : subscript Defaults.absent "gan_type" = Ok (VStr "wgan-gp"))
      by (vm_compute; reflexivity).
    assert (Ew : subscript Defaults.absent "gp_weigth" = Ok (VInt 10))
      by (vm_compute; reflexivity).
    assert (Er : Defaults.absent_items !! "D_update_ratio" = None)
      by (vm_compute; reflexivity).
    assert (Ei : Defaults.absent_items !! "D_init_iters" = None)
      by (vm_compute; reflexivity).
    destruct (init_schedule_defaults _ _ _ _ Hrun eq_refl)
      as (top & t & ratio & iters & g & Hto & Ht & _ & _ & Hg & _ & _ & Har
          & Hai & Hdef & Hgp & Hunread).
    rewrite Eto in Hto. injection Hto as <-.
    rewrite Eg in Hg. injection Hg as <-.
    pose proof (Har Defaults.absent_items eq_refl Er) as H1.
    pose proof (Hai Defaults.absent_items eq_refl Ei) as H0.
    destruct (Hgp eq_refl) as (w & Hw & Hl).
    rewrite Ew in Hw. injection Hw as <-.
    do 2 eexists. exists t. split; [exact Hrun|]. split; [exact Ht|].
    split; [exact H1|]. split; [exact H0|]. split; [exact (Hdef H1 H0)|].
    split; [exact Hl|].
    exact (Hunread Defaults.absent_items (Some VNone) (VInt 99) eq_refl).
  - pose proof defaults_falsy_run as Hrun.
    assert (Eto : subscript (Unrecognized.with_train Defaults.falsy) "train"
                  = Ok Defaults.falsy) by (vm_compute; reflexivity).
    assert (Er : subscript Defaults.falsy "D_update_ratio" = Ok (VInt 0))
      by (vm_compute; reflexivity).
    assert (Ei : subscript Defaults.falsy "D_init_iters" = Ok (VInt 0))
      by (vm_compute; reflexivity).
    destruct (init_schedule_defaults _ _ _ _ Hrun eq_refl)
      as (top & t & ratio & iters & g & Hto & Ht & Hr & Hi & _ & HR & HI & _ & _
          & Hdef & _).
    rewrite Eto in Hto. injection Hto as <-.
    rewrite Er in Hr. injection Hr as <-.
    rewrite Ei in Hi. injection Hi as <-.
    do 2 eexists. exists t. split; [exact Hrun|]. split; [exact Ht|].
    split; [exact HR|]. split; [exact HI|]. exact (Hdef HR HI).
Defined.

(** * Further properties *)

(** ** The object after a training step *)

Lemma optimize_parameters_state self t vL vseg vcat vH wg step b :
  fed self t vL vseg vcat vH wg →
  update_G t step = Ok b →
  ∃ tr,
    optimize_parameters self step =
      (tr,
       Ok (set_fake_H
             (set_train self
                (set_log t (random_pt_after t wg vH)
                   (D_log t wg (fake_of vL vseg) vcat vH
                      (if b then G_log t (fake_of vL vseg) vH (log_dict t)
                       else log_dict t))))
             (fake_of vL vseg))).
Proof.
  intros [Ht [d Hd] HL Hseg Hcat HH Hpix Hfea _ Hgan Hgp] Hb.
  destruct self as [o it ug sd gt nd tr L sg ct H fk]; cbn in *; subst.
  unfold optimize_parameters, random_pt_after, D_log, G_log, gp_term, pix_term,
    fea_term, gan_term.
  cbn. rewrite Hb, Hgan.
  destruct t as [cp pw cf fw nf cg gw ur ii rpt cgp gpw o1 o2 o3 os ss lg];
    cbn in *.
  assert (Hp : cp = None ∨ ∃ k w, cp = Some k ∧ pw = Some w).
  { destruct cp; [right|by left]. destruct Hpix as [w ->]; eauto. }
  assert (Hf : cf = None ∨ ∃ k w, cf = Some k ∧ fw = Some w ∧ nf = true).
  { destruct cf; [right|by left]. destruct Hfea as [[w ->] ->]; eauto 6. }
  assert (Hg : wg = false ∨ ∃ n w, wg = true ∧ rpt = Some n ∧ cgp = true ∧ gpw = Some w).
  { destruct wg; [right|by left]. destruct Hgp as ([n ->] & -> & [w ->]); eauto 8. }
  clear Hpix Hfea Hgp.
  destruct Hp as [->|(kp & wp & -> & ->)];
    destruct Hf as [->|(kf & wf & -> & -> & ->)];
    destruct Hg as [->|(n & wgp & -> & -> & -> & ->)];
    destruct b; destruct (20000 <? step); cbn;
    try destruct (n =? size0 (var_data vH))%N; cbn;
    (eexists; reflexivity).
Qed.

Lemma od_get_set_eq {V} k (v : V) d : od_get k (od_set k v d) = Some v.
Proof.
  induction d as [|[k' v'] d IH]; cbn.
  - by rewrite String.eqb_refl.
  - destruct (String.eqb k' k) eqn:E; cbn.
    + by rewrite String.eqb_refl.
    + by rewrite E.
Qed.

Lemma od_get_set_ne {V} k k' (v : V) d :
  k ≠ k' → od_get k' (od_set k v d) = od_get k' d.
Proof.
  intros Hne. induction d as [|[k0 v0] d IH]; cbn.
  - by apply String.eqb_neq in Hne as ->.
  - destruct (String.eqb k0 k) eqn:E; cbn.
    + apply String.eqb_eq in E as ->.
      by apply String.eqb_neq in Hne as ->.
    + by rewrite IH.
Qed.

Ltac od_get :=
  repeat first
    [ rewrite od_get_set_eq
    | rewrite od_get_set_ne by (first [discriminate | congruence]) ].

(** X1: the log after a step.  The six entries of the discriminator are
    those of this step; [l_d_gp] is set exactly under [wgan-gp]; the
    entries of the generator are set on a step that updates it and are left
    as they were (stale) on any other step; the generator's classification
    loss is never logged, and no other key is written. *)
Theorem log_after_step self t vL vseg vcat vH wgan_gp step b :
  fed self t vL vseg vcat vH wgan_gp →
  update_G t step = Ok b →
  ∃ tr self' log,
    optimize_parameters self step = (tr, Ok self') ∧
    get_current_log self' = ([], Ok log) ∧
    od_get "l_d_real" log
      = Some (Data0 (Cri CriGan [Item 0 (Net NetD (Var vH)); Lit (VBool true)])) ∧
    od_get "l_d_fake" log
      = Some (Data0 (Cri CriGan [Item 0 (Net NetD (Detach (fake_of vL vseg)));
                                 Lit (VBool false)])) ∧
    od_get "l_d_cls_real" log
      = Some (Data0 (Cri CriCe [Item 1 (Net NetD (Var vH)); Var vcat])) ∧
    od_get "l_d_cls_fake" log
      = Some (Data0 (Cri CriCe [Item 1 (Net NetD (Detach (fake_of vL vseg)));
                                Var vcat])) ∧
    od_get "D_real" log = Some (MeanData (Item 0 (Net NetD (Var vH)))) ∧
    od_get "D_fake" log
      = Some (MeanData (Item 0 (Net NetD (Detach (fake_of vL vseg))))) ∧
    od_get "l_d_gp" log
      = log_entry (od_get "l_d_gp" (log_dict t))
          (gp_term t wgan_gp (fake_of vL vseg) vH) ∧
    od_get "l_g_gan" log
      = log_entry (od_get "l_g_gan" (log_dict t))
          (if b then Some (gan_term t (fake_of vL vseg)) else None) ∧
    od_get "l_g_pix" log
      = log_entry (od_get "l_g_pix" (log_dict t))
          (if b then pix_term t (fake_of vL vseg) vH else None) ∧
    od_get "l_g_fea" log
      = log_entry (od_get "l_g_fea" (log_dict t))
          (if b then fea_term t (fake_of vL vseg) vH else None) ∧
    od_get "l_g_cls" log = od_get "l_g_cls" (log_dict t) ∧
    ∀ k, k ∉ log_keys → od_get k log = od_get k (log_dict t).
Proof.
  intros F Hu.
  destruct (optimize_parameters_state _ _ _ _ _ _ _ _ _ F Hu) as (tr & Hrun).
  do 3 eexists. split; [exact Hrun|]. split; [reflexivity|].
  unfold D_log, G_log, log_entry. cbn [log_dict set_log]. clear Hrun.
  do 11 (split;
    [destruct (gp_term t wgan_gp (fake_of vL vseg) vH),
       (pix_term t (fake_of vL vseg) vH), (fea_term t (fake_of vL vseg) vH), b;
     by od_get|]).
  intros k Hk. unfold log_keys in Hk. rewrite !not_elem_of_cons in Hk.
  destruct Hk as (? & ? & ? & ? & ? & ? & ? & ? & ? & ? & _).
  destruct (gp_term t wgan_gp (fake_of vL vseg) vH),
    (pix_term t (fake_of vL vseg) vH), (fea_term t (fake_of vL vseg) vH), b;
    repeat (rewrite od_get_set_ne by (apply not_eq_sym; assumption));
    reflexivity.
Qed.

Lemma log_after_step_witness :
  ∃ tr self' log,
    optimize_parameters Example.self 4 = (tr, Ok self') ∧
    get_current_log self' = ([], Ok log) ∧
    od_get "l_g_pix" log
      = Some (Data0 (Mul (Lit (VInt 1))
                       (Cri CriPix [Net NetG (Tuple [Var Example.vL; Var Example.vseg]);
                                    Var Example.vH]))) ∧
    od_get "l_g_fea" log = None ∧
    od_get "l_g_cls" log = None.
Proof.
  destruct (log_after_step Example.self Example.t Example.vL Example.vseg
              Example.vcat Example.vH true 4 true example_self_fed eq_refl)
    as (tr & self' & log & Hrun & Hlog & _ & _ & _ & _ & _ & _ & _ & _ & Hpix
        & Hfea & Hcls & _).
  exists tr, self', log.
  split; [exact Hrun|]. split; [exact Hlog|]. split; [exact Hpix|].
  split; [exact Hfea | exact Hcls].
Defined.

Lemma fed_set_log self t vL vseg vcat vH wg rp log f :
  fed self t vL vseg vcat vH wg →
  (wg = true → is_Some rp) →
  fed (set_fake_H (set_train self (set_log t rp log)) f) (set_log t rp log)
      vL vseg vcat vH wg.
Proof.
  intros [Ht Hd HL Hseg Hcat HH Hpix Hfea Hr Hgan Hgp] Hrp.
  constructor; cbn; try done.
  intros Hwg. destruct (Hgp Hwg) as (_ & ? & ?). auto.
Qed.

Lemma count_resize_step (t : trainer) (wg : bool) (vL vseg vcat vH : variable)
    (b : bool) (step : Z) :
  count is_resize
    (G_head_trace vL vseg
       ++ (if b then G_update_trace t (fake_of vL vseg) vcat vH else [])
       ++ (if 20000 <? step then [EStep Optimizer_G_other] else [])
       ++ D_update_trace t wg (fake_of vL vseg) vcat vH)
  = (if wg && negb (default 0%N (random_pt t) =? size0 (var_data vH))%N
     then 1 else 0)%nat.
Proof.
  rewrite !count_app.
  replace (count is_resize (G_head_trace vL vseg)) with 0%nat by reflexivity.
  replace (count is_resize
             (if b then G_update_trace t (fake_of vL vseg) vcat vH else []))
    with 0%nat
    by (unfold G_update_trace; destruct b, (cri_pix t), (cri_fea t); reflexivity).
  replace (count is_resize (if 20000 <? step then [EStep Optimizer_G_other] else []))
    with 0%nat by (by destruct (20000 <? step)).
  unfold D_update_trace, gp_trace.
  destruct wg; [destruct (_ =? _)%N|]; reflexivity.
Qed.

(** X2: the gradient penalty resizes [random_pt] to the batch only when its
    size differs, and leaves it at the size of the batch: a step resizes it
    at most once, and the next step on the same batch does not resize it.
    Without [wgan-gp] it is never resized. *)
Theorem random_pt_resized_to_batch
    self t vL vseg vcat vH wgan_gp step b step' b' :
  fed self t vL vseg vcat vH wgan_gp →
  update_G t step = Ok b →
  update_G t step' = Ok b' →
  ∃ tr self' t' tr' self'',
    optimize_parameters self step = (tr, Ok self') ∧
    train self' = Some t' ∧
    random_pt t'
      = (if wgan_gp then Some (size0 (var_data vH)) else random_pt t) ∧
    count is_resize tr
      = (if wgan_gp && negb (bool_decide (random_pt t = Some (size0 (var_data vH))))
         then 1 else 0)%nat ∧
    optimize_parameters self' step' = (tr', Ok self'') ∧
    count is_resize tr' = 0%nat.
Proof.
  intros F Hu Hu'.
  destruct (optimize_parameters_state _ _ _ _ _ _ _ _ _ F Hu) as (tr & Hrun).
  destruct (optimize_parameters_run _ _ _ _ _ _ _ _ _ F Hu) as (rp & log & Hrun' & _).
  assert (Hrp : wgan_gp = true → is_Some (random_pt_after t wgan_gp vH))
    by (intros ->; cbn; eauto).
  pose proof (fed_set_log _ _ _ _ _ _ _ _
                (D_log t wgan_gp (fake_of vL vseg) vcat vH
                   (if b then G_log t (fake_of vL vseg) vH (log_dict t)
                    else log_dict t))
                (fake_of vL vseg) F Hrp) as F'.
  destruct (optimize_parameters_run _ _ _ _ _ _ _ step' b' F' Hu')
    as (rp2 & log2 & Hrun2 & _).
  do 5 eexists. split; [exact Hrun|]. split; [reflexivity|].
  split; [reflexivity|]. split; [|split; [exact Hrun2|]].
  - rewrite Hrun in Hrun'. apply (f_equal fst) in Hrun'. cbn [fst] in Hrun'.
    subst tr.
    rewrite count_resize_step.
    destruct wgan_gp; [|done]. cbn.
    destruct (fed_gp _ _ _ _ _ _ _ F eq_refl) as ([n Hn] & _). rewrite Hn. cbn.
    destruct (N.eqb_spec n (size0 (var_data vH))) as [->|Hne].
    + by rewrite bool_decide_eq_true_2.
    + rewrite bool_decide_eq_false_2; [done | congruence].
  - rewrite count_resize_step. cbn [random_pt set_log].
    unfold random_pt_after. destruct wgan_gp; [|done]. cbn.
    by rewrite N.eqb_refl.
Qed.

Lemma random_pt_resized_to_batch_witness :
  ∃ tr self' tr' self'',
    optimize_parameters Example.self 4 = (tr, Ok self') ∧
    count is_resize tr = 1%nat ∧
    optimize_parameters self' 5 = (tr', Ok self'') ∧
    count is_resize tr' = 0%nat.
Proof.
  destruct (random_pt_resized_to_batch Example.self Example.t Example.vL
              Example.vseg Example.vcat Example.vH true 4 true 5 false
              example_self_fed eq_refl eq_refl)
    as (tr & self' & t' & tr' & self'' & Hrun & _ & _ & Hc & Hrun' & Hc').
  exists tr, self', tr', self''.
  split; [exact Hrun|]. split; [exact Hc|]. split; [exact Hrun' | exact Hc'].
Defined.

Lemma step_no_network_setup (t : trainer) (wg : bool) (vL vseg vcat vH : variable)
    (b : bool) (step : Z) :
  omap network_setup
    (G_head_trace vL vseg
       ++ (if b then G_update_trace t (fake_of vL vseg) vcat vH else [])
       ++ (if 20000 <? step then [EStep Optimizer_G_other] else [])
       ++ D_update_trace t wg (fake_of vL vseg) vcat vH)
  = [].
Proof.
  rewrite !omap_app.
  replace (omap network_setup (G_head_trace vL vseg)) with (@nil event)
    by reflexivity.
  replace (omap network_setup
             (if b then G_update_trace t (fake_of vL vseg) vcat vH else []))
    with (@nil event)
    by (unfold G_update_trace; destruct b, (cri_pix t), (cri_fea t); reflexivity).
  replace (omap network_setup
             (if 20000 <? step then [EStep Optimizer_G_other] else []))
    with (@nil event) by (by destruct (20000 <? step)).
  unfold D_update_trace, gp_trace.
  destruct wg; [destruct (_ =? _)%N|]; reflexivity.
Qed.

(** X3: a step can be followed by the next.  It assigns [fake_H]; it calls
    [train()] or [eval()] on no network and defines or loads none, so the
    networks keep the mode they had; the options, the flags, the variables of
    the batch, the weights of the losses and the two values of the schedule
    hold what they held; the object is still one that a step runs on, and
    the decision to update the generator at a given step is the same.  Of the
    state inside the optimizers, the criteria and the networks, which the
    steps of the optimizers change, nothing is said. *)
Theorem optimize_parameters_frame self t vL vseg vcat vH wgan_gp step b :
  fed self t vL vseg vcat vH wgan_gp →
  update_G t step = Ok b →
  ∃ tr self' t',
    optimize_parameters self step = (tr, Ok self') ∧
    train self' = Some t' ∧
    fed self' t' vL vseg vcat vH wgan_gp ∧
    fake_H self' = Some (Net NetG (Tuple [Var vL; Var vseg])) ∧
    omap network_setup tr = [] ∧
    (netG_training self', netD self') = (netG_training self, netD self) ∧
    (opt self', is_train self', use_gpu self', save_dir self')
      = (opt self, is_train self, use_gpu self, save_dir self) ∧
    (var_L self', var_seg self', var_cat self', var_H self')
      = (var_L self, var_seg self, var_cat self, var_H self) ∧
    (l_pix_w t', l_fea_w t', l_gan_w t', l_gp_w t')
      = (l_pix_w t, l_fea_w t, l_gan_w t, l_gp_w t) ∧
    (D_update_ratio t', D_init_iters t') = (D_update_ratio t, D_init_iters t) ∧
    ∀ step', update_G t' step' = update_G t step'.
Proof.
  intros F Hu.
  destruct (optimize_parameters_state _ _ _ _ _ _ _ _ _ F Hu) as (tr & Hrun).
  destruct (optimize_parameters_run _ _ _ _ _ _ _ _ _ F Hu)
    as (rp & log & Hrun' & _).
  do 3 eexists. split; [exact Hrun|]. split; [reflexivity|].
  split; [|split; [done|split; [|done]]].
  - apply fed_set_log; [done|]. intros ->. cbn. eauto.
  - rewrite Hrun in Hrun'. apply (f_equal fst) in Hrun'. cbn [fst] in Hrun'.
    subst tr. apply step_no_network_setup.
Qed.

Lemma optimize_parameters_frame_witness :
  ∃ tr self' t',
    optimize_parameters Example.self 4 = (tr, Ok self') ∧
    train self' = Some t' ∧
    fed self' t' Example.vL Example.vseg Example.vcat Example.vH true ∧
    omap network_setup tr = [] ∧
    (netG_training self', netD self') = (true, Some true) ∧
    ∀ step', update_G t' step' = update_G Example.t step'.
Proof.
  destruct (optimize_parameters_frame Example.self Example.t Example.vL
              Example.vseg Example.vcat Example.vH true 4 true
              example_self_fed eq_refl)
    as (tr & self' & t' & Hrun & Ht & F & _ & Hn & Hm & _ & _ & _ & _ & Hu).
  exists tr, self', t'.
  split; [exact Hrun|]. split; [exact Ht|]. split; [exact F|].
  split; [exact Hn|]. split; [exact Hm | exact Hu].
Defined.

(** ** Methods called out of order *)

(** X4: on an object that [__init__] built and [feed_data] has not fed, a
    training step raises [AttributeError] before any forward pass: in
    training mode after the two [zero_grad] of the generator's optimizers,
    at [self.var_L]; outside it at once, at [self.optimizer_G_SFT].  [test]
    raises at [self.var_L] after [netG.eval()], so the generator is left in
    evaluation mode, and [get_current_visuals] raises at once. *)
Theorem methods_before_feed_data env o tr0 self :
  __init__ env o = (tr0, Ok self) →
  (∀ step,
     optimize_parameters self step =
       if env_is_train env
       then ([EZeroGrad Optimizer_G_SFT; EZeroGrad Optimizer_G_other],
             Raise (AttributeError "var_L"))
       else ([], Raise (AttributeError "optimizer_G_SFT")))
  ∧ test self = ([EEval NetG], Raise (AttributeError "var_L"))
  ∧ (∀ need_HR,
       get_current_visuals self need_HR = ([], Raise (AttributeError "var_L")))
  ∧ get_current_log self =
      if env_is_train env then ([], Ok []) else ([], Raise (AttributeError "log_dict")).
Proof.
  intros Hinit.
  apply init_inv in Hinit as [[_ _ _ _ _ _ (HL & _) Htr] _].
  unfold optimize_parameters, test, get_current_visuals, get_current_log.
  destruct (env_is_train env).
  - destruct Htr as (train_opt & t & _ & -> & Hspec). cbn.
    rewrite HL, (its_log _ _ _ Hspec). done.
  - rewrite Htr. cbn. rewrite HL. done.
Qed.

Lemma methods_before_feed_data_witness :
  (∀ step,
     optimize_parameters Example.self0 step =
       ([EZeroGrad Optimizer_G_SFT; EZeroGrad Optimizer_G_other],
        Raise (AttributeError "var_L")))
  ∧ test Example.self0 = ([EEval NetG], Raise (AttributeError "var_L"))
  ∧ (∀ need_HR,
       get_current_visuals Example.self0 need_HR
       = ([], Raise (AttributeError "var_L")))
  ∧ get_current_log Example.self0 = ([], Ok []).
Proof.
  exact (methods_before_feed_data Example.env Example.o Example.init_trace
           Example.self0 example_init_run).
Defined.

Lemma feed_data_inv_any self data volatile need_HR tr self' :
  feed_data self data volatile need_HR = (tr, Ok self') →
  ∃ tL tseg tcat,
    data !! "LR" = Some tL ∧ data !! "seg" = Some tseg ∧
    data !! "category" = Some tcat ∧
    (if need_HR then is_Some (data !! "HR") else True) ∧
    self' = set_vars self (MkVariable tL volatile) (MkVariable tseg volatile)
              (MkVariable tcat volatile)
              (if need_HR then (λ x, MkVariable x volatile) <$> data !! "HR"
               else var_H self) ∧
    tr = [].
Proof.
  unfold feed_data, batch_item. intros H.
  destruct (data !! "LR") as [tL|]; [|discriminate].
  destruct (data !! "seg") as [tseg|]; [|discriminate].
  destruct (data !! "category") as [tcat|]; [|discriminate].
  destruct need_HR.
  - destruct (data !! "HR") as [tH|]; [|discriminate].
    cbn in H. injection H as <- <-. exists tL, tseg, tcat. eauto 10.
  - cbn in H. injection H as <- <-. exists tL, tseg, tcat. eauto 10.
Qed.

(** X5: a training step on a batch fed with [need_HR=False] after
    [__init__] raises [AttributeError] at [self.var_H] before the
    discriminator is touched: no backward pass of the discriminator's loss
    and no step of [optimizer_D].  The generator is still updated when the
    step is a generator step and neither the pixel nor the feature criterion
    is configured, since only these and the discriminator part read the
    high-resolution image. *)
Theorem optimize_parameters_without_HR
    env o tr0 self0 data volatile tr1 self t step b :
  __init__ env o = (tr0, Ok self0) →
  env_is_train env = true →
  feed_data self0 data volatile false = (tr1, Ok self) →
  train self0 = Some t →
  update_G t step = Ok b →
  ∃ tr,
    optimize_parameters self step = (tr, Raise (AttributeError "var_H")) ∧
    count (is_step Optimizer_D) tr = 0%nat ∧
    count (is_zero_grad Optimizer_D) tr
      = (if negb b || G_without_HR t then 1%nat else 0%nat) ∧
    count (is_step Optimizer_G_SFT) tr = (if b && G_without_HR t then 1%nat else 0%nat) ∧
    count (is_step Optimizer_G_other) tr
      = (if (negb b || G_without_HR t) && (20000 <? step) then 1%nat else 0%nat) ∧
    length (omap backward tr) = (if b && G_without_HR t then 1%nat else 0%nat).
Proof.
  intros Hinit Et Hfeed Ht Hb. unfold G_without_HR.
  apply init_inv in Hinit as [[_ _ _ _ _ HD (_ & _ & _ & HH & _) Htr] _].
  rewrite Et in HD, Htr. destruct Htr as (train_opt & t' & _ & Ht' & Hspec).
  assert (t' = t) as -> by congruence.
  apply feed_data_inv_any in Hfeed as (tL & tseg & tcat & _ & _ & _ & _ & -> & _).
  destruct (its_pix _ _ _ Hspec) as (wp & bp & _ & _ & Hbp & Hwp).
  destruct (its_fea _ _ _ Hspec) as (wf & bf & _ & _ & Hbf & Hwf & HF).
  destruct self0 as [o' it ug sd gt nd tr' L sg ct H fk]; cbn in *; subst.
  destruct t as [cp pw cf fw nf cg gw ur ii rpt cgp gpw o1 o2 o3 os ss lg];
    cbn in *; subst.
  unfold optimize_parameters, optimize_G. cbn. rewrite Hb. cbn.
  destruct b, cp, cf, (20000 <? step); cbn; eexists; repeat split.
Qed.

Lemma optimize_parameters_without_HR_witness :
  ∃ tr,
    optimize_parameters
      (set_vars Example.self0 Example.vL Example.vseg Example.vcat None) 4
    = (tr, Raise (AttributeError "var_H")) ∧
    count (is_step Optimizer_D) tr = 0%nat ∧
    count (is_zero_grad Optimizer_D) tr = 0%nat ∧
    count (is_step Optimizer_G_SFT) tr = 0%nat ∧
    count (is_step Optimizer_G_other) tr = 0%nat ∧
    length (omap backward tr) = 0%nat.
Proof.
  refine (optimize_parameters_without_HR Example.env Example.o Example.init_trace
            Example.self0 Example.data false [] _ Example.t 4 true
            example_init_run eq_refl _ eq_refl eq_refl).
  vm_compute. reflexivity.
Defined.

Lemma py_int_mod_truthy z v m :
  truthy v = true → py_int_mod z v ≠ Raise (ZeroDivisionError m).
Proof.
  destruct v as [|[]|a|f| | |]; cbn; try done.
  - destruct (a =? 0); done.
  - unfold float_of_Z, float_rem.
    destruct (is_infinity _); [done|].
    destruct (f =? 0)%float; done.
Qed.

(** X6: the update ratio that [__init__] stores is truthy, a configured
    zero being replaced by 1, so that [step % self.D_update_ratio] never
    divides by zero. *)
Theorem update_ratio_never_zero env o tr self t :
  __init__ env o = (tr, Ok self) →
  train self = Some t →
  truthy (D_update_ratio t) = true ∧
  ∀ step m, update_G t step ≠ Raise (ZeroDivisionError m).
Proof.
  intros Hinit Ht.
  apply init_inv in Hinit as [[_ _ _ _ _ _ _ Htr] _].
  destruct (env_is_train env); [|congruence].
  destruct Htr as (train_opt & t' & _ & Ht' & Hspec).
  assert (t' = t) as -> by congruence.
  assert (Hr : truthy (D_update_ratio t) = true).
  { destruct (its_ratio _ _ _ Hspec) as (c & _ & ->).
    by destruct (truthy c) eqn:E. }
  split; [done|]. intros step m. unfold update_G.
  pose proof (py_int_mod_truthy step _ m Hr) as Hm.
  destruct (py_int_mod step (D_update_ratio t)) as [r|e]; [|congruence].
  destruct (py_eq_int r 0); [|done].
  unfold py_int_gt. by destruct (D_init_iters t) as [|[]| | | | |].
Qed.

Lemma update_ratio_never_zero_witness :
  truthy (D_update_ratio Example.t) = true ∧
  ∀ step m, update_G Example.t step ≠ Raise (ZeroDivisionError m).
Proof.
  exact (update_ratio_never_zero Example.env Example.o Example.init_trace
           Example.self0 Example.t example_init_run eq_refl).
Defined.

(** ** Feeding a batch *)

(** X7: [feed_data] calls nothing of the framework that is recorded and
    replaces the variables of the batch only: each is built from the entry of
    the batch with the given [volatile] flag; with [need_HR=False] the entry
    ['HR'] is not needed and [var_H] stays what it was, and [fake_H] is in
    both cases still the output for the batch before. *)
Theorem feed_data_sets_variables self data volatile need_HR tr self' :
  feed_data self data volatile need_HR = (tr, Ok self') →
  tr = [] ∧
  var_L self' = (λ x, MkVariable x volatile) <$> data !! "LR" ∧
  var_seg self' = (λ x, MkVariable x volatile) <$> data !! "seg" ∧
  var_cat self' = (λ x, MkVariable x volatile) <$> data !! "category" ∧
  var_H self' = (if need_HR then (λ x, MkVariable x volatile) <$> data !! "HR"
                 else var_H self) ∧
  is_Some (var_L self') ∧ is_Some (var_seg self') ∧ is_Some (var_cat self') ∧
  (need_HR = true → is_Some (var_H self')) ∧
  fake_H self' = fake_H self ∧ train self' = train self ∧
  (opt self', is_train self', use_gpu self', save_dir self')
    = (opt self, is_train self, use_gpu self, save_dir self) ∧
  (netG_training self', netD self') = (netG_training self, netD self).
Proof.
  intros H.
  apply feed_data_inv_any in H as (tL & tseg & tcat & HL & Hs & Hc & HH & -> & ->).
  cbn. rewrite HL, Hs, Hc. cbn. repeat split; eauto.
  intros ->. destruct HH as [tH ->]. cbn. eauto.
Qed.

Lemma feed_data_sets_variables_witness :
  [] = @nil event ∧
  var_L Example.self = (λ x, MkVariable x false) <$> Example.data !! "LR" ∧
  var_seg Example.self = (λ x, MkVariable x false) <$> Example.data !! "seg" ∧
  var_cat Example.self = (λ x, MkVariable x false) <$> Example.data !! "category" ∧
  var_H Example.self = (λ x, MkVariable x false) <$> Example.data !! "HR" ∧
  is_Some (var_L Example.self) ∧ is_Some (var_seg Example.self) ∧
  is_Some (var_cat Example.self) ∧
  (true = true → is_Some (var_H Example.self)) ∧
  fake_H Example.self = fake_H Example.self0 ∧
  train Example.self = train Example.self0 ∧
  (opt Example.self, is_train Example.self, use_gpu Example.self,
   save_dir Example.self)
    = (opt Example.self0, is_train Example.self0, use_gpu Example.self0,
       save_dir Example.self0) ∧
  (netG_training Example.self, netD Example.self)
    = (netG_training Example.self0, netD Example.self0).
Proof.
  exact (feed_data_sets_variables Example.self0 Example.data false true []
           Example.self example_feed_run).
Defined.

(** X8: [feed_data] fails exactly when the batch lacks one of the entries
    it reads, ['LR'], ['seg'], ['category'] and, with [need_HR], ['HR'];
    the exception is the [KeyError] of the first of them that is absent. *)
Theorem feed_data_missing_key (self : model) (data : gmap string tensor)
    (volatile need_HR : bool) :
  match list_find (λ k, data !! k = None)
          (["LR"; "seg"; "category"] ++ (if need_HR then ["HR"] else [])) with
  | Some (_, k) => feed_data self data volatile need_HR = ([], Raise (KeyError k))
  | None => ∃ self', feed_data self data volatile need_HR = ([], Ok self')
  end.
Proof.
  unfold feed_data, batch_item. cbn [app list_find].
  destruct (data !! "LR") eqn:EL;
    [rewrite decide_False by done | by rewrite decide_True by done].
  destruct (data !! "seg") eqn:Es;
    [rewrite decide_False by done | by rewrite decide_True by done].
  destruct (data !! "category") eqn:Ec;
    [rewrite decide_False by done | by rewrite decide_True by done].
  destruct need_HR; cbn; [|eauto].
  destruct (data !! "HR") eqn:EH;
    [rewrite decide_False by done | by rewrite decide_True by done].
  cbn. eauto.
Qed.

(** ** The inference path *)

(** X9: [__init__], [feed_data] with [need_HR=False], [test]: the visuals
    without the high-resolution image are [LR] and [SR], in this order, the
    low-resolution input and the output of the generator on it and the
    segmentation map; asking for the high-resolution image, the default of
    [get_current_visuals], raises [AttributeError]; so does asking for the
    visuals before [test]. *)
Theorem inference_visuals env o tr0 self0 data volatile tr1 self1 :
  __init__ env o = (tr0, Ok self0) →
  feed_data self0 data volatile false = (tr1, Ok self1) →
  ∃ vL vseg self2,
    var_L self1 = Some vL ∧ var_seg self1 = Some vseg ∧
    test self1
      = ([EEval NetG; EForward NetG (Tuple [Var vL; Var vseg]); ETrain NetG],
         Ok self2) ∧
    get_current_visuals self2 false
      = ([], Ok [("LR", FloatCpu (Data0 (Var vL)));
                 ("SR", FloatCpu (Data0 (Net NetG (Tuple [Var vL; Var vseg]))))]) ∧
    get_current_visuals self2 true = ([], Raise (AttributeError "var_H")) ∧
    ∀ need_HR,
      get_current_visuals self1 need_HR = ([], Raise (AttributeError "fake_H")).
Proof.
  intros Hinit Hfeed.
  apply init_inv in Hinit as [[_ _ _ _ _ _ (_ & _ & _ & HH & Hf) _] _].
  apply feed_data_inv_any in Hfeed as (tL & tseg & tcat & _ & _ & _ & _ & -> & _).
  do 3 eexists. split; [reflexivity|]. split; [reflexivity|].
  split; [by apply test_run|].
  unfold get_current_visuals. cbn. rewrite HH, Hf. done.
Qed.

Lemma inference_visuals_witness :
  ∃ vL vseg self2,
    var_L (set_vars Example.self0 Example.vL Example.vseg Example.vcat None)
      = Some vL ∧
    var_seg (set_vars Example.self0 Example.vL Example.vseg Example.vcat None)
      = Some vseg ∧
    test (set_vars Example.self0 Example.vL Example.vseg Example.vcat None)
      = ([EEval NetG; EForward NetG (Tuple [Var vL; Var vseg]); ETrain NetG],
         Ok self2) ∧
    get_current_visuals self2 false
      = ([], Ok [("LR", FloatCpu (Data0 (Var vL)));
                 ("SR", FloatCpu (Data0 (Net NetG (Tuple [Var vL; Var vseg]))))]) ∧
    get_current_visuals self2 true = ([], Raise (AttributeError "var_H")) ∧
    ∀ need_HR,
      get_current_visuals
        (set_vars Example.self0 Example.vL Example.vseg Example.vcat None) need_HR
      = ([], Raise (AttributeError "fake_H")).
Proof.
  refine (inference_visuals Example.env Example.o Example.init_trace Example.self0
            Example.data false [] _ example_init_run _).
  vm_compute. reflexivity.
Defined.

(** X10: after a training step on a fed object the visuals are there with
    the high-resolution image: [LR], [SR], [HR] in this order, [SR] being the
    output of the generator in the step. *)
Theorem visuals_after_step self t vL vseg vcat vH wgan_gp step b :
  fed self t vL vseg vcat vH wgan_gp →
  update_G t step = Ok b →
  ∃ tr self',
    optimize_parameters self step = (tr, Ok self') ∧
    get_current_visuals self' true
      = ([], Ok [("LR", FloatCpu (Data0 (Var vL)));
                 ("SR", FloatCpu (Data0 (Net NetG (Tuple [Var vL; Var vseg]))));
                 ("HR", FloatCpu (Data0 (Var vH)))]) ∧
    get_current_visuals self' false
      = ([], Ok [("LR", FloatCpu (Data0 (Var vL)));
                 ("SR", FloatCpu (Data0 (Net NetG (Tuple [Var vL; Var vseg]))))]).
Proof.
  intros F Hu.
  destruct (optimize_parameters_state _ _ _ _ _ _ _ _ _ F Hu) as (tr & Hrun).
  do 2 eexists. split; [exact Hrun|].
  destruct F as [_ _ HL _ _ HH _ _ _ _ _].
  unfold get_current_visuals. cbn. rewrite HL, HH. done.
Qed.

Lemma visuals_after_step_witness :
  ∃ tr self',
    optimize_parameters Example.self 4 = (tr, Ok self') ∧
    get_current_visuals self' true
      = ([], Ok [("LR", FloatCpu (Data0 (Var Example.vL)));
                 ("SR", FloatCpu (Data0 (Net NetG
                                           (Tuple [Var Example.vL; Var Example.vseg]))));
                 ("HR", FloatCpu (Data0 (Var Example.vH)))]) ∧
    get_current_visuals self' false
      = ([], Ok [("LR", FloatCpu (Data0 (Var Example.vL)));
                 ("SR", FloatCpu (Data0 (Net NetG
                                           (Tuple [Var Example.vL; Var Example.vseg]))))]).
Proof.
  exact (visuals_after_step Example.self Example.t Example.vL Example.vseg
           Example.vcat Example.vH true 4 true example_self_fed eq_refl).
Defined.

(** ** Checkpoints *)

(** X11: on the object that [__init__] built, [save] writes in training
    mode two checkpoints to the directory of the experiment, the generator's
    under the label ['G'] and the discriminator's under ['D'], with the
    iteration label it was given; outside training mode it writes the
    generator's and raises [AttributeError] at [self.netD]. *)
Theorem save_after_init env o tr0 self iter_label :
  __init__ env o = (tr0, Ok self) →
  save self iter_label =
    if env_is_train env
    then ([ESaveNetwork (env_save_dir env) NetG "G" iter_label;
           ESaveNetwork (env_save_dir env) NetD "D" iter_label], Ok tt)
    else ([ESaveNetwork (env_save_dir env) NetG "G" iter_label],
          Raise (AttributeError "netD")).
Proof.
  intros Hinit.
  apply init_inv in Hinit as [[_ _ _ Hd _ HD _ _] _].
  unfold save. rewrite Hd, HD. by destruct (env_is_train env).
Qed.

Lemma save_after_init_witness :
  save Example.self0 (VInt 5000) =
    ([ESaveNetwork "exp/models" NetG "G" (VInt 5000);
      ESaveNetwork "exp/models" NetD "D" (VInt 5000)], Ok tt).
Proof.
  exact (save_after_init Example.env Example.o Example.init_trace Example.self0
           (VInt 5000) example_init_run).
Defined.

(** ** The calls of [__init__] *)

Lemma load_inv self tr u :
  load self = (tr, Ok u) →
  ∃ path pG pD it,
    subscript (opt self) "path" = Ok path ∧
    subscript path "pretrain_model_G" = Ok pG ∧
    subscript path "pretrain_model_D" = Ok pD ∧
    subscript (opt self) "is_train" = Ok it ∧
    tr = load_trace pG pD it ∧
    (truthy it && negb (is_None pD) = true → is_Some (netD self)).
Proof.
  unfold load, load_trace. intros H.
  bind_inv H as path Hp. bind_inv H as pG HG.
  bind_inv H as u1 H1. bind_inv H as path' Hp'.
  assert (path' = path) as -> by congruence.
  bind_inv H as pD HD. bind_inv H as it Hit.
  exists path, pG, pD, it. do 4 (split; [done|]).
  cbn [app].
  destruct (is_None pG); cbn in H1; injection H1 as <-;
    destruct (truthy it && negb (is_None pD)); cbn in H;
    try (injection H as <-; split; [done|]; done).
  all: destruct (netD self); cbn in H; [|discriminate].
  all: injection H as <-; split; [done|]; eauto.
Qed.

Lemma init_optimizers_G_pure env train_opt wd tr r :
  init_optimizers_G env train_opt wd = (tr, r) → tr = [].
Proof.
  unfold init_optimizers_G.
  destruct (partition_params (G_named_parameters env)) as [sft other].
  destruct (subscript train_opt "lr_G") as [lr|]; cbn; [|by intros [= <-]].
  destruct (py_mul_int lr 5); cbn; [|by intros [= <-]].
  destruct (subscript train_opt "beta1_G"); cbn; by intros [= <-].
Qed.

Lemma get_or_pure train_opt key d tr r :
  get_or train_opt key d = (tr, r) → tr = [].
Proof.
  unfold get_or.
  destruct (subscript train_opt key) as [c|]; cbn; [|by intros [= <-]].
  destruct (truthy c); cbn; by intros [= <-].
Qed.

Lemma init_optimizer_D_pure env train_opt tr r :
  init_optimizer_D env train_opt = (tr, r) → tr = [].
Proof.
  unfold init_optimizer_D.
  destruct (get_or train_opt "weight_decay_D" (VInt 0)) as [t1 [c|]] eqn:E;
    apply get_or_pure in E as ->; cbn; [|by intros [= <-]].
  destruct (subscript train_opt "lr_D"); cbn; [|by intros [= <-]].
  destruct (subscript train_opt "beta1_D"); cbn; by intros [= <-].
Qed.

Lemma init_schedulers_pure train_opt tr r :
  init_schedulers train_opt [Optimizer_G_SFT; Optimizer_G_other; Optimizer_D]
    = (tr, r) → tr = [].
Proof.
  unfold init_schedulers.
  destruct (subscript train_opt "lr_scheme") as [s|]; cbn; [|by intros [= <-]].
  destruct (py_eq_str s "MultiStepLR"); cbn; [|by intros [= <-]].
  destruct (subscript train_opt "lr_steps"); cbn; [|by intros [= <-]].
  destruct (subscript train_opt "lr_gamma"); cbn; by intros [= <-].
Qed.

Tactic Notation "bind_tr" hyp(H) "as" simple_intropattern(a) ident(H1) ident(t1) :=
  let t2 := fresh "tr" in
  apply bind_Ok_inv in H as (t1 & a & t2 & H1 & H & ->);
  cbn beta in H.

Lemma init_train_run env train_opt tr t :
  init_train env train_opt = (tr, Ok t) → tr = init_train_trace (env_use_gpu env) t.
Proof.
  unfold init_train, init_train_trace. intros H.
  bind_tr H as pix Hpix tp.
  apply init_loss_inv in Hpix as (pw & bp & Hpw & Hbp & Hpix).
  bind_tr H as fea Hfea tf.
  apply init_loss_inv in Hfea as (fw & bf & Hfw & Hbf & Hfea).
  bind_tr H as u1 HF tF.
  bind_inv H as g Hg. bind_inv H as gw Hgw.
  bind_tr H as ur Hur t1. apply get_or_pure in Hur as ->.
  bind_tr H as ii Hii t2. apply get_or_pure in Hii as ->.
  bind_inv H as g' Hg'. assert (g' = g) as -> by congruence.
  bind_tr H as gp Hgp tgp.
  bind_tr H as u2 Hcuda tc.
  bind_tr H as wd Hwd t3. apply get_or_pure in Hwd as ->.
  bind_tr H as og Hog t4. apply init_optimizers_G_pure in Hog as ->.
  bind_tr H as od Hod t5. apply init_optimizer_D_pure in Hod as ->.
  bind_tr H as ss Hss t6. apply init_schedulers_pure in Hss as ->.
  apply ret_Ok_inv in H as [<- ->]. cbn [cri_pix cri_fea cri_gp].
  assert (tgp = [] ∧ gp.1.2 = py_eq_str g "wgan-gp") as [-> Egp].
  { destruct (py_eq_str g "wgan-gp").
    - bind_inv Hgp as w Hw. by apply ret_Ok_inv in Hgp as [<- ->].
    - by apply ret_Ok_inv in Hgp as [<- ->]. }
  rewrite Egp. rewrite !app_nil_r. cbn [app].
  assert (tp = if not_None pix.1 then [] else [EPrint "Remove pixel loss." []])
    as ->.
  { destruct bp; [destruct Hpix as (? & ? & _ & _ & -> & ->)
                 | destruct Hpix as [-> ->]]; done. }
  assert (tf = if not_None fea.1 then [] else [EPrint "Remove feature loss." []])
    as ->.
  { destruct bf; [destruct Hfea as (? & ? & _ & _ & -> & ->)
                 | destruct Hfea as [-> ->]]; done. }
  destruct (not_None pix.1), (not_None fea.1); cbn in HF; injection HF as <-;
    destruct (env_use_gpu env); cbn in Hcuda;
    try (injection Hcuda as <-; done);
    rewrite Hg in Hcuda; cbn in Hcuda;
    destruct (py_eq_str g "wgan-gp"); cbn in Hcuda; injection Hcuda as <-; done.
Qed.

Lemma print_network_observed env self tr u :
  print_network env self = (tr, Ok u) →
  omap cuda tr = [] ∧ omap network_setup tr = [].
Proof.
  unfold print_network.
  destruct (get_network_description env NetG) as [sG nG].
  destruct (get_network_description env NetD) as [sD nD].
  destruct (get_network_description env NetF) as [sF nF].
  destruct (is_train self), (netD self), (train self) as [t|]; cbn;
    try (intros H; first [discriminate | by injection H as <-]).
  destruct (cri_fea t), (netF t); cbn;
    intros H; first [discriminate | by injection H as <-].
Qed.

(** The whole trace of [__init__]. *)
Lemma init_run env o tr self :
  __init__ env o = (tr, Ok self) →
  ∃ path pG pD it tr_train tr_print,
    subscript o "path" = Ok path ∧
    subscript path "pretrain_model_G" = Ok pG ∧
    subscript path "pretrain_model_D" = Ok pD ∧
    subscript o "is_train" = Ok it ∧
    (truthy it && negb (is_None pD) = true → env_is_train env = true) ∧
    tr_train = match train self with
               | Some t => init_train_trace (env_use_gpu env) t
               | None => []
               end ∧
    print_network env self = (tr_print, Ok tt) ∧
    tr = EDefine NetG
           :: (if env_is_train env then [EDefine NetD; ETrain NetG; ETrain NetD]
               else [])
           ++ load_trace pG pD it
           ++ tr_train
           ++ EPrint "---------- Model initialized ------------------" []
           :: tr_print
           ++ [EPrint "-----------------------------------------------" []].
Proof.
  unfold __init__. intros H.
  bind_inv H as train_opt Hto.
  bind_inv H as u1 H1. apply emit_Ok_inv in H1 as ->.
  bind_inv H as u2 H2.
  bind_inv H as u3 H3.
  apply load_inv in H3 as (path & pG & pD & it & Hp & HG & HD & Hit & -> & HnD).
  cbn [opt netD] in *.
  bind_inv H as self1 H4. cbn [is_train] in H4.
  bind_inv H as u5 H5. apply emit_Ok_inv in H5 as ->.
  bind_inv H as u6 H6. destruct u6.
  bind_inv H as u7 H7. apply emit_Ok_inv in H7 as ->.
  apply ret_Ok_inv in H as [<- ->].
  exists path, pG, pD, it. do 2 eexists. do 4 (split; [done|]).
  split.
  { intros E. destruct (HnD E) as [d Hd]. by destruct (env_is_train env). }
  split; [reflexivity|]. split; [exact H6|].
  destruct (env_is_train env) eqn:Et.
  - cbn in H2. injection H2 as <-.
    bind_inv H4 as t Ht. apply init_train_run in Ht as ->.
    apply ret_Ok_inv in H4 as [<- ->]. cbn. rewrite !app_nil_r. done.
  - cbn in H2. injection H2 as <-.
    apply ret_Ok_inv in H4 as [<- ->]. cbn. done.
Qed.

Lemma omap_cons_eq {A B} (f : A → option B) x l :
  omap f (x :: l) = match f x with Some y => y :: omap f l | None => omap f l end.
Proof. reflexivity. Qed.

Lemma omap_load_trace_cuda pG pD it : omap cuda (load_trace pG pD it) = [].
Proof.
  unfold load_trace. by destruct (is_None pG), (truthy it && negb (is_None pD)).
Qed.

(** X12: [__init__] moves to the GPU the criteria it has built, and only
    when the GPU is used: the pixel and the feature criterion when they are
    configured, the adversarial and the classification criterion, and the
    gradient penalty under [wgan-gp], in this order; outside training mode
    there is no criterion to move. *)
Theorem init_cuda env o tr self :
  __init__ env o = (tr, Ok self) →
  omap cuda tr =
    match train self with
    | Some t =>
        if env_use_gpu env
        then (if not_None (cri_pix t) then [CriPix] else [])
             ++ (if not_None (cri_fea t) then [CriFea] else [])
             ++ [CriGan; CriCe]
             ++ (if cri_gp t then [CriGp] else [])
        else []
    | None => []
    end
  ∧ (is_Some (train self) ↔ env_is_train env = true).
Proof.
  intros Hinit. pose proof (init_inv _ _ _ _ Hinit) as [[_ _ _ _ _ _ _ Htr] _].
  apply init_run in Hinit
    as (path & pG & pD & it & tr_train & tr_print & _ & _ & _ & _ & _ & -> & Hpr & ->).
  apply print_network_observed in Hpr as [Hpr _].
  split.
  - rewrite omap_cons_eq, !omap_app, omap_load_trace_cuda, omap_cons_eq, omap_app, Hpr.
    cbn [cuda omap app].
    replace (omap cuda (if env_is_train env
                        then [EDefine NetD; ETrain NetG; ETrain NetD] else []))
      with (@nil criterion) by (by destruct (env_is_train env)).
    cbn. destruct (train self) as [t|]; [|done].
    unfold init_train_trace.
    destruct (not_None (cri_pix t)), (not_None (cri_fea t)), (env_use_gpu env),
      (cri_gp t); reflexivity.
  - destruct (env_is_train env).
    + destruct Htr as (? & t & _ & -> & _). split; eauto.
    + rewrite Htr. split; [by intros [? ?] | done].
Qed.

Lemma init_cuda_witness :
  omap cuda Gpu.init_trace = [CriPix; CriGan; CriCe; CriGp].
Proof.
  refine (proj1 (init_cuda Gpu.env Example.o Gpu.init_trace Gpu.self0 _)).
  vm_compute. reflexivity.
Defined.

(** X13: the networks as [__init__] sets them up: the generator is defined,
    in training mode the discriminator is defined and both are put in
    training mode; then the generator is loaded when
    [opt['path']['pretrain_model_G']] is not [None], and the discriminator
    when [opt['is_train']] is truthy and [opt['path']['pretrain_model_D']] is
    not [None]; the perceptual network is defined last, and only when the
    feature criterion is configured.  The entry ['pretrain_model_D'] is read
    in both modes. *)
Theorem init_network_setup env o tr self :
  __init__ env o = (tr, Ok self) →
  ∃ path pG pD it,
    subscript o "path" = Ok path ∧
    subscript path "pretrain_model_G" = Ok pG ∧
    subscript path "pretrain_model_D" = Ok pD ∧
    subscript o "is_train" = Ok it ∧
    omap network_setup tr =
      EDefine NetG
        :: (if env_is_train env then [EDefine NetD; ETrain NetG; ETrain NetD]
            else [])
        ++ (if is_None pG then [] else [ELoadNetwork pG NetG])
        ++ (if truthy it && negb (is_None pD) then [ELoadNetwork pD NetD] else [])
        ++ match train self with
           | Some t => if not_None (cri_fea t) then [EDefine NetF] else []
           | None => []
           end.
Proof.
  intros Hinit.
  apply init_run in Hinit
    as (path & pG & pD & it & tr_train & tr_print & Hp & HG & HD & Hit & _ & ->
        & Hpr & ->).
  apply print_network_observed in Hpr as [_ Hpr].
  exists path, pG, pD, it. do 4 (split; [done|]).
  rewrite omap_cons_eq, !omap_app, omap_cons_eq, omap_app, Hpr.
  cbn [network_setup omap app].
  f_equal. f_equal; [by destruct (env_is_train env)|].
  rewrite app_nil_r, (assoc_L (++)). f_equal.
  - unfold load_trace.
    by destruct (is_None pG), (truthy it && negb (is_None pD)).
  - destruct (train self) as [t|]; [|done]. unfold init_train_trace.
    by destruct (not_None (cri_pix t)), (not_None (cri_fea t)), (env_use_gpu env),
      (cri_gp t).
Qed.

Lemma init_network_setup_witness :
  ∃ path pG pD it,
    subscript Inference.o "path" = Ok path ∧
    subscript path "pretrain_model_G" = Ok pG ∧
    subscript path "pretrain_model_D" = Ok pD ∧
    subscript Inference.o "is_train" = Ok it ∧
    omap network_setup Inference.init_trace =
      EDefine NetG
        :: []
        ++ (if is_None pG then [] else [ELoadNetwork pG NetG])
        ++ (if truthy it && negb (is_None pD) then [ELoadNetwork pD NetD] else [])
        ++ [].
Proof.
  refine (init_network_setup Inference.env Inference.o Inference.init_trace
            Inference.self0 _).
  vm_compute. reflexivity.
Defined.

Lemma print_network_prints env self tr u :
  print_network env self = (tr, Ok u) →
  omap printed tr =
    ("Number of parameters in G: {:,d}", [VInt (get_network_description env NetG).2])
    :: (if is_train self
        then ("Number of parameters in D: {:,d}",
              [VInt (get_network_description env NetD).2])
             :: match train self with
                | Some t =>
                    if not_None (cri_fea t)
                    then [("Number of parameters in F: {:,d}",
                           [VInt (get_network_description env NetF).2])]
                    else []
                | None => []
                end
        else []).
Proof.
  unfold print_network.
  destruct (get_network_description env NetG) as [sG nG].
  destruct (get_network_description env NetD) as [sD nD].
  destruct (get_network_description env NetF) as [sF nF].
  destruct (is_train self), (netD self), (train self) as [t|]; cbn;
    try (intros H; first [discriminate | by injection H as <-]).
  destruct (cri_fea t), (netF t); cbn;
    intros H; first [discriminate | by injection H as <-].
Qed.

(** X14: what [__init__] prints, in order: the loading message of each
    network it loads; in training mode [Remove pixel loss.] and
    [Remove feature loss.] for each criterion that is not configured; the
    line [Model initialized]; the number of parameters of the generator, in
    training mode that of the discriminator and, with the feature criterion,
    that of the perceptual network; the closing line. *)
Theorem init_prints env o tr self :
  __init__ env o = (tr, Ok self) →
  ∃ path pG pD it,
    subscript o "path" = Ok path ∧
    subscript path "pretrain_model_G" = Ok pG ∧
    subscript path "pretrain_model_D" = Ok pD ∧
    subscript o "is_train" = Ok it ∧
    omap printed tr =
      (if is_None pG then [] else [("loading model for G [%s] ...", [pG])])
      ++ (if truthy it && negb (is_None pD)
          then [("loading model for D [%s] ...", [pD])] else [])
      ++ match train self with
         | Some t =>
             (if not_None (cri_pix t) then [] else [("Remove pixel loss.", [])])
             ++ (if not_None (cri_fea t) then [] else [("Remove feature loss.", [])])
         | None => []
         end
      ++ [("---------- Model initialized ------------------", []);
          ("Number of parameters in G: {:,d}",
           [VInt (get_network_description env NetG).2])]
      ++ (if env_is_train env
          then ("Number of parameters in D: {:,d}",
                [VInt (get_network_description env NetD).2])
               :: match train self with
                  | Some t =>
                      if not_None (cri_fea t)
                      then [("Number of parameters in F: {:,d}",
                             [VInt (get_network_description env NetF).2])]
                      else []
                  | None => []
                  end
          else [])
      ++ [("-----------------------------------------------", [])].
Proof.
  intros Hinit.
  pose proof (init_inv _ _ _ _ Hinit) as [[_ Hit' _ _ _ _ _ _] _].
  apply init_run in Hinit
    as (path & pG & pD & it & tr_train & tr_print & Hp & HG & HD & Hit & _ & ->
        & Hpr & ->).
  apply print_network_prints in Hpr. rewrite Hit' in Hpr.
  exists path, pG, pD, it. do 4 (split; [done|]).
  rewrite omap_cons_eq, !omap_app, omap_cons_eq, omap_app, Hpr.
  cbn [printed omap app].
  replace (omap printed (if env_is_train env
                         then [EDefine NetD; ETrain NetG; ETrain NetD] else []))
    with (@nil (string * list pyval)) by (by destruct (env_is_train env)).
  cbn [app]. rewrite (assoc_L (++) (if is_None pG then _ else _)).
  f_equal; [|f_equal].
  - unfold load_trace.
    by destruct (is_None pG), (truthy it && negb (is_None pD)).
  - destruct (train self) as [t|]; [|done]. unfold init_train_trace.
    by destruct (not_None (cri_pix t)), (not_None (cri_fea t)), (env_use_gpu env),
      (cri_gp t).
Qed.

Lemma init_prints_witness :
  omap printed Inference.init_trace =
    [("loading model for G [%s] ...", [VStr "SFTGAN.pth"]);
     ("---------- Model initialized ------------------", []);
     ("Number of parameters in G: {:,d}", [VInt 100]);
     ("-----------------------------------------------", [])]
  ∧ omap printed Example.init_trace =
      [("Remove feature loss.", []);
       ("---------- Model initialized ------------------", []);
       ("Number of parameters in G: {:,d}", [VInt 100]);
       ("Number of parameters in D: {:,d}", [VInt 200]);
       ("-----------------------------------------------", [])].
Proof.
  split.
  - assert (H : __init__ Inference.env Inference.o
                = (Inference.init_trace, Ok Inference.self0))
      by (vm_compute; reflexivity).
    destruct (init_prints _ _ _ _ H) as (path & pG & pD & it & Hp & HG & HD & Hit & ->).
    injection Hp as <-. injection HG as <-. injection HD as <-. injection Hit as <-.
    reflexivity.
  - destruct (init_prints _ _ _ _ example_init_run)
      as (path & pG & pD & it & Hp & HG & HD & Hit & ->).
    injection Hp as <-. injection HG as <-. injection HD as <-. injection Hit as <-.
    reflexivity.
Defined.

(** ** The optimizers and the criteria of [__init__] *)

Lemma filter_split_perm {A} (f : A → bool) (l : list A) :
  filter (λ x, f x = true) l ++ filter (λ x, f x = false) l ≡ₚ l.
Proof.
  induction l as [|a l IH]; [done|].
  rewrite !filter_cons. destruct (f a) eqn:E.
  - rewrite decide_True, decide_False by done. cbn. by rewrite IH.
  - rewrite decide_False, decide_True by done.
    rewrite <- Permutation_middle. by rewrite IH.
Qed.

(** X15: the two optimizers of the generator share its parameters out:
    together they hold every parameter of the generator exactly once, each
    group in the order of [named_parameters()], and [optimizer_D] holds the
    parameters of the discriminator. *)
Theorem init_parameter_partition env o tr self t :
  __init__ env o = (tr, Ok self) →
  train self = Some t →
  adam_params (optimizer_G_SFT t) ++ adam_params (optimizer_G_other t)
    ≡ₚ (G_named_parameters env).*2
  ∧ adam_params (optimizer_G_SFT t) `sublist_of` (G_named_parameters env).*2
  ∧ adam_params (optimizer_G_other t) `sublist_of` (G_named_parameters env).*2
  ∧ adam_params (optimizer_D t) = D_parameters env.
Proof.
  intros Hinit Ht.
  apply init_inv in Hinit as [[_ _ _ _ _ _ _ Htr] _].
  destruct (env_is_train env); [|congruence].
  destruct Htr as (train_opt & t' & _ & Ht' & Hspec).
  assert (t' = t) as -> by congruence.
  destruct (its_optimizers_G _ _ _ Hspec) as (c & lr & lr5 & b1 & _ & _ & _ & _ & -> & ->).
  destruct (its_optimizer_D _ _ _ Hspec) as (cD & lrD & b1D & _ & _ & _ & ->).
  cbn. rewrite partition_params_filter. cbn.
  split; [|split; [|split; [|done]]].
  - rewrite <- fmap_app.
    by rewrite (filter_split_perm (λ kv, contains "SFT" kv.1 || contains "Cond" kv.1)).
  - apply fmap_sublist, sublist_filter.
  - apply fmap_sublist, sublist_filter.
Qed.

Lemma init_parameter_partition_witness :
  [0%nat; 2%nat] ++ [1%nat; 3%nat] ≡ₚ [0%nat; 1%nat; 2%nat; 3%nat]
  ∧ [0%nat; 2%nat] `sublist_of` [0%nat; 1%nat; 2%nat; 3%nat]
  ∧ [1%nat; 3%nat] `sublist_of` [0%nat; 1%nat; 2%nat; 3%nat]
  ∧ [10%nat; 11%nat] = D_parameters Example.env.
Proof.
  exact (init_parameter_partition Example.env Example.o Example.init_trace
           Example.self0 Example.t example_init_run eq_refl).
Defined.

(** X16: [__init__] gives the discriminator one Adam optimizer over its
    parameters with the learning rate [lr_D], the weight decay
    [weight_decay_D] or 0 when that is falsy, and the betas [(beta1_D, 0.999)];
    and one [MultiStepLR] scheduler for each of the three optimizers, in the
    order in which they were appended, all with the milestones [lr_steps] and
    the factor [lr_gamma]. *)
Theorem init_optimizer_D_schedulers env o tr self t :
  __init__ env o = (tr, Ok self) →
  train self = Some t →
  ∃ train_opt wd lr beta1 steps gamma,
    subscript o "train" = Ok train_opt ∧
    subscript train_opt "weight_decay_D" = Ok wd ∧
    subscript train_opt "lr_D" = Ok lr ∧
    subscript train_opt "beta1_D" = Ok beta1 ∧
    subscript train_opt "lr_steps" = Ok steps ∧
    subscript train_opt "lr_gamma" = Ok gamma ∧
    optimizer_D t =
      {| adam_params := D_parameters env; adam_lr := lr;
         adam_weight_decay := (if truthy wd then wd else VInt 0);
         adam_betas := (beta1, VFloat 0.999) |} ∧
    optimizers t = [Optimizer_G_SFT; Optimizer_G_other; Optimizer_D] ∧
    sched_optimizer <$> schedulers t = optimizers t ∧
    Forall (λ s, sched_milestones s = steps ∧ sched_gamma s = gamma) (schedulers t).
Proof.
  intros Hinit Ht.
  apply init_inv in Hinit as [[_ _ _ _ _ _ _ Htr] _].
  destruct (env_is_train env); [|congruence].
  destruct Htr as (train_opt & t' & Hto & Ht' & Hspec).
  assert (t' = t) as -> by congruence.
  destruct (its_optimizer_D _ _ _ Hspec) as (cD & lrD & b1D & HcD & HlrD & Hb1D & HD).
  destruct (its_schedulers _ _ _ Hspec) as (s & steps & gamma & _ & _ & Hst & Hga & Hss).
  exists train_opt, cD, lrD, b1D, steps, gamma.
  do 6 (split; [done|]). split; [done|].
  rewrite (its_optimizers _ _ _ Hspec), Hss. split; [done|]. split; [done|].
  repeat constructor.
Qed.

Lemma init_optimizer_D_schedulers_witness :
  ∃ train_opt wd lr beta1 steps gamma,
    subscript Example.o "train" = Ok train_opt ∧
    subscript train_opt "weight_decay_D" = Ok wd ∧
    subscript train_opt "lr_D" = Ok lr ∧
    subscript train_opt "beta1_D" = Ok beta1 ∧
    subscript train_opt "lr_steps" = Ok steps ∧
    subscript train_opt "lr_gamma" = Ok gamma ∧
    optimizer_D Example.t =
      {| adam_params := D_parameters Example.env; adam_lr := lr;
         adam_weight_decay := (if truthy wd then wd else VInt 0);
         adam_betas := (beta1, VFloat 0.999) |} ∧
    optimizers Example.t = [Optimizer_G_SFT; Optimizer_G_other; Optimizer_D] ∧
    sched_optimizer <$> schedulers Example.t = optimizers Example.t ∧
    Forall (λ s, sched_milestones s = steps ∧ sched_gamma s = gamma)
      (schedulers Example.t).
Proof.
  exact (init_optimizer_D_schedulers Example.env Example.o Example.init_trace
           Example.self0 Example.t example_init_run eq_refl).
Defined.

Lemma init_loss_unread items missing wk ck msg w v :
  wk ≠ ck →
  subscript (VDict items missing) wk = Ok w →
  py_gt_int w 0 = Ok false →
  init_loss (VDict (<[ck := v]> items) missing) wk ck msg
  = init_loss (VDict items missing) wk ck msg.
Proof.
  intros Hne Hw Hb. unfold init_loss.
  rewrite subscript_insert_ne by done. rewrite Hw. cbn. by rewrite Hb.
Qed.

(** X17: a criterion whose weight is not positive is not looked at: with
    [pixel_weight] not above 0 the entry [pixel_criterion] may hold anything,
    recognized or not, and the training part of [__init__] does the same; so
    for [feature_weight] and [feature_criterion]. *)
Theorem criterion_unread_without_weight env items missing wk ck w v :
  (wk, ck) = ("pixel_weight", "pixel_criterion")
  ∨ (wk, ck) = ("feature_weight", "feature_criterion") →
  subscript (VDict items missing) wk = Ok w →
  py_gt_int w 0 = Ok false →
  init_train env (VDict (<[ck := v]> items) missing)
  = init_train env (VDict items missing).
Proof.
  intros [[= -> ->]|[= -> ->]] Hw Hb.
  - unfold init_train.
    rewrite (init_loss_unread _ _ "pixel_weight" "pixel_criterion" _ w) by done.
    unfold init_loss at 2 4, get_or, init_optimizers_G, init_optimizer_D,
      init_schedulers.
    cbn [for_each]. ext_M.
  - unfold init_train.
    rewrite (init_loss_unread _ _ "feature_weight" "feature_criterion" _ w) by done.
    unfold init_loss at 1 3, get_or, init_optimizers_G, init_optimizer_D,
      init_schedulers.
    cbn [for_each]. ext_M.
Qed.

Lemma criterion_unread_without_weight_witness :
  init_train Example.env
    (VDict (<["feature_criterion" := VStr "l3"]>
              (match Example.train_opt with
               | VDict items _ => items
               | _ => ∅
               end))
       (Some VNone))
  = init_train Example.env Example.train_opt.
Proof.
  refine (criterion_unread_without_weight Example.env _ (Some VNone)
            "feature_weight" "feature_criterion" (VInt 0) (VStr "l3")
            (or_intror eq_refl) _ eq_refl).
  vm_compute. reflexivity.
Defined.

(** ** Validation between training steps *)

(** X18: a forward pass of [test] between two training steps does not
    disturb training: on an object whose generator is in training mode, as
    [__init__] leaves it, the step after [test] does what it does without
    it. *)
Theorem step_after_test self tr self' step :
  netG_training self = true →
  test self = (tr, Ok self') →
  optimize_parameters self' step = optimize_parameters self step
  ∧ test self' = (tr, Ok self').
Proof.
  intros HG H. unfold test in H.
  bind_inv H as u1 H1. bind_inv H as vL HL. bind_inv H as vseg Hseg.
  bind_inv H as u2 H2. bind_inv H as u3 H3.
  apply ret_Ok_inv in H as [<- ->]. apply emit_Ok_inv in H1 as ->.
  apply emit_Ok_inv in H2 as ->. apply emit_Ok_inv in H3 as ->.
  cbn in HL, Hseg.
  split.
  - destruct self as [o it ug sd gt nd tr' L sg ct H fk]; cbn in *; subst.
    reflexivity.
  - rewrite (test_run _ vL vseg) by done.
    destruct self as [o it ug sd gt nd tr' L sg ct H fk]; cbn in *; subst.
    reflexivity.
Qed.

Lemma step_after_test_witness :
  ∃ tr self',
    test Example.self = (tr, Ok self') ∧
    optimize_parameters self' 4 = optimize_parameters Example.self 4.
Proof.
  do 2 eexists. split; [vm_compute; reflexivity|].
  refine (proj1 (step_after_test Example.self _ _ 4 eq_refl _)).
  vm_compute. reflexivity.
Defined.

(** ** Absent entries of the training options *)

Lemma raises_raise {A} e : raises (raise e : M A).
Proof. by eexists _, _. Qed.

Ltac hunt H :=
  lazymatch goal with
  | |- raises (lift (subscript _ _)) =>
      unfold lift, subscript; rewrite H; by eexists _, _
  | |- raises (raise _) => apply raises_raise
  | |- raises (_ ≫= _) =>
      first [ apply raises_bind_l; hunt H
            | apply raises_bind_r; intros; hunt H ]
  | |- raises (if ?b then _ else _) => destruct b; hunt H
  | |- raises (let '(_, _) := ?p in _) => destruct p; hunt H
  | |- raises (init_loss _ _ _ _) => unfold init_loss; hunt H
  | |- raises (get_or _ _ _) => unfold get_or; hunt H
  | |- raises (init_optimizers_G _ _ _) => unfold init_optimizers_G; hunt H
  | |- raises (init_optimizer_D _ _) => unfold init_optimizer_D; hunt H
  | |- raises (init_schedulers _ _) =>
      unfold init_schedulers; cbn [for_each]; hunt H
  end.

Lemma init_train_requires_keys env items k :
  k ∈ required_keys →
  items !! k = None →
  raises (init_train env (VDict items None)).
Proof.
  unfold required_keys. rewrite !elem_of_cons, elem_of_nil.
  intros Hk H. unfold init_train.
  repeat (destruct Hk as [->|Hk]; [hunt H|]). done.
Qed.

(** X19: the defaults do not stand in for an absent entry.  With training
    options that are a plain [dict] (no value for a missing key), [__init__]
    in training mode raises an exception whenever one of the entries it
    always reads is absent, [D_update_ratio], [D_init_iters],
    [weight_decay_G] and [weight_decay_D] among them: their defaults apply to
    a falsy value, not to a missing key. *)
Theorem init_requires_keys env o items k :
  env_is_train env = true →
  subscript o "train" = Ok (VDict items None) →
  k ∈ required_keys →
  items !! k = None →
  raises (__init__ env o).
Proof.
  intros Et Hto Hk H. unfold __init__. rewrite Hto, Et. cbn [is_train].
  apply raises_bind_r. intros _ train_opt [[= <-] _]%lift_Ok_inv.
  do 3 (apply raises_bind_r; intros _ _ _).
  apply raises_bind_l, raises_bind_l. by apply init_train_requires_keys with k.
Qed.

Lemma init_requires_keys_witness : raises (__init__ Example.env PlainDict.o).
Proof.
  refine (init_requires_keys Example.env PlainDict.o PlainDict.items
            "D_update_ratio" eq_refl _ _ _).
  - vm_compute. reflexivity.
  - unfold required_keys. rewrite !elem_of_cons. tauto.
  - vm_compute. reflexivity.
Defined.

(** ** The file system *)

(** X20: only [__init__] and [save] touch the file system: a training step,
    [test], [feed_data], [get_current_visuals] and [get_current_log] write no
    file and save no checkpoint, whatever the object and whether they return
    or raise. *)
Theorem methods_write_no_file (self : model) (step : Z)
    (data : gmap string tensor) (volatile need_HR : bool) :
  quiet (optimize_parameters self step)
  ∧ quiet (test self)
  ∧ quiet (feed_data self data volatile need_HR)
  ∧ quiet (get_current_visuals self need_HR)
  ∧ quiet (get_current_log self).
Proof.
  repeat split.
  - unfold optimize_parameters, optimize_G, gradient_penalty, log_G, is_wgan_gp,
      local.
    quiet; repeat case_match; quiet.
  - unfold test. quiet.
  - unfold feed_data, batch_item. quiet; repeat case_match; quiet.
  - unfold get_current_visuals. quiet.
  - unfold get_current_log. quiet.
Qed.
